(** * sngrep: window and focus management (src/tui/widgets/window.c)

    A shallow embedding of the window module of the sngrep terminal
    interface.  The private state of a window ([WindowPrivate]) is a record;
    the functions of window.c are state transformers over a [World] made of
    that record and the chronological log of the calls the window makes into
    the widget toolkit, the container base class and curses.  Pointers are
    addresses ([Z], with [NULL] = 0); a [GList] node pointer is the position
    of the node in its list, or NULL. *)

From Stdlib Require Import String Ascii ZArith List Bool Lia Arith.
Import ListNotations.

(** ** Outcomes of a C function *)

(** What can go wrong in the C code that the model keeps track of. *)
Inductive fault : Type :=
| NullDeref      (* a field of a NULL pointer is read *)
| OutOfBounds.   (* an array is read past its last element *)

(** A call either returns, stops on a fault, or is still running when the
    fuel given to its loop is used up. *)
Inductive outcome (A : Type) : Type :=
| Done (a : A)
| Crash (f : fault)
| OutOfFuel.

Arguments Done {A} a.
Arguments Crash {A} f.
Arguments OutOfFuel {A}.

Definition obind {A B : Type} (o : outcome A) (k : A -> outcome B) : outcome B :=
  match o with
  | Done a => k a
  | Crash f => Crash f
  | OutOfFuel => OutOfFuel
  end.

(** ** Pointers, enumerations and structures *)

(** [SngWidget *]: the address of a widget. *)
Definition SngWidget : Type := Z.
Definition NULL : Z := 0%Z.

(** [PANEL *] and [WINDOW *] of curses. *)
Definition PANEL : Type := Z.
Definition WINDOW : Type := Z.

(** [WindowType]: an enumeration declared in tui/widgets/window.h, kept as
    the integer it is stored as. *)
Definition WindowType : Type := Z.

(** Modelled from the spec: [KeybindingAction] is declared in
    tui/keybinding.h, which is not among the sources; the resolver's actions
    include at least NEXT_FIELD, PREV_FIELD and UNKNOWN. *)
Inductive KeybindingAction : Type :=
| ACTION_UNKNOWN
| ACTION_NEXT_FIELD
| ACTION_PREV_FIELD
| ACTION_OTHER (code : Z).

(** [MEVENT] of curses. *)
Record MEVENT : Type := mkMEVENT {
  mev_id : Z;
  mev_x : Z;
  mev_y : Z;
  mev_z : Z;
  mev_bstate : Z
}.

(** A [GList] is read from its head; a [GList *] into it is NULL or the
    position of a node. *)
Definition GList : Type := list SngWidget.
Definition GListNode : Type := option nat.

Record WindowPrivate : Type := mkWindowPrivate {
  panel : PANEL;               (* Curses panel pointer *)
  type : WindowType;           (* Panel Type *)
  changed : bool;              (* Flag this panel as redraw required *)
  focus_chain : GList;         (* Focusable widget chain *)
  focus_default : SngWidget;   (* Default focus widget *)
  focus : SngWidget            (* Current focused widget *)
}.

Definition set_panel (p : PANEL) (priv : WindowPrivate) : WindowPrivate :=
  mkWindowPrivate p (type priv) (changed priv) (focus_chain priv)
                  (focus_default priv) (focus priv).

Definition set_changed (b : bool) (priv : WindowPrivate) : WindowPrivate :=
  mkWindowPrivate (panel priv) (type priv) b (focus_chain priv)
                  (focus_default priv) (focus priv).

Definition set_focus_chain (l : GList) (priv : WindowPrivate) : WindowPrivate :=
  mkWindowPrivate (panel priv) (type priv) (changed priv) l
                  (focus_default priv) (focus priv).

Definition set_focus (w : SngWidget) (priv : WindowPrivate) : WindowPrivate :=
  mkWindowPrivate (panel priv) (type priv) (changed priv) (focus_chain priv)
                  (focus_default priv) w.

(** The handlers window.c connects to widget signals. *)
Inductive Callback : Type :=
| cb_window_focus_default_widget
| cb_window_set_focused_widget.

(** ** Calls out of the module

    The functions below are defined in other files of the program or in
    curses.  A call to one of them is recorded with its arguments. *)
Inductive Call : Type :=
| sng_widget_focus_lost (widget : SngWidget)
| sng_widget_focus_gain (widget : SngWidget)
| sng_widget_grab_focus (widget : SngWidget)
| sng_widget_key_pressed (widget : SngWidget) (key : Z)
| sng_widget_clicked (widget : SngWidget) (mevent : MEVENT)
| g_signal_connect_swapped (widget : SngWidget) (signal : string)
                           (handler : Callback)
| container_class_add (widget : SngWidget)
| sng_widget_set_position (x y : Z)
| newwin (nlines ncols begin_y begin_x : Z)
| sng_widget_set_ncurses_window (win : WINDOW)
| wtimeout (win : WINDOW) (delay : Z)
| keypad (win : WINDOW) (bf : bool)
| new_panel (win : WINDOW)
| widget_class_realize.

(** A logged call, with the private state of the window as the callee
    would find it at that moment. *)
Record Observed : Type := mkObserved {
  call : Call;
  seen : WindowPrivate
}.

Record World : Type := mkWorld {
  priv : WindowPrivate;
  trace : list Observed
}.

(** ** The monad of window operations: state and faults *)

Definition M (A : Type) : Type := World -> outcome (A * World).

Definition ret {A : Type} (a : A) : M A := fun w => Done (a, w).

Definition bind {A B : Type} (m : M A) (k : A -> M B) : M B :=
  fun w => obind (m w) (fun aw => k (fst aw) (snd aw)).

Definition lift {A : Type} (o : outcome A) : M A :=
  fun w => obind o (fun a => Done (a, w)).

Declare Scope window_scope.
Delimit Scope window_scope with window.
Notation "x <- m ;; k" := (bind m (fun x => k))
  (at level 61, m at next level, right associativity) : window_scope.
Notation "m ;; k" := (bind m (fun _ => k))
  (at level 61, right associativity) : window_scope.
Open Scope window_scope.

(** [WindowPrivate *priv = window_get_instance_private(window)]. *)
Definition get_priv : M WindowPrivate := fun w => Done (priv w, w).

(** An assignment to a field of [priv]. *)
Definition modify_priv (f : WindowPrivate -> WindowPrivate) : M unit :=
  fun w => Done (tt, mkWorld (f (priv w)) (trace w)).

(** A call out of the module. *)
Definition extern (c : Call) : M unit :=
  fun w => Done (tt, mkWorld (priv w) (trace w ++ [mkObserved c (priv w)])).

(** ** GLib doubly-linked lists *)

Fixpoint find_from (l : GList) (data : SngWidget) (pos : nat) : GListNode :=
  match l with
  | [] => None
  | x :: l' => if Z.eqb x data then Some pos else find_from l' data (S pos)
  end.

(** [g_list_find]: the first node holding [data], or NULL. *)
Definition g_list_find (l : GList) (data : SngWidget) : GListNode :=
  find_from l data 0.

(** [g_list_first] of the head of a list: the head itself (NULL when the
    list is empty). *)
Definition g_list_first (l : GList) : GListNode :=
  match l with
  | [] => None
  | _ :: _ => Some 0
  end.

(** [g_list_last]: the last node (NULL when the list is empty). *)
Definition g_list_last (l : GList) : GListNode :=
  match l with
  | [] => None
  | _ :: _ => Some (length l - 1)
  end.

Definition g_list_append (l : GList) (data : SngWidget) : GList := l ++ [data].

(** [node->next]. *)
Definition node_next (l : GList) (node : GListNode) : outcome GListNode :=
  match node with
  | None => Crash NullDeref
  | Some i => Done (if S i <? length l then Some (S i) else None)
  end.

(** [node->prev]. *)
Definition node_prev (l : GList) (node : GListNode) : outcome GListNode :=
  match node with
  | None => Crash NullDeref
  | Some i => Done (match i with O => None | S j => Some j end)
  end.

(** [node->data]. *)
Definition node_data (l : GList) (node : GListNode) : outcome SngWidget :=
  match node with
  | None => Crash NullDeref
  | Some i => match nth_error l i with
              | Some d => Done d
              | None => Crash OutOfBounds
              end
  end.

Definition is_null (node : GListNode) : bool :=
  match node with
  | None => true
  | Some _ => false
  end.

(** ** Focus transfer *)

(** [window_focused_widget]. *)
Definition window_focused_widget : M SngWidget :=
  p <- get_priv ;; ret (focus p).

(** [window_set_focused_widget]. *)
Definition window_set_focused_widget (widget : SngWidget) : M unit :=
  p <- get_priv ;;
  if Z.eqb (focus p) widget then
    (* SngWidget already has the focus *)
    ret tt
  else
    (* Remove focus from previous focused widget *)
    extern (sng_widget_focus_lost (focus p)) ;;
    modify_priv (set_focus widget) ;;
    extern (sng_widget_focus_gain widget).

(** [window_init], for the window at address [self]: the fields the
    function does not assign are those of the zero-filled instance. *)
Definition window_init (self : SngWidget) : WindowPrivate :=
  mkWindowPrivate NULL 0%Z true [] NULL self.

(** ** Focus navigation *)

Section Navigation.

(** [sng_widget_is_visible], a query of the widget toolkit. *)
Variable sng_widget_is_visible : SngWidget -> bool.

(** The do-while loop of [window_focus_next]; one unit of fuel per
    iteration. *)
Fixpoint focus_next_loop (fuel : nat) (chain : GList) (current : GListNode)
  : outcome GListNode :=
  match fuel with
  | O => OutOfFuel
  | S fuel' =>
      obind (node_next chain current) (fun next =>
      let current' :=
        if is_null next then g_list_first chain
        else if negb (is_null next) then next else g_list_first chain in
      obind (node_data chain current') (fun data =>
      if negb (sng_widget_is_visible data)
      then focus_next_loop fuel' chain current'
      else Done current'))
  end.

(** [window_focus_next]. *)
Definition window_focus_next (fuel : nat) : M unit :=
  p <- get_priv ;;
  let current := g_list_find (focus_chain p) (focus p) in
  current <- lift (focus_next_loop fuel (focus_chain p) current) ;;
  data <- lift (node_data (focus_chain p) current) ;;
  window_set_focused_widget data.

(** The do-while loop of [window_focus_prev]. *)
Fixpoint focus_prev_loop (fuel : nat) (chain : GList) (current : GListNode)
  : outcome GListNode :=
  match fuel with
  | O => OutOfFuel
  | S fuel' =>
      obind (node_prev chain current) (fun prev =>
      let current' :=
        if is_null prev then g_list_last chain
        else if negb (is_null prev) then prev else g_list_last chain in
      obind (node_data chain current') (fun data =>
      if negb (sng_widget_is_visible data)
      then focus_prev_loop fuel' chain current'
      else Done current'))
  end.

(** [window_focus_prev]. *)
Definition window_focus_prev (fuel : nat) : M unit :=
  p <- get_priv ;;
  let current := g_list_find (focus_chain p) (focus p) in
  current <- lift (focus_prev_loop fuel (focus_chain p) current) ;;
  data <- lift (node_data (focus_chain p) current) ;;
  window_set_focused_widget data.

End Navigation.

(** ** Building the focus chain *)

(** A widget subtree as [window_update_focus_chain] reads it through the
    toolkit: the address of the widget, the answer of
    [sng_widget_can_focus], and, when [TUI_IS_CONTAINER] holds, the list
    [container_get_children] returns. *)
#[local] Unset Elimination Schemes.
Inductive Widget : Type :=
| WidgetNode (addr : SngWidget) (can_focus : bool)
             (children : option (list Widget)).
#[local] Set Elimination Schemes.

Definition widget_addr (t : Widget) : SngWidget :=
  match t with WidgetNode a _ _ => a end.

Definition sng_widget_can_focus (t : Widget) : bool :=
  match t with WidgetNode _ c _ => c end.

Definition container_get_children (t : Widget) : option (list Widget) :=
  match t with WidgetNode _ _ k => k end.

(** [window_update_focus_chain]. *)
Fixpoint window_update_focus_chain (widget : Widget) : M unit :=
  match widget with
  | WidgetNode addr can_focus children =>
      (if can_focus then
         modify_priv (fun p =>
           set_focus_chain (g_list_append (focus_chain p) addr) p) ;;
         extern (g_signal_connect_swapped addr "lose-focus"
                   cb_window_focus_default_widget) ;;
         extern (g_signal_connect_swapped addr "grab-focus"
                   cb_window_set_focused_widget)
       else ret tt) ;;
      match children with
      | Some children =>
          (fix each (l : list Widget) : M unit :=
             match l with
             | [] => ret tt
             | child :: l' => window_update_focus_chain child ;; each l'
             end) children
      | None => ret tt
      end
  end.

(** [window_add_widget]. *)
Definition window_add_widget (widget : Widget) : M unit :=
  window_update_focus_chain widget ;;
  extern (container_class_add (widget_addr widget)).

(** The nodes of a subtree in pre-order: the widget itself, then the
    subtree of each child in turn. *)
Fixpoint preorder (t : Widget) : list Widget :=
  match t with
  | WidgetNode _ _ children =>
      t :: match children with
           | Some children =>
               (fix each (l : list Widget) : list Widget :=
                  match l with
                  | [] => []
                  | child :: l' => preorder child ++ each l'
                  end) children
           | None => []
           end
  end.

(** The addresses of the nodes of a subtree that can receive focus, in
    pre-order. *)
Definition focusable (t : Widget) : list SngWidget :=
  map widget_addr (filter sng_widget_can_focus (preorder t)).

(** ** Input dispatch *)

Section Input.

Variable sng_widget_is_visible : SngWidget -> bool.

(** [container_find_by_position] on the window, by column and row. *)
Variable container_find_by_position : Z -> Z -> SngWidget.

(** The values [sng_widget_clicked] and [sng_widget_key_pressed] return. *)
Variable clicked_result : SngWidget -> MEVENT -> Z.
Variable key_pressed_result : SngWidget -> Z -> Z.

(** [key_find_action] of the keybinding table. *)
Variable key_find_action : Z -> KeybindingAction -> KeybindingAction.

(** The verdict [KEY_HANDLED], declared outside window.c. *)
Variable KEY_HANDLED : Z.

(** [window_handle_mouse]. *)
Definition window_handle_mouse (mevent : MEVENT) : M Z :=
  modify_priv (set_changed true) ;;
  let clicked_widget :=
    container_find_by_position (mev_x mevent) (mev_y mevent) in
  if negb (Z.eqb clicked_widget NULL) then
    window_set_focused_widget clicked_widget ;;
    extern (sng_widget_clicked clicked_widget mevent) ;;
    ret (clicked_result clicked_widget mevent)
  else
    ret KEY_HANDLED.

(** [window_handle_key]. *)
Definition window_handle_key (fuel : nat) (key : Z) : M Z :=
  modify_priv (set_changed true) ;;
  (* Check actions for this key *)
  let action := key_find_action key ACTION_UNKNOWN in
  match action with
  | ACTION_NEXT_FIELD =>
      window_focus_next sng_widget_is_visible fuel ;;
      ret KEY_HANDLED
  | ACTION_PREV_FIELD =>
      window_focus_prev sng_widget_is_visible fuel ;;
      ret KEY_HANDLED
  | _ =>
      p <- get_priv ;;
      extern (sng_widget_key_pressed (focus p) key) ;;
      ret (key_pressed_result (focus p) key)
  end.

End Input.

(** ** Machine integers *)

Definition G_MININT : Z := (- 2 ^ 31)%Z.
Definition G_MAXINT : Z := (2 ^ 31 - 1)%Z.

(** A value is representable as a [gint]. *)
Definition is_gint (z : Z) : Prop := (G_MININT <= z <= G_MAXINT)%Z.

(** Reduction of an integer to the 32 bits of a [gint], two's complement. *)
Definition wrap_gint (z : Z) : Z :=
  ((z + 2 ^ 31) mod 2 ^ 32 - 2 ^ 31)%Z.

Definition gint_sub (a b : Z) : Z := wrap_gint (a - b).
Definition gint_add (a b : Z) : Z := wrap_gint (a + b).

(** Division of C: the quotient is truncated toward zero. *)
Definition gint_div (a b : Z) : Z := wrap_gint (Z.quot a b).

(** The macro [ABS] of GLib: [(((a) < 0) ? -(a) : (a))]. *)
Definition ABS (a : Z) : Z := if (a <? 0)%Z then wrap_gint (- a) else a.

(** ** Realization *)

(** [window_realize].  [realized] is the answer of
    [sng_widget_is_realized]; [maxy] and [maxx] are what
    [getmaxyx(stdscr, ...)] stores; [height] and [width] are the widget's
    dimensions; [win] and [pan] are the pointers [newwin] and [new_panel]
    return. *)
Definition window_realize (realized : bool) (maxy maxx height width : Z)
                          (win : WINDOW) (pan : PANEL) : M unit :=
  (if negb realized then
     (* Get current screen dimensions *)
     let xpos := 0%Z in
     let ypos := 0%Z in
     (* If panel doesn't fill the screen center it *)
     let xpos := if negb (height =? maxy)%Z
                 then ABS (gint_div (gint_sub maxy height) 2) else xpos in
     let ypos := if negb (width =? maxx)%Z
                 then ABS (gint_div (gint_sub maxx width) 2) else ypos in
     extern (sng_widget_set_position xpos ypos) ;;
     extern (newwin height width xpos ypos) ;;
     extern (sng_widget_set_ncurses_window win) ;;
     extern (wtimeout win 0) ;;
     extern (keypad win true) ;;
     extern (new_panel win) ;;
     modify_priv (set_panel pan)
   else ret tt) ;;
  extern widget_class_realize.

(** The centring rule in the words of the specification: no offset when the
    two dimensions agree, otherwise the magnitude of the truncated half of
    their difference. *)
Definition centred (screen_dim window_dim : Z) : Z :=
  if (screen_dim =? window_dim)%Z then 0%Z
  else Z.abs (Z.quot (screen_dim - window_dim) 2).

(** ** The footer of key bindings *)

Inductive ColorPair : Type :=
| CP_DEF_ON_CYAN
| CP_WHITE_ON_CYAN
| CP_BLACK_ON_CYAN.

Inductive Attr : Type :=
| A_REVERSE
| A_BOLD
| COLOR_PAIR (cp : ColorPair).

(** The curses calls of the drawing code, all on the window of the widget;
    an attribute mask is the list of the attributes or-ed together, and
    [mvwprintw] carries the format, the field width given for its [*] and
    the string printed. *)
Inductive Curses : Type :=
| wattron (attrs : list Attr)
| wattroff (attrs : list Attr)
| mvwprintw (y x : Z) (fmt : string) (field_width : Z) (text : string).

(** [strlen]. *)
Definition strlen (s : string) : Z := Z.of_nat (String.length s).

(** [keybindings[key]], for an array of [length keybindings] strings. *)
Definition array_get (keybindings : list string) (key : Z) : outcome string :=
  if (key <? 0)%Z then Crash OutOfBounds
  else match nth_error keybindings (Z.to_nat key) with
       | Some s => Done s
       | None => Crash OutOfBounds
       end.

(** [window_clear_line], on a widget [width] columns wide. *)
Definition window_clear_line (width line : Z) : list Curses :=
  [mvwprintw line 0 "%*s" width ""].

(** The for loop of [window_draw_bindings], from the test of its condition;
    [row] is [sng_widget_get_height(...) - 1]. *)
Fixpoint draw_bindings_loop (fuel : nat) (keybindings : list string)
                            (count row key xpos : Z)
  : outcome (list Curses) :=
  match fuel with
  | O => OutOfFuel
  | S fuel' =>
      if (key <? count)%Z then
        obind (array_get keybindings key) (fun label =>
        obind (array_get keybindings (gint_add key 1)) (fun descr =>
        let cell1 :=
          [ wattron [A_BOLD; COLOR_PAIR CP_WHITE_ON_CYAN];
            mvwprintw row xpos "%-*s" (wrap_gint (strlen label + 1)) label ] in
        let xpos := wrap_gint (xpos + (strlen label + 1)) in
        let cell2 :=
          [ wattroff [A_BOLD; COLOR_PAIR CP_WHITE_ON_CYAN];
            wattron [COLOR_PAIR CP_BLACK_ON_CYAN];
            mvwprintw row xpos "%-*s" (wrap_gint (strlen descr + 1)) descr;
            wattroff [COLOR_PAIR CP_BLACK_ON_CYAN] ] in
        let xpos := wrap_gint (xpos + (strlen descr + 3)) in
        obind (draw_bindings_loop fuel' keybindings count row
                                  (gint_add key 2) xpos)
              (fun rest => Done (cell1 ++ cell2 ++ rest))))
      else Done []
  end.

(** [window_draw_bindings], on a widget [height] rows high and [width]
    columns wide; [has_colors] is the answer of curses. *)
Definition window_draw_bindings (has_colors : bool) (height width : Z)
                                (fuel : nat) (keybindings : list string)
                                (count : Z) : outcome (list Curses) :=
  let row := gint_sub height 1 in
  obind (draw_bindings_loop fuel keybindings count row 0 0) (fun cells =>
  Done (
    (* Reverse colors on monochrome terminals *)
    (if negb has_colors then [wattron [A_REVERSE]] else []) ++
    (* Write a line all the footer width *)
    [wattron [COLOR_PAIR CP_DEF_ON_CYAN]] ++
    window_clear_line width row ++
    (* Draw keys and their actions *)
    cells ++
    (* Disable reverse mode in all cases *)
    [wattroff [A_REVERSE; A_BOLD]])).

(** A footer cell: where it starts, the width it is printed in and its
    text. *)
Record Cell : Type := mkCell {
  cell_col : Z;
  cell_width : Z;
  cell_text : string
}.

(** The cell a curses call prints, if any: a string printed left-justified
    in a field. *)
Definition cell_of (c : Curses) : list Cell :=
  match c with
  | mvwprintw _ x fmt fw s =>
      if String.eqb fmt "%-*s" then [mkCell x fw s] else []
  | _ => []
  end.

(** The cells of a drawing, in the order they are printed. *)
Definition cells_of (l : list Curses) : list Cell := flat_map cell_of l.

(** The flat array of a sequence of (key-label, description) pairs. *)
Fixpoint flatten_pairs (pairs : list (string * string)) : list string :=
  match pairs with
  | [] => []
  | (label, descr) :: rest => label :: descr :: flatten_pairs rest
  end.

(** Every cell starts where the padded width of the cell before it
    ends. *)
Fixpoint contiguous (cells : list Cell) : bool :=
  match cells with
  | c :: ((c' :: _) as rest) =>
      (cell_col c' =? cell_col c + cell_width c)%Z && contiguous rest
  | _ => true
  end.

(** The columns a footer takes: each string and its column of padding, and
    the two further columns after each pair. *)
Fixpoint footer_extent (pairs : list (string * string)) : Z :=
  match pairs with
  | [] => 0%Z
  | (label, descr) :: rest =>
      (strlen label + 1 + (strlen descr + 1) + 2 + footer_extent rest)%Z
  end.

(** ** Repetition *)

(** [n] calls of an operation, one after the other. *)
Fixpoint times (n : nat) (m : M unit) : M unit :=
  match n with
  | O => ret tt
  | S k => m ;; times k m
  end.

(** ** Vocabulary of the statements *)

(** Two private states agree on every field but [focus]. *)
Definition same_but_focus (p p' : WindowPrivate) : Prop :=
  panel p' = panel p /\ type p' = type p /\ changed p' = changed p /\
  focus_chain p' = focus_chain p /\ focus_default p' = focus_default p.

(** The calls of a log that reach a key handler. *)
Definition is_key_pressed (o : Observed) : bool :=
  match call o with
  | sng_widget_key_pressed _ _ => true
  | _ => false
  end.

Definition key_presses (l : list Observed) : list Observed :=
  filter is_key_pressed l.

(** The world once the window is marked as changed. *)
Definition mark_changed (w : World) : World :=
  mkWorld (set_changed true (priv w)) (trace w).

(** The position after [i] in a ring of [n] nodes, and the one before. *)
Definition succ_pos (n i : nat) : nat := if S i <? n then S i else 0.

Definition pred_pos (n i : nat) : nat :=
  match i with
  | O => n - 1
  | S j => j
  end.

(** The widget at a position of the chain exists and is visible. *)
Definition visible_at (is_visible : SngWidget -> bool) (chain : GList)
                      (j : nat) : bool :=
  match nth_error chain j with
  | Some d => is_visible d
  | None => false
  end.

(** The scenario of the specification: a chain of three widgets A, B and C
    at addresses 1, 2 and 3, of which B is hidden, with the focus on A. *)
Definition scenario_visible (widget : SngWidget) : bool :=
  negb (Z.eqb widget 2%Z).

Definition scenario_window : World :=
  mkWorld (mkWindowPrivate NULL 0%Z false [1%Z; 2%Z; 3%Z] NULL 1%Z) [].

(** A window whose chain holds the widget at address 1 twice, around the
    widget at address 2, with the focus on the former. *)
Definition repeated_member_window : World :=
  mkWorld (mkWindowPrivate NULL 0%Z false [1%Z; 2%Z; 1%Z] NULL 1%Z) [].

(** The two subscriptions [window_update_focus_chain] installs on a widget
    it appends to the chain. *)
Definition subscriptions (addr : SngWidget) : list Call :=
  [ g_signal_connect_swapped addr "lose-focus" cb_window_focus_default_widget;
    g_signal_connect_swapped addr "grab-focus" cb_window_set_focused_widget ].

(** The walk of [window_update_focus_chain] over a list of children. *)
Definition update_each (l : list Widget) : M unit :=
  (fix each (l : list Widget) : M unit :=
     match l with
     | [] => ret tt
     | child :: l' => window_update_focus_chain child ;; each l'
     end) l.

(** A subtree of five widgets, three of which can receive focus: a box at
    address 10 holding a button (11), a label (12) and an inner box (13)
    that holds an entry (14). *)
Definition scenario_subtree : Widget :=
  WidgetNode 10%Z false
    (Some [ WidgetNode 11%Z true None;
            WidgetNode 12%Z false None;
            WidgetNode 13%Z true (Some [ WidgetNode 14%Z true None ]) ]).

(** The cells of a footer that starts at column [x]: the key-label in a
    field of its length plus one, the description right after it in a
    field of its length plus one, and the next pair two columns further. *)
Fixpoint footer_cells (pairs : list (string * string)) (x : Z) : list Cell :=
  match pairs with
  | [] => []
  | (label, descr) :: rest =>
      mkCell x (strlen label + 1) label ::
      mkCell (x + (strlen label + 1)) (strlen descr + 1) descr ::
      footer_cells rest (x + (strlen label + 1) + (strlen descr + 3))
  end.

(** What a walk leaves behind: the chain with [added] appended, nothing
    else changed in the private state, and the subscriptions of [added]
    after the calls already made. *)
Definition walked (added : list SngWidget) (w w' : World) : Prop :=
  priv w' = set_focus_chain (focus_chain (priv w) ++ added) (priv w) /\
  map call (trace w') = map call (trace w) ++ flat_map subscriptions added.

(** A keybinding table for the scenario: Tab (9) moves to the next field,
    back-tab (353) to the previous one, and no other key is bound. *)
Definition scenario_action (key : Z) (start : KeybindingAction)
  : KeybindingAction :=
  if Z.eqb key 9 then ACTION_NEXT_FIELD
  else if Z.eqb key 353 then ACTION_PREV_FIELD
  else ACTION_OTHER key.

(** ** Redraw *)

(** [window_redraw].  [is_window] is the answer of [TUI_IS_WINDOW], on
    which [g_return_val_if_fail] returns FALSE; [klass_redraw] is the
    [redraw] function of the class of the window, absent when the pointer
    is NULL. *)
Definition window_redraw (is_window : bool) (klass_redraw : option (M bool))
  : M bool :=
  if negb is_window then ret false
  else
    p <- get_priv ;;
    (* If ui has changed, force redraw. Don't even ask. *)
    if changed p then
      modify_priv (set_changed false) ;;
      ret true
    else
      match klass_redraw with
      | Some redraw => redraw
      | None => ret true
      end.

(** ** Drawing the widgets *)

(** The calls of [window_draw] into the widget toolkit. *)
Inductive DrawCall : Type :=
| sng_widget_draw (widget : SngWidget)
| sng_widget_map (widget : SngWidget).

Section Drawing.

(** [sng_widget_is_floating], a query of the widget toolkit. *)
Variable sng_widget_is_floating : SngWidget -> bool.

(** [window_map_floating_child]. *)
Fixpoint window_map_floating_child (widget : Widget) : list DrawCall :=
  match widget with
  | WidgetNode addr _ children =>
      match children with
      | Some children =>
          (fix each (l : list Widget) : list DrawCall :=
             match l with
             | [] => []
             | child :: l' => window_map_floating_child child ++ each l'
             end) children
      | None => []
      end ++
      (if sng_widget_is_floating addr then [sng_widget_map addr] else [])
  end.

(** [window_map_floating], on a window whose children are [children].
    Modelled from the spec: [container_foreach] is defined in
    tui/widgets/container.c, which is not among the sources; it calls the
    function on each child of the container, in the order of the
    children. *)
Definition window_map_floating (children : list Widget) : list DrawCall :=
  flat_map window_map_floating_child children.

(** [window_draw], on the window at address [self]: the calls made and the
    value returned. *)
Definition window_draw (self : SngWidget) (children : list Widget)
  : list DrawCall * Z :=
  ( (* Draw all widgets of the window *)
    [sng_widget_draw self] ++
    (* Map all widgets to their screen positions *)
    [sng_widget_map self] ++
    (* Map all floating widgets *)
    window_map_floating children,
    0%Z ).

End Drawing.

(** The nodes of a subtree in post-order: the subtree of each child in
    turn, then the widget itself. *)
Fixpoint postorder (t : Widget) : list Widget :=
  match t with
  | WidgetNode _ _ children =>
      match children with
      | Some children =>
          (fix each (l : list Widget) : list Widget :=
             match l with
             | [] => []
             | child :: l' => postorder child ++ each l'
             end) children
      | None => []
      end ++ [t]
  end.

(** ** The title *)

(** Reduction of an integer to a [size_t] of 64 bits. *)
Definition wrap_size_t (z : Z) : Z := (z mod 2 ^ 64)%Z.

(** The calls of [window_set_title]: curses calls as in the footer, and the
    print of the title with the format ["%s"]. *)
Inductive TitleCall : Type :=
| title_curses (c : Curses)
| title_print (y x : Z) (text : string).

(** [window_set_title], on a widget [width] columns wide.  The column is
    computed in [size_t], the type of [strlen], and converted to the [int]
    that [mvwprintw] takes.  [CP_DEF_ON_BLUE] is the colour pair of that
    name, declared in tui/theme.h. *)
Definition window_set_title (has_colors : bool) (CP_DEF_ON_BLUE : ColorPair)
                            (width : Z) (title : string) : list TitleCall :=
  (* Reverse colors on monochrome terminals *)
  (if negb has_colors then [title_curses (wattron [A_REVERSE])] else []) ++
  (* Center the title on the window *)
  [title_curses (wattron [A_BOLD; COLOR_PAIR CP_DEF_ON_BLUE])] ++
  map title_curses (window_clear_line width 0) ++
  [title_print 0
     (wrap_gint (wrap_size_t (wrap_size_t width - strlen title) / 2)) title] ++
  [title_curses (wattroff [A_BOLD; A_REVERSE; COLOR_PAIR CP_DEF_ON_BLUE])].

(** The columns at which a drawing prints a title. *)
Definition title_columns (l : list TitleCall) : list Z :=
  flat_map (fun c => match c with
                     | title_print _ x _ => [x]
                     | title_curses _ => []
                     end) l.

(** ** Sequences of input *)

(** A key as the window receives it: what the code that ran since the
    previous key (the handlers of the widgets, the rest of the program)
    has made of the world, which widgets are visible when the key is
    handled, and the key. *)
Record KeyStep : Type := mkKeyStep {
  step_before : World -> World;
  step_visible : SngWidget -> bool;
  step_key : Z
}.

Section InputSequences.

Variable key_pressed_result : SngWidget -> Z -> Z.
Variable key_find_action : Z -> KeybindingAction -> KeybindingAction.
Variable KEY_HANDLED : Z.

(** The keys of a list given to [window_handle_key] one after the other,
    each in the world and with the visibility of its step; the verdicts
    in order. *)
Fixpoint handle_key_steps (fuel : nat) (steps : list KeyStep)
  : M (list Z) :=
  match steps with
  | [] => ret []
  | s :: rest =>
      v <- (fun w =>
              window_handle_key (step_visible s) key_pressed_result
                                key_find_action KEY_HANDLED fuel (step_key s)
                                (step_before s w)) ;;
      vs <- handle_key_steps fuel rest ;;
      ret (v :: vs)
  end.

End InputSequences.

(** The key is bound to one of the two navigation actions. *)
Definition is_navigation (a : KeybindingAction) : bool :=
  match a with
  | ACTION_NEXT_FIELD | ACTION_PREV_FIELD => true
  | _ => false
  end.

(** [k] steps of [step] from the position [i] reach the nearest visible
    position of the chain: the widget there is visible and the widget at
    every position passed on the way is hidden. *)
Definition nearest_visible (is_visible : SngWidget -> bool) (chain : GList)
                           (step : nat -> nat) (i k : nat) : Prop :=
  1 <= k <= length chain /\
  visible_at is_visible chain (Nat.iter k step i) = true /\
  forall k', 1 <= k' < k ->
             visible_at is_visible chain (Nat.iter k' step i) = false.

(** ** Sequences of keys and clicks *)

(** An event of the input loop. *)
Inductive InputEvent : Type :=
| key_event (key : Z)
| mouse_event (mevent : MEVENT).

Section EventSequences.

Variable sng_widget_is_visible : SngWidget -> bool.
Variable container_find_by_position : Z -> Z -> SngWidget.
Variable clicked_result : SngWidget -> MEVENT -> Z.
Variable key_pressed_result : SngWidget -> Z -> Z.
Variable key_find_action : Z -> KeybindingAction -> KeybindingAction.
Variable KEY_HANDLED : Z.

(** The handler of an event. *)
Definition handle_event (fuel : nat) (e : InputEvent) : M Z :=
  match e with
  | key_event key =>
      window_handle_key sng_widget_is_visible key_pressed_result
                        key_find_action KEY_HANDLED fuel key
  | mouse_event mevent =>
      window_handle_mouse container_find_by_position clicked_result
                          KEY_HANDLED mevent
  end.

(** The events of a list handled one after the other; the verdicts in
    order. *)
Fixpoint handle_events (fuel : nat) (events : list InputEvent)
  : M (list Z) :=
  match events with
  | [] => ret []
  | e :: rest =>
      v <- handle_event fuel e ;;
      vs <- handle_events fuel rest ;;
      ret (v :: vs)
  end.

End EventSequences.

(** The focus notifications of a log, in order. *)
Definition is_focus_notification (c : Call) : bool :=
  match c with
  | sng_widget_focus_lost _ | sng_widget_focus_gain _ => true
  | _ => false
  end.

Definition focus_notifications (l : list Observed) : list Call :=
  filter is_focus_notification (map call l).

(** The holder of the focus after a run of notifications that hands it
    over properly from [holder]: the notifications come in pairs, a loss
    by the current holder followed by a gain by another widget, which is
    the holder from then on.  [None] when the run is not of that form. *)
Fixpoint hand_over (holder : SngWidget) (l : list Call) : option SngWidget :=
  match l with
  | [] => Some holder
  | sng_widget_focus_lost x :: sng_widget_focus_gain y :: l' =>
      if Z.eqb x holder && negb (Z.eqb y x) then hand_over y l' else None
  | _ => None
  end.

(** ** The default focus widget *)






(** * Properties *)

(** ** Focus transfer *)

Lemma set_focused_same (w : World) (widget : SngWidget) :
  focus (priv w) = widget ->
  window_set_focused_widget widget w = Done (tt, w).
Proof.
  intros H. unfold window_set_focused_widget, bind, get_priv. simpl.
  rewrite H, Z.eqb_refl. reflexivity.
Qed.

Lemma set_focused_other (w : World) (widget : SngWidget) :
  focus (priv w) <> widget ->
  window_set_focused_widget widget w =
  Done (tt, mkWorld (set_focus widget (priv w))
              (trace w ++
               [ mkObserved (sng_widget_focus_lost (focus (priv w))) (priv w);
                 mkObserved (sng_widget_focus_gain widget)
                            (set_focus widget (priv w)) ])).
Proof.
  intros H. unfold window_set_focused_widget, bind, get_priv. simpl.
  apply Z.eqb_neq in H. rewrite H.
  unfold extern, modify_priv, obind. simpl.
  rewrite <- app_assoc. reflexivity.
Qed.

(** Whatever the widget, the transfer returns, touches no field but
    [focus], leaves that field on the widget and logs no key press. *)
Lemma set_focused_total (w : World) (widget : SngWidget) :
  exists w', window_set_focused_widget widget w = Done (tt, w') /\
             same_but_focus (priv w) (priv w') /\
             focus (priv w') = widget /\
             key_presses (trace w') = key_presses (trace w).
Proof.
  destruct (Z.eq_dec (focus (priv w)) widget) as [E | E].
  - exists w. rewrite (set_focused_same w widget E).
    repeat split; assumption.
  - eexists. rewrite (set_focused_other w widget E).
    split; [reflexivity |]. simpl.
    split; [repeat split |]. split; [reflexivity |].
    unfold key_presses. rewrite filter_app. simpl. apply app_nil_r.
Qed.

(** C2: [window_set_focused_widget] on the widget that already has the
    focus makes no call and returns the world as it found it.  On any other
    widget it returns with the focus on that widget and every other field
    of the private state as it was, and it adds two calls to the log and
    no more: first [sng_widget_focus_lost] on the widget that had the
    focus, made while [focus] still names that widget, then
    [sng_widget_focus_gain] on the new widget, made once [focus] names the
    new widget. *)
Theorem C2_set_focused_widget_protocol (w : World) (widget : SngWidget) :
  (focus (priv w) = widget ->
   window_set_focused_widget widget w = Done (tt, w)) /\
  (focus (priv w) <> widget ->
   exists w',
     window_set_focused_widget widget w = Done (tt, w') /\
     focus (priv w') = widget /\
     panel (priv w') = panel (priv w) /\
     type (priv w') = type (priv w) /\
     changed (priv w') = changed (priv w) /\
     focus_chain (priv w') = focus_chain (priv w) /\
     focus_default (priv w') = focus_default (priv w) /\
     trace w' =
       trace w ++
       [ mkObserved (sng_widget_focus_lost (focus (priv w))) (priv w);
         mkObserved (sng_widget_focus_gain widget) (priv w') ] /\
     focus (seen (mkObserved (sng_widget_focus_lost (focus (priv w)))
                             (priv w))) <> widget /\
     focus (seen (mkObserved (sng_widget_focus_gain widget) (priv w')))
       = widget).
Proof.
  split; [apply set_focused_same |].
  intros Hne. eexists. split; [apply set_focused_other; exact Hne |].
  cbn [priv trace seen focus panel type changed focus_chain focus_default
       set_focus].
  repeat (split; [reflexivity |]). split; [exact Hne | reflexivity].
Qed.

Lemma C2_set_focused_widget_protocol_witness :
  window_set_focused_widget 7%Z (mkWorld (window_init 7%Z) []) =
    Done (tt, mkWorld (window_init 7%Z) []) /\
  exists w',
    window_set_focused_widget 3%Z (mkWorld (window_init 7%Z) []) =
      Done (tt, w') /\
    focus (priv w') = 3%Z /\
    map call (trace w') =
      [sng_widget_focus_lost 7%Z; sng_widget_focus_gain 3%Z] /\
    map (fun o => focus (seen o)) (trace w') = [7%Z; 3%Z].
Proof.
  split.
  - apply (proj1 (C2_set_focused_widget_protocol
                    (mkWorld (window_init 7%Z) []) 7%Z)).
    reflexivity.
  - destruct (proj2 (C2_set_focused_widget_protocol
                       (mkWorld (window_init 7%Z) []) 3%Z))
      as [w' [Hrun [Hfocus [_ [_ [_ [_ [_ [Htrace _]]]]]]]]].
    + simpl. lia.
    + exists w'. split; [exact Hrun |]. split; [exact Hfocus |].
      rewrite Htrace. cbn [app map call seen trace]. rewrite Hfocus.
      split; reflexivity.
Defined.

(** ** Searching the chain *)

Lemma find_from_sound (l : GList) (d : SngWidget) :
  forall pos j, find_from l d pos = Some j ->
                pos <= j /\ nth_error l (j - pos) = Some d.
Proof.
  induction l as [| x l IH]; intros pos j H; simpl in H.
  - discriminate.
  - destruct (Z.eqb_spec x d) as [E | E].
    + injection H as <-. rewrite Nat.sub_diag. subst x. split; [lia | reflexivity].
    + apply IH in H. destruct H as [Hle Hn]. split; [lia |].
      replace (j - pos) with (S (j - S pos)) by lia. exact Hn.
Qed.

Lemma find_from_none (l : GList) (d : SngWidget) :
  forall pos, ~ In d l -> find_from l d pos = None.
Proof.
  induction l as [| x l IH]; intros pos H; simpl.
  - reflexivity.
  - destruct (Z.eqb_spec x d) as [E | E].
    + exfalso. apply H. left. exact E.
    + apply IH. intros Hin. apply H. right. exact Hin.
Qed.

Lemma find_from_some (l : GList) (d : SngWidget) :
  forall pos, In d l -> exists j, find_from l d pos = Some j.
Proof.
  induction l as [| x l IH]; intros pos H; simpl.
  - destruct H.
  - destruct (Z.eqb_spec x d) as [E | E].
    + eexists. reflexivity.
    + destruct H as [H | H]; [contradiction |]. apply IH. exact H.
Qed.

Lemma find_from_nodup (l : GList) (d : SngWidget) :
  forall pos i, NoDup l -> nth_error l i = Some d ->
                find_from l d pos = Some (pos + i).
Proof.
  induction l as [| x l IH]; intros pos i Hnd Hn.
  - destruct i; discriminate.
  - simpl. inversion Hnd as [| ? ? Hnotin Hnd']; subst.
    destruct i as [| i]; simpl in Hn.
    + injection Hn as ->. rewrite Z.eqb_refl. f_equal. lia.
    + destruct (Z.eqb_spec x d) as [E | E].
      * exfalso. apply Hnotin. subst x. eapply nth_error_In. exact Hn.
      * rewrite (IH (S pos) i Hnd' Hn). f_equal. lia.
Qed.

(** [g_list_find] on a member gives a node of the list that holds it. *)
Lemma g_list_find_member (l : GList) (d : SngWidget) :
  In d l ->
  exists i, g_list_find l d = Some i /\ i < length l /\ nth_error l i = Some d.
Proof.
  intros H. destruct (find_from_some l d 0 H) as [j Hj].
  exists j. split; [exact Hj |].
  apply find_from_sound in Hj. destruct Hj as [_ Hn].
  rewrite Nat.sub_0_r in Hn. split; [| exact Hn].
  apply nth_error_Some. rewrite Hn. discriminate.
Qed.

Lemma g_list_find_absent (l : GList) (d : SngWidget) :
  ~ In d l -> g_list_find l d = None.
Proof. apply find_from_none. Qed.

Lemma g_list_find_nodup (l : GList) (d : SngWidget) (i : nat) :
  NoDup l -> nth_error l i = Some d -> g_list_find l d = Some i.
Proof. intros Hnd Hn. apply (find_from_nodup l d 0 i Hnd Hn). Qed.

(** ** Positions on the ring *)

Lemma succ_pos_lt (n i : nat) : i < n -> succ_pos n i < n.
Proof.
  intros H. unfold succ_pos. destruct (Nat.ltb_spec (S i) n); lia.
Qed.

Lemma pred_pos_lt (n i : nat) : i < n -> pred_pos n i < n.
Proof. intros H. unfold pred_pos. destruct i; lia. Qed.

Lemma iter_succ_pos_lt (n k i : nat) : i < n -> Nat.iter k (succ_pos n) i < n.
Proof.
  intros H. induction k as [| k IH]; simpl; [exact H | apply succ_pos_lt, IH].
Qed.

Lemma iter_pred_pos_lt (n k i : nat) : i < n -> Nat.iter k (pred_pos n) i < n.
Proof.
  intros H. induction k as [| k IH]; simpl; [exact H | apply pred_pos_lt, IH].
Qed.

Lemma iter_succ_pos_add (n k i : nat) :
  i + k < n -> Nat.iter k (succ_pos n) i = i + k.
Proof.
  induction k as [| k IH]; intros H; simpl.
  - lia.
  - rewrite IH by lia. unfold succ_pos.
    destruct (Nat.ltb_spec (S (i + k)) n); lia.
Qed.

Lemma iter_succ_pos_wrap (n i : nat) :
  i < n -> Nat.iter (n - i) (succ_pos n) i = 0.
Proof.
  intros H. replace (n - i) with (S (n - i - 1)) by lia. simpl.
  rewrite iter_succ_pos_add by lia. unfold succ_pos.
  destruct (Nat.ltb_spec (S (i + (n - i - 1))) n); lia.
Qed.

(** A full turn forward comes back to the start. *)
Lemma iter_succ_pos_cycle (n i : nat) :
  i < n -> Nat.iter n (succ_pos n) i = i.
Proof.
  intros H.
  assert (E : Nat.iter (i + (n - i)) (succ_pos n) i = i).
  { rewrite Nat.iter_add, iter_succ_pos_wrap by exact H.
    rewrite iter_succ_pos_add by lia. reflexivity. }
  replace (i + (n - i)) with n in E by lia. exact E.
Qed.

(** Every position is reached from every other in at most a turn. *)
Lemma iter_succ_pos_reach (n i j : nat) :
  i < n -> j < n ->
  exists k, 1 <= k <= n /\ Nat.iter k (succ_pos n) i = j.
Proof.
  intros Hi Hj. destruct (Nat.lt_ge_cases i j) as [Hlt | Hge].
  - exists (j - i). split; [lia |]. rewrite iter_succ_pos_add; lia.
  - exists (j + (n - i)). split; [lia |].
    rewrite Nat.iter_add, iter_succ_pos_wrap by exact Hi.
    rewrite iter_succ_pos_add; lia.
Qed.

Lemma iter_pred_pos_sub (n k i : nat) :
  k <= i -> Nat.iter k (pred_pos n) i = i - k.
Proof.
  induction k as [| k IH]; intros H; simpl.
  - lia.
  - rewrite IH by lia. unfold pred_pos.
    destruct (i - k) eqn:E; lia.
Qed.

Lemma iter_pred_pos_wrap (n i : nat) :
  Nat.iter (S i) (pred_pos n) i = n - 1.
Proof.
  simpl. rewrite iter_pred_pos_sub by lia. rewrite Nat.sub_diag. reflexivity.
Qed.

Lemma iter_pred_pos_reach (n i j : nat) :
  i < n -> j < n ->
  exists k, 1 <= k <= n /\ Nat.iter k (pred_pos n) i = j.
Proof.
  intros Hi Hj. destruct (Nat.lt_ge_cases j i) as [Hlt | Hge].
  - exists (i - j). split; [lia |]. rewrite iter_pred_pos_sub; lia.
  - exists ((n - 1 - j) + S i). split; [lia |].
    rewrite Nat.iter_add, iter_pred_pos_wrap.
    rewrite iter_pred_pos_sub; lia.
Qed.

(** ** The scan of the two navigation loops

    Both loops walk the ring of chain positions, one forward and one
    backward, and stop on the first position whose widget is visible.  The
    facts below are proved once, for any walk that advances by [step]. *)

Section RingScan.

Variable is_visible : SngWidget -> bool.
Variable chain : GList.
Variable step : nat -> nat.
Variable loop : nat -> GListNode -> outcome GListNode.

Hypothesis step_lt : forall i, i < length chain -> step i < length chain.
Hypothesis loop_zero : forall cur, loop 0 cur = OutOfFuel.
Hypothesis loop_step :
  forall fuel i, i < length chain ->
    loop (S fuel) (Some i) =
    if visible_at is_visible chain (step i)
    then Done (Some (step i))
    else loop fuel (Some (step i)).

Lemma iter_step_lt (k i : nat) :
  i < length chain -> Nat.iter k step i < length chain.
Proof.
  intros H. induction k as [| k IH]; simpl; [exact H | apply step_lt, IH].
Qed.

(** With a visible position within reach of the fuel, the scan stops on the
    nearest one, having passed hidden positions only. *)
Lemma scan_reaches (fuel : nat) :
  forall i, i < length chain ->
  (exists k, 1 <= k <= fuel /\
             visible_at is_visible chain (Nat.iter k step i) = true) ->
  exists k, 1 <= k <= fuel /\
            loop fuel (Some i) = Done (Some (Nat.iter k step i)) /\
            visible_at is_visible chain (Nat.iter k step i) = true /\
            forall k', 1 <= k' < k ->
                       visible_at is_visible chain (Nat.iter k' step i) = false.
Proof.
  induction fuel as [| fuel IH]; intros i Hi [k0 [Hk0 Hv0]].
  - lia.
  - rewrite loop_step by exact Hi.
    destruct (visible_at is_visible chain (step i)) eqn:Ev.
    + exists 1. simpl. repeat split; try lia; exact Ev.
    + assert (Hne : k0 <> 1) by (intros ->; simpl in Hv0; congruence).
      destruct (IH (step i) (step_lt i Hi)) as [k [Hk [Hrun [Hv Hskip]]]].
      { exists (k0 - 1). split; [lia |].
        rewrite <- Nat.iter_succ_r. replace (S (k0 - 1)) with k0 by lia.
        exact Hv0. }
      exists (S k). rewrite Nat.iter_succ_r.
      repeat split; try lia; try assumption.
      intros k' Hk'. destruct k' as [| k']; [lia |].
      rewrite Nat.iter_succ_r. destruct k' as [| k'].
      * exact Ev.
      * apply Hskip. lia.
Qed.

(** With every widget visible the scan makes one step. *)
Lemma scan_all_visible (fuel i : nat) :
  (forall d, In d chain -> is_visible d = true) ->
  i < length chain ->
  loop (S fuel) (Some i) = Done (Some (step i)).
Proof.
  intros Hall Hi. rewrite loop_step by exact Hi.
  unfold visible_at.
  destruct (nth_error chain (step i)) as [d |] eqn:E.
  - rewrite (Hall d (nth_error_In _ _ E)). reflexivity.
  - apply nth_error_None in E. specialize (step_lt i Hi). lia.
Qed.

(** With every widget hidden the scan uses up any fuel. *)
Lemma scan_none_visible :
  (forall d, In d chain -> is_visible d = false) ->
  forall fuel i, i < length chain -> loop fuel (Some i) = OutOfFuel.
Proof.
  intros Hnone fuel. induction fuel as [| fuel IH]; intros i Hi.
  - apply loop_zero.
  - rewrite loop_step by exact Hi.
    unfold visible_at.
    destruct (nth_error chain (step i)) as [d |] eqn:E.
    + rewrite (Hnone d (nth_error_In _ _ E)). apply IH, step_lt, Hi.
    + apply IH, step_lt, Hi.
Qed.

End RingScan.

(** ** The loops of window.c are such scans *)

Lemma focus_next_loop_step (is_visible : SngWidget -> bool) (chain : GList)
                           (fuel i : nat) :
  i < length chain ->
  focus_next_loop is_visible (S fuel) chain (Some i) =
  if visible_at is_visible chain (succ_pos (length chain) i)
  then Done (Some (succ_pos (length chain) i))
  else focus_next_loop is_visible fuel chain (Some (succ_pos (length chain) i)).
Proof.
  intros Hi. cbn [focus_next_loop node_next obind].
  unfold succ_pos, visible_at.
  destruct (Nat.ltb_spec (S i) (length chain)) as [Hlt | Hge];
    cbn [is_null negb node_data].
  - destruct (nth_error chain (S i)) as [d |] eqn:E.
    + cbn [obind]. destruct (is_visible d); reflexivity.
    + apply nth_error_None in E. lia.
  - destruct chain as [| x l]; [simpl in Hi; lia |].
    cbn [g_list_first node_data nth_error obind].
    destruct (is_visible x); reflexivity.
Qed.

Lemma focus_prev_loop_step (is_visible : SngWidget -> bool) (chain : GList)
                           (fuel i : nat) :
  i < length chain ->
  focus_prev_loop is_visible (S fuel) chain (Some i) =
  if visible_at is_visible chain (pred_pos (length chain) i)
  then Done (Some (pred_pos (length chain) i))
  else focus_prev_loop is_visible fuel chain (Some (pred_pos (length chain) i)).
Proof.
  intros Hi. cbn [focus_prev_loop node_prev obind].
  unfold pred_pos, visible_at.
  destruct i as [| j]; cbn [is_null negb node_data].
  - assert (E : g_list_last chain = Some (length chain - 1))
      by (destruct chain; [simpl in Hi; lia | reflexivity]).
    rewrite E. cbn [node_data].
    destruct (nth_error chain (length chain - 1)) as [d |] eqn:En.
    + cbn [obind]. destruct (is_visible d); reflexivity.
    + apply nth_error_None in En. lia.
  - destruct (nth_error chain j) as [d |] eqn:En.
    + cbn [obind]. destruct (is_visible d); reflexivity.
    + apply nth_error_None in En. lia.
Qed.

(** The loops read [current->next] or [current->prev] first: from NULL
    they stop at once. *)
Lemma focus_next_loop_null (is_visible : SngWidget -> bool) (chain : GList)
                           (fuel : nat) :
  focus_next_loop is_visible (S fuel) chain None = Crash NullDeref.
Proof. reflexivity. Qed.

Lemma focus_prev_loop_null (is_visible : SngWidget -> bool) (chain : GList)
                           (fuel : nat) :
  focus_prev_loop is_visible (S fuel) chain None = Crash NullDeref.
Proof. reflexivity. Qed.

(** ** The navigation functions *)

Lemma window_focus_next_unfold (is_visible : SngWidget -> bool) (fuel : nat)
                               (w : World) :
  window_focus_next is_visible fuel w =
  obind (focus_next_loop is_visible fuel (focus_chain (priv w))
           (g_list_find (focus_chain (priv w)) (focus (priv w))))
        (fun current =>
           obind (node_data (focus_chain (priv w)) current)
                 (fun data => window_set_focused_widget data w)).
Proof.
  unfold window_focus_next, bind, get_priv, lift. cbn [obind fst snd].
  destruct (focus_next_loop _ _ _ _) as [cur | f |]; cbn [obind fst snd];
    try reflexivity.
  destruct (node_data _ cur); reflexivity.
Qed.

Lemma window_focus_prev_unfold (is_visible : SngWidget -> bool) (fuel : nat)
                               (w : World) :
  window_focus_prev is_visible fuel w =
  obind (focus_prev_loop is_visible fuel (focus_chain (priv w))
           (g_list_find (focus_chain (priv w)) (focus (priv w))))
        (fun current =>
           obind (node_data (focus_chain (priv w)) current)
                 (fun data => window_set_focused_widget data w)).
Proof.
  unfold window_focus_prev, bind, get_priv, lift. cbn [obind fst snd].
  destruct (focus_prev_loop _ _ _ _) as [cur | f |]; cbn [obind fst snd];
    try reflexivity.
  destruct (node_data _ cur); reflexivity.
Qed.

(** A navigation that returns has made one focus transfer. *)
Lemma window_focus_next_inv (is_visible : SngWidget -> bool) (fuel : nat)
                            (w : World) (r : unit * World) :
  window_focus_next is_visible fuel w = Done r ->
  exists data, window_set_focused_widget data w = Done r.
Proof.
  rewrite window_focus_next_unfold.
  destruct (focus_next_loop _ _ _ _) as [cur | f |]; cbn [obind];
    try discriminate.
  destruct (node_data _ cur) as [d | f |]; cbn [obind]; try discriminate.
  intros H. exists d. exact H.
Qed.

Lemma window_focus_prev_inv (is_visible : SngWidget -> bool) (fuel : nat)
                            (w : World) (r : unit * World) :
  window_focus_prev is_visible fuel w = Done r ->
  exists data, window_set_focused_widget data w = Done r.
Proof.
  rewrite window_focus_prev_unfold.
  destruct (focus_prev_loop _ _ _ _) as [cur | f |]; cbn [obind];
    try discriminate.
  destruct (node_data _ cur) as [d | f |]; cbn [obind]; try discriminate.
  intros H. exists d. exact H.
Qed.

Lemma next_scan_reaches (is_visible : SngWidget -> bool) (chain : GList)
                        (fuel i : nat) :
  i < length chain ->
  (exists k, 1 <= k <= fuel /\
     visible_at is_visible chain
       (Nat.iter k (succ_pos (length chain)) i) = true) ->
  exists k, 1 <= k <= fuel /\
    focus_next_loop is_visible fuel chain (Some i) =
      Done (Some (Nat.iter k (succ_pos (length chain)) i)) /\
    visible_at is_visible chain
      (Nat.iter k (succ_pos (length chain)) i) = true /\
    forall k', 1 <= k' < k ->
      visible_at is_visible chain
        (Nat.iter k' (succ_pos (length chain)) i) = false.
Proof.
  apply (scan_reaches is_visible chain (succ_pos (length chain))
           (fun f c => focus_next_loop is_visible f chain c)).
  - intros j Hj. apply succ_pos_lt, Hj.
  - intros f j Hj. apply focus_next_loop_step, Hj.
Qed.

Lemma prev_scan_reaches (is_visible : SngWidget -> bool) (chain : GList)
                        (fuel i : nat) :
  i < length chain ->
  (exists k, 1 <= k <= fuel /\
     visible_at is_visible chain
       (Nat.iter k (pred_pos (length chain)) i) = true) ->
  exists k, 1 <= k <= fuel /\
    focus_prev_loop is_visible fuel chain (Some i) =
      Done (Some (Nat.iter k (pred_pos (length chain)) i)) /\
    visible_at is_visible chain
      (Nat.iter k (pred_pos (length chain)) i) = true /\
    forall k', 1 <= k' < k ->
      visible_at is_visible chain
        (Nat.iter k' (pred_pos (length chain)) i) = false.
Proof.
  apply (scan_reaches is_visible chain (pred_pos (length chain))
           (fun f c => focus_prev_loop is_visible f chain c)).
  - intros j Hj. apply pred_pos_lt, Hj.
  - intros f j Hj. apply focus_prev_loop_step, Hj.
Qed.

Lemma visible_at_true (is_visible : SngWidget -> bool) (chain : GList)
                      (j : nat) :
  visible_at is_visible chain j = true ->
  exists d, nth_error chain j = Some d /\ is_visible d = true.
Proof.
  unfold visible_at. destruct (nth_error chain j) as [d |].
  - intros H. exists d. split; [reflexivity | exact H].
  - discriminate.
Qed.

(** Once the scan has stopped on a node, the navigation is the transfer of
    the focus to the widget of that node. *)
Lemma window_focus_next_run (is_visible : SngWidget -> bool) (fuel : nat)
                            (w : World) (i j : nat) (d : SngWidget) :
  g_list_find (focus_chain (priv w)) (focus (priv w)) = Some i ->
  focus_next_loop is_visible fuel (focus_chain (priv w)) (Some i) =
    Done (Some j) ->
  nth_error (focus_chain (priv w)) j = Some d ->
  window_focus_next is_visible fuel w = window_set_focused_widget d w.
Proof.
  intros Hf Hl Hn. rewrite window_focus_next_unfold, Hf, Hl.
  cbn [obind node_data]. rewrite Hn. reflexivity.
Qed.

Lemma window_focus_prev_run (is_visible : SngWidget -> bool) (fuel : nat)
                            (w : World) (i j : nat) (d : SngWidget) :
  g_list_find (focus_chain (priv w)) (focus (priv w)) = Some i ->
  focus_prev_loop is_visible fuel (focus_chain (priv w)) (Some i) =
    Done (Some j) ->
  nth_error (focus_chain (priv w)) j = Some d ->
  window_focus_prev is_visible fuel w = window_set_focused_widget d w.
Proof.
  intros Hf Hl Hn. rewrite window_focus_prev_unfold, Hf, Hl.
  cbn [obind node_data]. rewrite Hn. reflexivity.
Qed.

(** ** Navigation from a state the loops do not guard against *)

Lemma window_focus_absent (is_visible : SngWidget -> bool) (fuel : nat)
                           (w : World) :
  ~ In (focus (priv w)) (focus_chain (priv w)) ->
  0 < fuel ->
  window_focus_next is_visible fuel w = Crash NullDeref /\
  window_focus_prev is_visible fuel w = Crash NullDeref.
Proof.
  intros Hnot Hfuel. destruct fuel as [| fuel]; [lia |].
  rewrite window_focus_next_unfold, window_focus_prev_unfold.
  rewrite (g_list_find_absent _ _ Hnot).
  rewrite focus_next_loop_null, focus_prev_loop_null.
  split; reflexivity.
Qed.

Lemma window_focus_all_hidden (is_visible : SngWidget -> bool) (fuel : nat)
                              (w : World) :
  In (focus (priv w)) (focus_chain (priv w)) ->
  (forall d, In d (focus_chain (priv w)) -> is_visible d = false) ->
  window_focus_next is_visible fuel w = OutOfFuel /\
  window_focus_prev is_visible fuel w = OutOfFuel.
Proof.
  intros Hin Hnone.
  destruct (g_list_find_member _ _ Hin) as [i [Hf [Hi _]]].
  rewrite window_focus_next_unfold, window_focus_prev_unfold, Hf.
  rewrite (scan_none_visible is_visible (focus_chain (priv w))
             (succ_pos (length (focus_chain (priv w))))
             (fun f c => focus_next_loop is_visible f (focus_chain (priv w)) c));
    auto using succ_pos_lt, focus_next_loop_step.
  rewrite (scan_none_visible is_visible (focus_chain (priv w))
             (pred_pos (length (focus_chain (priv w))))
             (fun f c => focus_prev_loop is_visible f (focus_chain (priv w)) c));
    auto using pred_pos_lt, focus_prev_loop_step.
Qed.

(** C1 (fails on the code): navigation is asked to stop after one turn and
    leave the focus alone when the chain is empty, when every member is
    hidden or when the focused widget is not a member.  The code does
    neither.  When the focused widget is not in the chain (as with an empty
    chain, or with the focus still on the window itself) [g_list_find]
    returns NULL and the first iteration of either loop reads a field of
    NULL; when the focused widget is in the chain and every member is
    hidden, neither loop returns, whatever the fuel. *)
Theorem C1_navigation_unguarded (is_visible : SngWidget -> bool) (w : World) :
  (~ In (focus (priv w)) (focus_chain (priv w)) ->
   forall fuel, 0 < fuel ->
     window_focus_next is_visible fuel w = Crash NullDeref /\
     window_focus_prev is_visible fuel w = Crash NullDeref) /\
  (In (focus (priv w)) (focus_chain (priv w)) ->
   (forall d, In d (focus_chain (priv w)) -> is_visible d = false) ->
   forall fuel,
     window_focus_next is_visible fuel w = OutOfFuel /\
     window_focus_prev is_visible fuel w = OutOfFuel).
Proof.
  split.
  - intros Hnot fuel Hfuel. apply window_focus_absent; assumption.
  - intros Hin Hnone fuel. apply window_focus_all_hidden; assumption.
Qed.

Lemma C1_navigation_unguarded_witness :
  (window_focus_next (fun _ => true) 1 (mkWorld (window_init 7%Z) []) =
     Crash NullDeref /\
   window_focus_prev (fun _ => true) 1 (mkWorld (window_init 7%Z) []) =
     Crash NullDeref) /\
  (window_focus_next (fun _ => false) 1000 scenario_window = OutOfFuel /\
   window_focus_prev (fun _ => false) 1000 scenario_window = OutOfFuel).
Proof.
  split.
  - apply (proj1 (C1_navigation_unguarded (fun _ => true)
                    (mkWorld (window_init 7%Z) []))).
    + simpl. intros H. exact H.
    + lia.
  - apply (proj2 (C1_navigation_unguarded (fun _ => false) scenario_window)).
    + simpl. left. reflexivity.
    + intros d _. reflexivity.
Defined.

(** ** Navigation skips hidden widgets *)

(** From a member of the chain, with a visible member in the chain and
    fuel for one turn, [window_focus_next] returns and the focus is on a
    visible member. *)
Lemma window_focus_next_visible (is_visible : SngWidget -> bool) (fuel : nat)
                                (w : World) :
  In (focus (priv w)) (focus_chain (priv w)) ->
  (exists v, In v (focus_chain (priv w)) /\ is_visible v = true) ->
  length (focus_chain (priv w)) <= fuel ->
  exists w', window_focus_next is_visible fuel w = Done (tt, w') /\
             same_but_focus (priv w) (priv w') /\
             is_visible (focus (priv w')) = true /\
             In (focus (priv w')) (focus_chain (priv w)).
Proof.
  intros Hin [v [Hv Hvis]] Hfuel.
  destruct (g_list_find_member _ _ Hin) as [i [Hf [Hi _]]].
  destruct (In_nth_error _ _ Hv) as [j Hj].
  assert (Hjlt : j < length (focus_chain (priv w)))
    by (apply nth_error_Some; rewrite Hj; discriminate).
  destruct (iter_succ_pos_reach _ i j Hi Hjlt) as [k [Hk Hreach]].
  destruct (next_scan_reaches is_visible (focus_chain (priv w)) fuel i Hi)
    as [k' [_ [Hrun [Hvk _]]]].
  { exists k. split; [lia |]. rewrite Hreach. unfold visible_at.
    rewrite Hj. exact Hvis. }
  destruct (visible_at_true _ _ _ Hvk) as [d [Hd Hdv]].
  destruct (set_focused_total w d) as [w' [Hset [Hframe [Hfocus _]]]].
  exists w'. rewrite (window_focus_next_run _ _ _ _ _ _ Hf Hrun Hd).
  repeat split; try apply Hframe; try exact Hset.
  - rewrite Hfocus. exact Hdv.
  - rewrite Hfocus. eapply nth_error_In. exact Hd.
Qed.

Lemma window_focus_prev_visible (is_visible : SngWidget -> bool) (fuel : nat)
                                (w : World) :
  In (focus (priv w)) (focus_chain (priv w)) ->
  (exists v, In v (focus_chain (priv w)) /\ is_visible v = true) ->
  length (focus_chain (priv w)) <= fuel ->
  exists w', window_focus_prev is_visible fuel w = Done (tt, w') /\
             same_but_focus (priv w) (priv w') /\
             is_visible (focus (priv w')) = true /\
             In (focus (priv w')) (focus_chain (priv w)).
Proof.
  intros Hin [v [Hv Hvis]] Hfuel.
  destruct (g_list_find_member _ _ Hin) as [i [Hf [Hi _]]].
  destruct (In_nth_error _ _ Hv) as [j Hj].
  assert (Hjlt : j < length (focus_chain (priv w)))
    by (apply nth_error_Some; rewrite Hj; discriminate).
  destruct (iter_pred_pos_reach _ i j Hi Hjlt) as [k [Hk Hreach]].
  destruct (prev_scan_reaches is_visible (focus_chain (priv w)) fuel i Hi)
    as [k' [_ [Hrun [Hvk _]]]].
  { exists k. split; [lia |]. rewrite Hreach. unfold visible_at.
    rewrite Hj. exact Hvis. }
  destruct (visible_at_true _ _ _ Hvk) as [d [Hd Hdv]].
  destruct (set_focused_total w d) as [w' [Hset [Hframe [Hfocus _]]]].
  exists w'. rewrite (window_focus_prev_run _ _ _ _ _ _ Hf Hrun Hd).
  repeat split; try apply Hframe; try exact Hset.
  - rewrite Hfocus. exact Hdv.
  - rewrite Hfocus. eapply nth_error_In. exact Hd.
Qed.

(** C4: when the focused widget is a member of the chain and the chain has
    a visible widget other than the focused one, [window_focus_next] and
    [window_focus_prev] return (with fuel for one turn of the chain) and
    the widget then focused is a visible member of the chain.  In the
    scenario A (visible), B (hidden), C (visible) with the focus on A,
    [window_focus_next] puts the focus on C and a second call puts it on
    A. *)
Theorem C4_navigation_skips_hidden :
  (forall (is_visible : SngWidget -> bool) (fuel : nat) (w : World),
     In (focus (priv w)) (focus_chain (priv w)) ->
     (exists v, In v (focus_chain (priv w)) /\ v <> focus (priv w) /\
                is_visible v = true) ->
     length (focus_chain (priv w)) <= fuel ->
     (exists w', window_focus_next is_visible fuel w = Done (tt, w') /\
                 is_visible (focus (priv w')) = true /\
                 In (focus (priv w')) (focus_chain (priv w))) /\
     (exists w', window_focus_prev is_visible fuel w = Done (tt, w') /\
                 is_visible (focus (priv w')) = true /\
                 In (focus (priv w')) (focus_chain (priv w)))) /\
  (exists w1 w2,
     window_focus_next scenario_visible 3 scenario_window = Done (tt, w1) /\
     focus (priv w1) = 3%Z /\
     window_focus_next scenario_visible 3 w1 = Done (tt, w2) /\
     focus (priv w2) = 1%Z).
Proof.
  split.
  - intros is_visible fuel w Hin [v [Hv [_ Hvis]]] Hfuel.
    assert (Hex : exists v, In v (focus_chain (priv w)) /\ is_visible v = true)
      by (exists v; split; assumption).
    split.
    + destruct (window_focus_next_visible is_visible fuel w Hin Hex Hfuel)
        as [w' [Hrun [_ [Hv' Hin']]]].
      exists w'. repeat split; assumption.
    + destruct (window_focus_prev_visible is_visible fuel w Hin Hex Hfuel)
        as [w' [Hrun [_ [Hv' Hin']]]].
      exists w'. repeat split; assumption.
  - eexists. eexists.
    split; [vm_compute; reflexivity |].
    split; [reflexivity |].
    split; [vm_compute; reflexivity | reflexivity].
Qed.

Lemma C4_navigation_skips_hidden_witness :
  (exists w', window_focus_next scenario_visible 3 scenario_window =
                Done (tt, w') /\
              scenario_visible (focus (priv w')) = true /\
              In (focus (priv w')) (focus_chain (priv scenario_window))) /\
  (exists w', window_focus_prev scenario_visible 3 scenario_window =
                Done (tt, w') /\
              scenario_visible (focus (priv w')) = true /\
              In (focus (priv w')) (focus_chain (priv scenario_window))).
Proof.
  apply (proj1 C4_navigation_skips_hidden scenario_visible 3 scenario_window).
  - simpl. left. reflexivity.
  - exists 3%Z. simpl. split; [right; right; left; reflexivity |].
    split; [lia | reflexivity].
  - simpl. lia.
Defined.

(** ** Navigation is circular *)

Lemma priv_eq (p p' : WindowPrivate) :
  same_but_focus p p' -> focus p' = focus p -> p' = p.
Proof.
  destruct p, p'. unfold same_but_focus. simpl.
  intros [-> [-> [-> [-> ->]]]] ->. reflexivity.
Qed.

Lemma times_succ (k : nat) (m : M unit) (w w1 : World) :
  m w = Done (tt, w1) -> times (S k) m w = times k m w1.
Proof.
  intros H. cbn [times]. unfold bind. rewrite H. reflexivity.
Qed.

(** With every member visible and no member twice in the chain, [k] calls
    move the focus [k] positions forward on the ring. *)
Lemma times_focus_next (is_visible : SngWidget -> bool) (fuel k : nat) :
  forall (w : World) (i : nat),
  (forall d, In d (focus_chain (priv w)) -> is_visible d = true) ->
  NoDup (focus_chain (priv w)) ->
  nth_error (focus_chain (priv w)) i = Some (focus (priv w)) ->
  1 <= fuel ->
  exists w', times k (window_focus_next is_visible fuel) w = Done (tt, w') /\
             same_but_focus (priv w) (priv w') /\
             nth_error (focus_chain (priv w))
               (Nat.iter k (succ_pos (length (focus_chain (priv w)))) i)
             = Some (focus (priv w')).
Proof.
  induction k as [| k IH]; intros w i Hall Hnd Hi Hfuel.
  - exists w. repeat split. exact Hi.
  - assert (Hlt : i < length (focus_chain (priv w)))
      by (apply nth_error_Some; rewrite Hi; discriminate).
    destruct fuel as [| fuel]; [lia |].
    pose proof (scan_all_visible is_visible (focus_chain (priv w))
                  (succ_pos (length (focus_chain (priv w))))
                  (fun f c => focus_next_loop is_visible f (focus_chain (priv w)) c)
                  (fun j Hj => succ_pos_lt _ j Hj)
                  (fun f j Hj => focus_next_loop_step is_visible _ f j Hj)
                  fuel i Hall Hlt) as Hrun.
    cbv beta in Hrun.
    pose proof (succ_pos_lt _ i Hlt) as Hs.
    destruct (nth_error (focus_chain (priv w))
                (succ_pos (length (focus_chain (priv w))) i)) as [d |] eqn:Hd;
      [| apply nth_error_None in Hd; lia].
    destruct (set_focused_total w d) as [w1 [Hset [Hframe [Hfocus _]]]].
    rewrite <- (window_focus_next_run is_visible (S fuel) w i _ d
                  (g_list_find_nodup _ _ i Hnd Hi) Hrun Hd) in Hset.
    rewrite (times_succ k _ w w1 Hset).
    destruct Hframe as [Hp [Ht [Hc [Hch Hdef]]]].
    destruct (IH w1 (succ_pos (length (focus_chain (priv w))) i))
      as [w' [Hrun' [Hframe' Hpos]]].
    + rewrite Hch. exact Hall.
    + rewrite Hch. exact Hnd.
    + rewrite Hch, Hfocus. exact Hd.
    + lia.
    + exists w'. split; [exact Hrun' |].
      rewrite Hch in Hpos. rewrite Nat.iter_succ_r. split; [| exact Hpos].
      destruct Hframe' as [Hp' [Ht' [Hc' [Hch' Hdef']]]].
      unfold same_but_focus. repeat split; congruence.
Qed.

(** With every member visible and no member twice in the chain, one call
    moves the focus one position forward on the ring, and one call of
    [window_focus_prev] one position backward. *)
Lemma window_focus_next_one_step (is_visible : SngWidget -> bool)
                                 (fuel : nat) (w : World) (i : nat) :
  (forall d, In d (focus_chain (priv w)) -> is_visible d = true) ->
  NoDup (focus_chain (priv w)) ->
  nth_error (focus_chain (priv w)) i = Some (focus (priv w)) ->
  1 <= fuel ->
  exists w', window_focus_next is_visible fuel w = Done (tt, w') /\
             same_but_focus (priv w) (priv w') /\
             nth_error (focus_chain (priv w))
                       (succ_pos (length (focus_chain (priv w))) i)
             = Some (focus (priv w')).
Proof.
  intros Hall Hnd Hi Hfuel.
  assert (Hlt : i < length (focus_chain (priv w)))
    by (apply nth_error_Some; rewrite Hi; discriminate).
  destruct fuel as [| fuel]; [lia |].
  pose proof (scan_all_visible is_visible (focus_chain (priv w))
                (succ_pos (length (focus_chain (priv w))))
                (fun f c => focus_next_loop is_visible f (focus_chain (priv w)) c)
                (fun j Hj => succ_pos_lt _ j Hj)
                (fun f j Hj => focus_next_loop_step is_visible _ f j Hj)
                fuel i Hall Hlt) as Hrun.
  cbv beta in Hrun.
  pose proof (succ_pos_lt _ i Hlt) as Hs.
  destruct (nth_error (focus_chain (priv w))
              (succ_pos (length (focus_chain (priv w))) i)) as [d |] eqn:Hd;
    [| apply nth_error_None in Hd; lia].
  destruct (set_focused_total w d) as [w1 [Hset [Hframe [Hfocus _]]]].
  exists w1.
  rewrite (window_focus_next_run is_visible (S fuel) w i _ d
             (g_list_find_nodup _ _ i Hnd Hi) Hrun Hd).
  split; [exact Hset |]. split; [exact Hframe |].
  rewrite Hfocus. reflexivity.
Qed.

Lemma window_focus_prev_one_step (is_visible : SngWidget -> bool)
                                 (fuel : nat) (w : World) (i : nat) :
  (forall d, In d (focus_chain (priv w)) -> is_visible d = true) ->
  NoDup (focus_chain (priv w)) ->
  nth_error (focus_chain (priv w)) i = Some (focus (priv w)) ->
  1 <= fuel ->
  exists w', window_focus_prev is_visible fuel w = Done (tt, w') /\
             same_but_focus (priv w) (priv w') /\
             nth_error (focus_chain (priv w))
                       (pred_pos (length (focus_chain (priv w))) i)
             = Some (focus (priv w')).
Proof.
  intros Hall Hnd Hi Hfuel.
  assert (Hlt : i < length (focus_chain (priv w)))
    by (apply nth_error_Some; rewrite Hi; discriminate).
  destruct fuel as [| fuel]; [lia |].
  pose proof (scan_all_visible is_visible (focus_chain (priv w))
                (pred_pos (length (focus_chain (priv w))))
                (fun f c => focus_prev_loop is_visible f (focus_chain (priv w)) c)
                (fun j Hj => pred_pos_lt _ j Hj)
                (fun f j Hj => focus_prev_loop_step is_visible _ f j Hj)
                fuel i Hall Hlt) as Hrun.
  cbv beta in Hrun.
  pose proof (pred_pos_lt _ i Hlt) as Hs.
  destruct (nth_error (focus_chain (priv w))
              (pred_pos (length (focus_chain (priv w))) i)) as [d |] eqn:Hd;
    [| apply nth_error_None in Hd; lia].
  destruct (set_focused_total w d) as [w1 [Hset [Hframe [Hfocus _]]]].
  exists w1.
  rewrite (window_focus_prev_run is_visible (S fuel) w i _ d
             (g_list_find_nodup _ _ i Hnd Hi) Hrun Hd).
  split; [exact Hset |]. split; [exact Hframe |].
  rewrite Hfocus. reflexivity.
Qed.

(** C3: in a window whose chain is not empty and, as the chain of a window
    is, without a widget in it twice, with every member visible and the
    focus on a member, as many calls of [window_focus_next] as the chain
    has members return the window to the state it started from, with the
    focus on the original member.  Each call moves the focus to the member
    that follows the focused one in the chain, and from the last member to
    the first; each call of [window_focus_prev] moves it to the member
    before, and from the first member to the last. *)
Theorem C3_focus_next_full_turn (is_visible : SngWidget -> bool) (fuel : nat)
                                (w : World) :
  focus_chain (priv w) <> [] ->
  (forall d, In d (focus_chain (priv w)) -> is_visible d = true) ->
  In (focus (priv w)) (focus_chain (priv w)) ->
  NoDup (focus_chain (priv w)) ->
  1 <= fuel ->
  (exists w',
     times (length (focus_chain (priv w))) (window_focus_next is_visible fuel) w
     = Done (tt, w') /\
     focus (priv w') = focus (priv w) /\
     priv w' = priv w) /\
  (forall i,
     nth_error (focus_chain (priv w)) i = Some (focus (priv w)) ->
     exists w',
       window_focus_next is_visible fuel w = Done (tt, w') /\
       nth_error (focus_chain (priv w))
                 (if S i <? length (focus_chain (priv w)) then S i else 0)
       = Some (focus (priv w'))) /\
  (forall i,
     nth_error (focus_chain (priv w)) i = Some (focus (priv w)) ->
     exists w',
       window_focus_prev is_visible fuel w = Done (tt, w') /\
       nth_error (focus_chain (priv w))
                 (match i with
                  | O => length (focus_chain (priv w)) - 1
                  | S j => j
                  end)
       = Some (focus (priv w'))) /\
  (nth_error (focus_chain (priv w)) (length (focus_chain (priv w)) - 1)
   = Some (focus (priv w)) ->
   exists w',
     window_focus_next is_visible fuel w = Done (tt, w') /\
     nth_error (focus_chain (priv w)) 0 = Some (focus (priv w'))) /\
  (nth_error (focus_chain (priv w)) 0 = Some (focus (priv w)) ->
   exists w',
     window_focus_prev is_visible fuel w = Done (tt, w') /\
     nth_error (focus_chain (priv w)) (length (focus_chain (priv w)) - 1)
     = Some (focus (priv w'))).
Proof.
  intros Hne Hall Hin Hnd Hfuel.
  assert (Hnext : forall i,
            nth_error (focus_chain (priv w)) i = Some (focus (priv w)) ->
            exists w',
              window_focus_next is_visible fuel w = Done (tt, w') /\
              nth_error (focus_chain (priv w))
                        (if S i <? length (focus_chain (priv w))
                         then S i else 0)
              = Some (focus (priv w'))).
  { intros i Hi.
    destruct (window_focus_next_one_step is_visible fuel w i Hall Hnd Hi Hfuel)
      as [w' [Hrun [_ Hpos]]].
    exists w'. split; [exact Hrun | exact Hpos]. }
  assert (Hprev : forall i,
            nth_error (focus_chain (priv w)) i = Some (focus (priv w)) ->
            exists w',
              window_focus_prev is_visible fuel w = Done (tt, w') /\
              nth_error (focus_chain (priv w))
                        (match i with
                         | O => length (focus_chain (priv w)) - 1
                         | S j => j
                         end)
              = Some (focus (priv w'))).
  { intros i Hi.
    destruct (window_focus_prev_one_step is_visible fuel w i Hall Hnd Hi Hfuel)
      as [w' [Hrun [_ Hpos]]].
    exists w'. split; [exact Hrun | exact Hpos]. }
  split; [| split; [exact Hnext | split; [exact Hprev | split]]].
  - destruct (In_nth_error _ _ Hin) as [i Hi].
    assert (Hlt : i < length (focus_chain (priv w)))
      by (apply nth_error_Some; rewrite Hi; discriminate).
    destruct (times_focus_next is_visible fuel (length (focus_chain (priv w)))
                w i Hall Hnd Hi Hfuel) as [w' [Hrun [Hframe Hpos]]].
    rewrite (iter_succ_pos_cycle _ i Hlt), Hi in Hpos.
    injection Hpos as Hfocus.
    exists w'. split; [exact Hrun |]. split; [symmetry; exact Hfocus |].
    apply priv_eq; [exact Hframe | symmetry; exact Hfocus].
  - intros Hlast. destruct (Hnext _ Hlast) as [w' [Hrun Hpos]].
    exists w'. split; [exact Hrun |].
    destruct (focus_chain (priv w)) as [| x l] eqn:E; [congruence |].
    cbn [length] in Hpos.
    destruct (Nat.ltb_spec (S (S (length l) - 1)) (S (length l)));
      [lia | exact Hpos].
  - intros Hfirst. destruct (Hprev _ Hfirst) as [w' [Hrun Hpos]].
    exists w'. split; [exact Hrun | exact Hpos].
Qed.

Lemma C3_focus_next_full_turn_witness :
  (exists w',
     times 3 (window_focus_next (fun _ => true) 1) scenario_window
     = Done (tt, w') /\
     focus (priv w') = 1%Z /\
     priv w' = priv scenario_window) /\
  (exists w',
     window_focus_prev (fun _ => true) 1 scenario_window = Done (tt, w') /\
     focus (priv w') = 3%Z).
Proof.
  destruct (C3_focus_next_full_turn (fun _ => true) 1 scenario_window)
    as [Hturn [_ [_ [_ Hwrap]]]].
  - simpl. discriminate.
  - intros d _. reflexivity.
  - simpl. left. reflexivity.
  - simpl. repeat constructor; simpl; intuition lia.
  - lia.
  - split; [exact Hturn |].
    destruct (Hwrap eq_refl) as [w' [Hrun Hpos]].
    exists w'. split; [exact Hrun |].
    simpl in Hpos. injection Hpos as <-. reflexivity.
Defined.

(** Without the hypothesis on repeated members the full turn fails: with
    the chain A, B, A, every member visible and the focus on A,
    [g_list_find] finds A at the head each time and three calls of
    [window_focus_next] leave the focus on B. *)
Lemma full_turn_needs_distinct_members :
  exists w',
    times (length (focus_chain (priv repeated_member_window)))
          (window_focus_next (fun _ => true) 3) repeated_member_window
    = Done (tt, w') /\
    focus (priv w') = 2%Z.
Proof.
  eexists. split; [vm_compute; reflexivity | reflexivity].
Qed.

(** ** What navigation leaves alone *)

(** C10: [window_set_focused_widget] always returns and, like
    [window_focus_next] and [window_focus_prev] whenever they return,
    leaves the panel, the type, the changed flag, the focus chain and the
    default focus widget as they were: of the private state only [focus]
    can differ, and the window is not marked as changed.  From a member of
    a chain that has a visible member the two navigations do return, with
    fuel for one turn. *)
Theorem C10_focus_operations_frame (is_visible : SngWidget -> bool)
                                   (fuel : nat) (w : World)
                                   (widget : SngWidget) :
  (exists w', window_set_focused_widget widget w = Done (tt, w') /\
              same_but_focus (priv w) (priv w')) /\
  (forall w', window_focus_next is_visible fuel w = Done (tt, w') ->
              same_but_focus (priv w) (priv w')) /\
  (forall w', window_focus_prev is_visible fuel w = Done (tt, w') ->
              same_but_focus (priv w) (priv w')) /\
  (In (focus (priv w)) (focus_chain (priv w)) ->
   (exists v, In v (focus_chain (priv w)) /\ is_visible v = true) ->
   length (focus_chain (priv w)) <= fuel ->
   (exists w', window_focus_next is_visible fuel w = Done (tt, w') /\
               same_but_focus (priv w) (priv w')) /\
   (exists w', window_focus_prev is_visible fuel w = Done (tt, w') /\
               same_but_focus (priv w) (priv w'))).
Proof.
  split; [| split; [| split]].
  - destruct (set_focused_total w widget) as [w' [Hset [Hframe _]]].
    exists w'. split; assumption.
  - intros w' H. apply window_focus_next_inv in H. destruct H as [d Hd].
    destruct (set_focused_total w d) as [w1 [Hset [Hframe _]]].
    rewrite Hset in Hd. injection Hd as <-. exact Hframe.
  - intros w' H. apply window_focus_prev_inv in H. destruct H as [d Hd].
    destruct (set_focused_total w d) as [w1 [Hset [Hframe _]]].
    rewrite Hset in Hd. injection Hd as <-. exact Hframe.
  - intros Hin Hex Hfuel. split.
    + destruct (window_focus_next_visible is_visible fuel w Hin Hex Hfuel)
        as [w' [Hrun [Hframe _]]].
      exists w'. split; assumption.
    + destruct (window_focus_prev_visible is_visible fuel w Hin Hex Hfuel)
        as [w' [Hrun [Hframe _]]].
      exists w'. split; assumption.
Qed.

Lemma C10_focus_operations_frame_witness :
  (exists w', window_focus_next scenario_visible 3 scenario_window =
                Done (tt, w') /\
              same_but_focus (priv scenario_window) (priv w')) /\
  (exists w', window_focus_prev scenario_visible 3 scenario_window =
                Done (tt, w') /\
              same_but_focus (priv scenario_window) (priv w')) /\
  (exists w', window_focus_next scenario_visible 3 scenario_window =
                Done (tt, w') /\
              same_but_focus (priv scenario_window) (priv w')).
Proof.
  split; [| split].
  - eexists. split; [vm_compute; reflexivity |].
    apply (proj1 (proj2 (C10_focus_operations_frame
                           scenario_visible 3 scenario_window NULL))).
    vm_compute. reflexivity.
  - eexists. split; [vm_compute; reflexivity |].
    apply (proj1 (proj2 (proj2 (C10_focus_operations_frame
                                  scenario_visible 3 scenario_window NULL)))).
    vm_compute. reflexivity.
  - apply (proj2 (proj2 (proj2 (C10_focus_operations_frame
                                  scenario_visible 3 scenario_window NULL)))).
    + simpl. left. reflexivity.
    + exists 1%Z. split; [simpl; left; reflexivity | reflexivity].
    + simpl. lia.
Defined.

(** ** Input dispatch *)

Section InputProperties.

Variable sng_widget_is_visible : SngWidget -> bool.
Variable container_find_by_position : Z -> Z -> SngWidget.
Variable clicked_result : SngWidget -> MEVENT -> Z.
Variable key_pressed_result : SngWidget -> Z -> Z.
Variable key_find_action : Z -> KeybindingAction -> KeybindingAction.
Variable KEY_HANDLED : Z.

Lemma window_handle_key_next (fuel : nat) (key : Z) (w : World) :
  key_find_action key ACTION_UNKNOWN = ACTION_NEXT_FIELD ->
  window_handle_key sng_widget_is_visible key_pressed_result key_find_action
                    KEY_HANDLED fuel key w =
  obind (window_focus_next sng_widget_is_visible fuel (mark_changed w))
        (fun r => Done (KEY_HANDLED, snd r)).
Proof.
  intros Ha. unfold window_handle_key, bind, modify_priv.
  cbn [obind fst snd]. rewrite Ha. reflexivity.
Qed.

Lemma window_handle_key_prev (fuel : nat) (key : Z) (w : World) :
  key_find_action key ACTION_UNKNOWN = ACTION_PREV_FIELD ->
  window_handle_key sng_widget_is_visible key_pressed_result key_find_action
                    KEY_HANDLED fuel key w =
  obind (window_focus_prev sng_widget_is_visible fuel (mark_changed w))
        (fun r => Done (KEY_HANDLED, snd r)).
Proof.
  intros Ha. unfold window_handle_key, bind, modify_priv.
  cbn [obind fst snd]. rewrite Ha. reflexivity.
Qed.

Lemma window_handle_key_other (fuel : nat) (key : Z) (w : World) :
  key_find_action key ACTION_UNKNOWN <> ACTION_NEXT_FIELD ->
  key_find_action key ACTION_UNKNOWN <> ACTION_PREV_FIELD ->
  window_handle_key sng_widget_is_visible key_pressed_result key_find_action
                    KEY_HANDLED fuel key w =
  Done (key_pressed_result (focus (priv w)) key,
        mkWorld (set_changed true (priv w))
                (trace w ++
                 [ mkObserved (sng_widget_key_pressed (focus (priv w)) key)
                              (set_changed true (priv w)) ])).
Proof.
  intros Hn Hp. unfold window_handle_key, bind, modify_priv.
  cbn [obind fst snd].
  destruct (key_find_action key ACTION_UNKNOWN); try congruence; reflexivity.
Qed.

(** A focus transfer on a window marked as changed leaves it so and logs
    no key press. *)
Lemma transfer_keeps_changed (w : World) (d : SngWidget)
                             (r : unit * World) :
  window_set_focused_widget d (mark_changed w) = Done r ->
  changed (priv (snd r)) = true /\
  key_presses (trace (snd r)) = key_presses (trace w).
Proof.
  intros H.
  destruct (set_focused_total (mark_changed w) d)
    as [w1 [Hset [Hframe [_ Hkeys]]]].
  rewrite Hset in H. injection H as <-. cbn [snd].
  destruct Hframe as [_ [_ [Hc _]]]. split; [exact Hc | exact Hkeys].
Qed.

(** C6 (fails on the code for the navigation keys): [window_handle_key]
    marks the window as changed before anything else.  For a key bound to
    the next-field (previous-field) action it is [window_focus_next]
    ([window_focus_prev]) on the window so marked, followed by the verdict
    [KEY_HANDLED]: when the navigation returns, so does the handler, with
    that verdict, the window still marked and no key handler called, as
    required; but when the focused widget is not in the chain the
    navigation reads a field of NULL and the handler returns no verdict.
    For any other key it calls the key handler of the focused widget once,
    on a window marked as changed, and returns what that handler
    returns. *)
Theorem C6_handle_key_dispatch (fuel : nat) (key : Z) (w : World) :
  (key_find_action key ACTION_UNKNOWN = ACTION_NEXT_FIELD ->
   (forall w', window_focus_next sng_widget_is_visible fuel (mark_changed w)
               = Done (tt, w') ->
      window_handle_key sng_widget_is_visible key_pressed_result
                        key_find_action KEY_HANDLED fuel key w
      = Done (KEY_HANDLED, w') /\
      changed (priv w') = true /\
      key_presses (trace w') = key_presses (trace w)) /\
   (forall v w', window_handle_key sng_widget_is_visible key_pressed_result
                                   key_find_action KEY_HANDLED fuel key w
                 = Done (v, w') ->
      window_focus_next sng_widget_is_visible fuel (mark_changed w)
      = Done (tt, w') /\ v = KEY_HANDLED) /\
   (~ In (focus (priv w)) (focus_chain (priv w)) -> 0 < fuel ->
      window_handle_key sng_widget_is_visible key_pressed_result
                        key_find_action KEY_HANDLED fuel key w
      = Crash NullDeref)) /\
  (key_find_action key ACTION_UNKNOWN = ACTION_PREV_FIELD ->
   (forall w', window_focus_prev sng_widget_is_visible fuel (mark_changed w)
               = Done (tt, w') ->
      window_handle_key sng_widget_is_visible key_pressed_result
                        key_find_action KEY_HANDLED fuel key w
      = Done (KEY_HANDLED, w') /\
      changed (priv w') = true /\
      key_presses (trace w') = key_presses (trace w)) /\
   (forall v w', window_handle_key sng_widget_is_visible key_pressed_result
                                   key_find_action KEY_HANDLED fuel key w
                 = Done (v, w') ->
      window_focus_prev sng_widget_is_visible fuel (mark_changed w)
      = Done (tt, w') /\ v = KEY_HANDLED) /\
   (~ In (focus (priv w)) (focus_chain (priv w)) -> 0 < fuel ->
      window_handle_key sng_widget_is_visible key_pressed_result
                        key_find_action KEY_HANDLED fuel key w
      = Crash NullDeref)) /\
  (key_find_action key ACTION_UNKNOWN <> ACTION_NEXT_FIELD ->
   key_find_action key ACTION_UNKNOWN <> ACTION_PREV_FIELD ->
   window_handle_key sng_widget_is_visible key_pressed_result
                     key_find_action KEY_HANDLED fuel key w =
   Done (key_pressed_result (focus (priv w)) key,
         mkWorld (set_changed true (priv w))
                 (trace w ++
                  [ mkObserved (sng_widget_key_pressed (focus (priv w)) key)
                               (set_changed true (priv w)) ]))).
Proof.
  split; [| split].
  - intros Ha. rewrite (window_handle_key_next fuel key w Ha).
    split; [| split].
    + intros w' Hrun. rewrite Hrun. cbn [obind snd].
      split; [reflexivity |].
      apply window_focus_next_inv in Hrun. destruct Hrun as [d Hd].
      apply (transfer_keeps_changed w d (tt, w') Hd).
    + intros v w' H.
      destruct (window_focus_next sng_widget_is_visible fuel (mark_changed w))
        as [[[] w1] | f |]; cbn [obind snd] in H; try discriminate.
      injection H as <- <-. split; reflexivity.
    + intros Hnot Hfuel.
      destruct (window_focus_absent sng_widget_is_visible fuel
                  (mark_changed w) Hnot Hfuel) as [Hn _].
      rewrite Hn. reflexivity.
  - intros Ha. rewrite (window_handle_key_prev fuel key w Ha).
    split; [| split].
    + intros w' Hrun. rewrite Hrun. cbn [obind snd].
      split; [reflexivity |].
      apply window_focus_prev_inv in Hrun. destruct Hrun as [d Hd].
      apply (transfer_keeps_changed w d (tt, w') Hd).
    + intros v w' H.
      destruct (window_focus_prev sng_widget_is_visible fuel (mark_changed w))
        as [[[] w1] | f |]; cbn [obind snd] in H; try discriminate.
      injection H as <- <-. split; reflexivity.
    + intros Hnot Hfuel.
      destruct (window_focus_absent sng_widget_is_visible fuel
                  (mark_changed w) Hnot Hfuel) as [_ Hp].
      rewrite Hp. reflexivity.
  - apply window_handle_key_other.
Qed.

(** C7: [window_handle_mouse] marks the window as changed before anything
    else.  When no widget is found at the position of the event it makes no
    call, leaves the focus where it was and returns [KEY_HANDLED].  When a
    widget is found, the focus is first transferred to it by
    [window_set_focused_widget]; [sng_widget_clicked] is called after that,
    on a window whose focus is the widget found, and what it returns is
    returned. *)
Theorem C7_handle_mouse_dispatch (mevent : MEVENT) (w : World) :
  (container_find_by_position (mev_x mevent) (mev_y mevent) = NULL ->
   window_handle_mouse container_find_by_position clicked_result KEY_HANDLED
                       mevent w
   = Done (KEY_HANDLED, mark_changed w) /\
   focus (priv (mark_changed w)) = focus (priv w) /\
   changed (priv (mark_changed w)) = true) /\
  (container_find_by_position (mev_x mevent) (mev_y mevent) <> NULL ->
   exists w1,
     window_set_focused_widget
       (container_find_by_position (mev_x mevent) (mev_y mevent))
       (mark_changed w) = Done (tt, w1) /\
     window_handle_mouse container_find_by_position clicked_result KEY_HANDLED
                         mevent w
     = Done (clicked_result
               (container_find_by_position (mev_x mevent) (mev_y mevent))
               mevent,
             mkWorld (priv w1)
                     (trace w1 ++
                      [ mkObserved
                          (sng_widget_clicked
                             (container_find_by_position (mev_x mevent)
                                                         (mev_y mevent))
                             mevent)
                          (priv w1) ])) /\
     focus (priv w1) =
       container_find_by_position (mev_x mevent) (mev_y mevent) /\
     changed (priv w1) = true).
Proof.
  split.
  - intros Hnull. unfold window_handle_mouse, bind, modify_priv.
    cbn [obind fst snd]. rewrite Hnull. repeat split.
  - intros Hhit.
    destruct (set_focused_total (mark_changed w)
                (container_find_by_position (mev_x mevent) (mev_y mevent)))
      as [w1 [Hset [Hframe [Hfocus _]]]].
    exists w1. split; [exact Hset |].
    unfold window_handle_mouse, bind, modify_priv. cbn [obind fst snd].
    apply Z.eqb_neq in Hhit. rewrite Hhit. cbn [negb].
    fold (mark_changed w). rewrite Hset. cbn [obind fst snd].
    split; [reflexivity |]. split; [exact Hfocus |].
    destruct Hframe as [_ [_ [Hc _]]]. exact Hc.
Qed.

End InputProperties.

Lemma C6_handle_key_dispatch_witness :
  (exists w',
     window_handle_key scenario_visible (fun _ _ => (-1)%Z) scenario_action
       0%Z 3 9%Z scenario_window = Done (0%Z, w') /\
     changed (priv w') = true /\
     key_presses (trace w') = key_presses (trace scenario_window)) /\
  (exists w',
     window_handle_key scenario_visible (fun _ _ => (-1)%Z) scenario_action
       0%Z 3 353%Z scenario_window = Done (0%Z, w') /\
     changed (priv w') = true /\
     key_presses (trace w') = key_presses (trace scenario_window)) /\
  window_handle_key scenario_visible (fun _ _ => (-1)%Z) scenario_action
    0%Z 3 65%Z scenario_window =
  Done ((-1)%Z,
        mkWorld (set_changed true (priv scenario_window))
                [ mkObserved (sng_widget_key_pressed 1%Z 65%Z)
                             (set_changed true (priv scenario_window)) ]) /\
  window_handle_key scenario_visible (fun _ _ => (-1)%Z) scenario_action
    0%Z 3 9%Z (mkWorld (window_init 7%Z) []) = Crash NullDeref /\
  window_handle_key scenario_visible (fun _ _ => (-1)%Z) scenario_action
    0%Z 3 353%Z (mkWorld (window_init 7%Z) []) = Crash NullDeref.
Proof.
  split; [| split; [| split; [| split]]].
  - eexists.
    apply (proj1 (proj1 (C6_handle_key_dispatch scenario_visible
                           (fun _ _ => (-1)%Z) scenario_action 0%Z 3 9%Z
                           scenario_window)
                        eq_refl)).
    vm_compute. reflexivity.
  - eexists.
    apply (proj1 (proj1 (proj2 (C6_handle_key_dispatch scenario_visible
                           (fun _ _ => (-1)%Z) scenario_action 0%Z 3 353%Z
                           scenario_window))
                        eq_refl)).
    vm_compute. reflexivity.
  - apply (proj2 (proj2 (C6_handle_key_dispatch scenario_visible
                           (fun _ _ => (-1)%Z) scenario_action 0%Z 3 65%Z
                           scenario_window)));
      simpl; discriminate.
  - apply (proj2 (proj2 (proj1 (C6_handle_key_dispatch scenario_visible
                           (fun _ _ => (-1)%Z) scenario_action 0%Z 3 9%Z
                           (mkWorld (window_init 7%Z) []))
                        eq_refl))).
    + simpl. intros H. exact H.
    + lia.
  - apply (proj2 (proj2 (proj1 (proj2 (C6_handle_key_dispatch scenario_visible
                           (fun _ _ => (-1)%Z) scenario_action 0%Z 3 353%Z
                           (mkWorld (window_init 7%Z) [])))
                        eq_refl))).
    + simpl. intros H. exact H.
    + lia.
Defined.

Lemma C7_handle_mouse_dispatch_witness :
  (window_handle_mouse (fun _ _ => NULL) (fun _ _ => (-1)%Z) 0%Z
                       (mkMEVENT 0 4 2 0 0) scenario_window
   = Done (0%Z, mark_changed scenario_window) /\
   focus (priv (mark_changed scenario_window)) = 1%Z /\
   changed (priv (mark_changed scenario_window)) = true) /\
  (exists w1,
     window_set_focused_widget 3%Z (mark_changed scenario_window)
     = Done (tt, w1) /\
     window_handle_mouse (fun _ _ => 3%Z) (fun _ _ => (-1)%Z) 0%Z
                         (mkMEVENT 0 4 2 0 0) scenario_window
     = Done ((-1)%Z,
             mkWorld (priv w1)
                     (trace w1 ++
                      [ mkObserved
                          (sng_widget_clicked 3%Z (mkMEVENT 0 4 2 0 0))
                          (priv w1) ])) /\
     focus (priv w1) = 3%Z /\
     changed (priv w1) = true).
Proof.
  split.
  - apply (proj1 (C7_handle_mouse_dispatch (fun _ _ => NULL)
                    (fun _ _ => (-1)%Z) 0%Z (mkMEVENT 0 4 2 0 0)
                    scenario_window)).
    reflexivity.
  - apply (proj2 (C7_handle_mouse_dispatch (fun _ _ => 3%Z)
                    (fun _ _ => (-1)%Z) 0%Z (mkMEVENT 0 4 2 0 0)
                    scenario_window)).
    unfold NULL. lia.
Defined.

(** ** Realization *)

(** Range goals on [gint] values, once the bounds are unfolded. *)
Ltac gint_lia := unfold is_gint, G_MININT, G_MAXINT in *; lia.

Lemma wrap_gint_id (z : Z) : is_gint z -> wrap_gint z = z.
Proof.
  unfold is_gint, G_MININT, G_MAXINT, wrap_gint. intros H.
  rewrite Z.mod_small by lia. lia.
Qed.

Lemma quot_2_bounds (z : Z) :
  is_gint z -> (- 2 ^ 30 <= Z.quot z 2 <= 2 ^ 30)%Z.
Proof.
  unfold is_gint, G_MININT, G_MAXINT. intros H.
  Z.to_euclidean_division_equations. lia.
Qed.

(** On operands whose difference is a [gint], the offset the code computes
    is the centring rule of the specification. *)
Lemma offset_centred (s d : Z) :
  is_gint (s - d) ->
  (if negb (d =? s)%Z then ABS (gint_div (gint_sub s d) 2) else 0%Z)
  = centred s d.
Proof.
  intros H. unfold centred. rewrite (Z.eqb_sym d s).
  destruct (s =? d)%Z; cbn [negb]; [reflexivity |].
  unfold gint_sub, gint_div. rewrite (wrap_gint_id _ H).
  pose proof (quot_2_bounds _ H) as Hq.
  rewrite wrap_gint_id
    by gint_lia.
  unfold ABS. destruct (Z.ltb_spec (Z.quot (s - d) 2) 0) as [Hn | Hp].
  - rewrite wrap_gint_id by gint_lia.
    symmetry. apply Z.abs_neq. lia.
  - symmetry. apply Z.abs_eq. exact Hp.
Qed.

(** Two dimensions, that is two non-negative [gint] values, differ by a
    [gint]. *)
Lemma dimensions_differ_by_gint (s d : Z) :
  (0 <= s <= G_MAXINT)%Z -> (0 <= d <= G_MAXINT)%Z -> is_gint (s - d).
Proof. intros Hs Hd. gint_lia. Qed.

Lemma centred_nonneg (s d : Z) : (0 <= centred s d)%Z.
Proof.
  unfold centred. destruct (s =? d)%Z; [lia | apply Z.abs_nonneg].
Qed.

(** C8: on a widget not yet realized, whose dimensions and the screen's
    differ by amounts a [gint] holds, [window_realize] places the window at
    the row [centred maxy height] and the column [centred maxx width]: on
    each axis 0 when the two dimensions agree and otherwise the absolute
    value of the truncated quotient of their difference by 2, never
    negative.  The row, computed from the heights into the variable
    [xpos], is the begin_y argument of [newwin] and the first argument of
    [sng_widget_set_position]; the column, computed from the widths into
    [ypos], is the begin_x argument and the second. *)
Theorem C8_realize_centres (maxy maxx height width : Z) (win : WINDOW)
                           (pan : PANEL) (w : World) :
  is_gint (maxy - height) -> is_gint (maxx - width) ->
  window_realize false maxy maxx height width win pan w =
  Done (tt,
        mkWorld (set_panel pan (priv w))
          (trace w ++
           [ mkObserved (sng_widget_set_position (centred maxy height)
                                                 (centred maxx width)) (priv w);
             mkObserved (newwin height width (centred maxy height)
                                             (centred maxx width)) (priv w);
             mkObserved (sng_widget_set_ncurses_window win) (priv w);
             mkObserved (wtimeout win 0) (priv w);
             mkObserved (keypad win true) (priv w);
             mkObserved (new_panel win) (priv w);
             mkObserved widget_class_realize (set_panel pan (priv w)) ])) /\
  (0 <= centred maxy height)%Z /\ (0 <= centred maxx width)%Z /\
  centred maxy height =
    (if (maxy =? height)%Z then 0 else Z.abs (Z.quot (maxy - height) 2))%Z /\
  centred maxx width =
    (if (maxx =? width)%Z then 0 else Z.abs (Z.quot (maxx - width) 2))%Z.
Proof.
  intros Hy Hx. split; [| repeat split; apply centred_nonneg].
  unfold window_realize. cbn [negb].
  rewrite (offset_centred maxy height Hy), (offset_centred maxx width Hx).
  unfold bind, extern, modify_priv. cbn [obind fst snd priv trace].
  repeat rewrite <- app_assoc. reflexivity.
Qed.

Lemma C8_realize_centres_witness :
  window_realize false 24 80 10 100 5%Z 6%Z (mkWorld (window_init 7%Z) []) =
  Done (tt,
        mkWorld (set_panel 6%Z (window_init 7%Z))
          [ mkObserved (sng_widget_set_position 7 10) (window_init 7%Z);
            mkObserved (newwin 10 100 7 10) (window_init 7%Z);
            mkObserved (sng_widget_set_ncurses_window 5%Z) (window_init 7%Z);
            mkObserved (wtimeout 5%Z 0) (window_init 7%Z);
            mkObserved (keypad 5%Z true) (window_init 7%Z);
            mkObserved (new_panel 5%Z) (window_init 7%Z);
            mkObserved widget_class_realize
                       (set_panel 6%Z (window_init 7%Z)) ]).
Proof.
  apply (proj1 (C8_realize_centres 24 80 10 100 5%Z 6%Z
                  (mkWorld (window_init 7%Z) [])
                  ltac:(gint_lia) ltac:(gint_lia))).
Defined.

(** ** Building the focus chain *)

(** Induction on widget subtrees, with the property available for every
    child of a container. *)
Lemma Widget_ind (P : Widget -> Prop) :
  (forall addr can_focus, P (WidgetNode addr can_focus None)) ->
  (forall addr can_focus children,
     Forall P children -> P (WidgetNode addr can_focus (Some children))) ->
  forall t, P t.
Proof.
  intros Hleaf Hnode. fix IH 1. intros [addr can_focus [children |]].
  - apply Hnode. induction children as [| child l IHl].
    + constructor.
    + constructor; [apply IH | exact IHl].
  - apply Hleaf.
Qed.

Lemma preorder_container (addr : SngWidget) (can_focus : bool)
                         (children : list Widget) :
  preorder (WidgetNode addr can_focus (Some children)) =
  WidgetNode addr can_focus (Some children) :: flat_map preorder children.
Proof.
  reflexivity.
Qed.

Lemma focusable_leaf (addr : SngWidget) (can_focus : bool) :
  focusable (WidgetNode addr can_focus None) =
  if can_focus then [addr] else [].
Proof. unfold focusable. simpl. destruct can_focus; reflexivity. Qed.

Lemma focusable_flat_map (l : list Widget) :
  map widget_addr (filter sng_widget_can_focus (flat_map preorder l)) =
  flat_map focusable l.
Proof.
  induction l as [| child l IH]; [reflexivity |].
  cbn [flat_map]. rewrite filter_app, map_app, IH. reflexivity.
Qed.

Lemma focusable_container (addr : SngWidget) (can_focus : bool)
                          (children : list Widget) :
  focusable (WidgetNode addr can_focus (Some children)) =
  (if can_focus then [addr] else []) ++ flat_map focusable children.
Proof.
  unfold focusable at 1. rewrite preorder_container.
  cbn [filter sng_widget_can_focus].
  destruct can_focus; cbn [map app widget_addr];
    rewrite focusable_flat_map; reflexivity.
Qed.

Lemma walked_refl (w : World) : walked [] w w.
Proof.
  unfold walked. rewrite !app_nil_r. split; [| reflexivity].
  destruct w as [[? ? ? ? ? ?] ?]. reflexivity.
Qed.

Lemma walked_trans (a b : list SngWidget) (w w1 w2 : World) :
  walked a w w1 -> walked b w1 w2 -> walked (a ++ b) w w2.
Proof.
  unfold walked. intros [Hp Ht] [Hp' Ht']. split.
  - rewrite Hp', Hp. unfold set_focus_chain. cbn.
    rewrite app_assoc. reflexivity.
  - rewrite Ht', Ht, flat_map_app, app_assoc. reflexivity.
Qed.

(** The part of [window_update_focus_chain] that deals with the widget
    itself. *)
Lemma update_self (addr : SngWidget) (can_focus : bool) (w : World) :
  exists w',
    (if can_focus then
       modify_priv (fun p =>
         set_focus_chain (g_list_append (focus_chain p) addr) p) ;;
       extern (g_signal_connect_swapped addr "lose-focus"
                 cb_window_focus_default_widget) ;;
       extern (g_signal_connect_swapped addr "grab-focus"
                 cb_window_set_focused_widget)
     else ret tt) w = Done (tt, w') /\
    walked (if can_focus then [addr] else []) w w'.
Proof.
  destruct can_focus.
  - eexists. split; [reflexivity |]. unfold walked. split; [reflexivity |].
    cbn. rewrite !map_app. cbn. rewrite <- app_assoc. reflexivity.
  - exists w. split; [reflexivity | apply walked_refl].
Qed.

Lemma update_each_cons (child : Widget) (l : list Widget) :
  update_each (child :: l) =
  (window_update_focus_chain child ;; update_each l).
Proof. reflexivity. Qed.

Lemma window_update_focus_chain_container (addr : SngWidget)
        (can_focus : bool) (children : list Widget) (w w1 : World) :
  (if can_focus then
     modify_priv (fun p =>
       set_focus_chain (g_list_append (focus_chain p) addr) p) ;;
     extern (g_signal_connect_swapped addr "lose-focus"
               cb_window_focus_default_widget) ;;
     extern (g_signal_connect_swapped addr "grab-focus"
               cb_window_set_focused_widget)
   else ret tt) w = Done (tt, w1) ->
  window_update_focus_chain (WidgetNode addr can_focus (Some children)) w =
  update_each children w1.
Proof.
  intros H. cbn [window_update_focus_chain]. unfold bind at 1.
  rewrite H. reflexivity.
Qed.

(** The walk over a subtree returns, having appended the focusable nodes
    of the subtree in pre-order. *)
Lemma window_update_focus_chain_walks (t : Widget) :
  forall w, exists w',
    window_update_focus_chain t w = Done (tt, w') /\
    walked (focusable t) w w'.
Proof.
  induction t as [addr can_focus | addr can_focus children IH]
    using Widget_ind; intros w.
  - destruct (update_self addr can_focus w) as [w1 [Hrun Hw]].
    exists w1. rewrite focusable_leaf. split; [| exact Hw].
    cbn [window_update_focus_chain]. unfold bind at 1.
    rewrite Hrun. reflexivity.
  - destruct (update_self addr can_focus w) as [w1 [Hrun Hw]].
    rewrite (window_update_focus_chain_container _ _ children _ _ Hrun).
    rewrite focusable_container.
    assert (Hkids : forall w1, exists w',
              update_each children w1 = Done (tt, w') /\
              walked (flat_map focusable children) w1 w').
    { clear w w1 Hrun Hw.
      induction IH as [| child l Hchild _ IHl]; intros w1.
      - exists w1. split; [reflexivity | apply walked_refl].
      - destruct (Hchild w1) as [w2 [Hrun2 Hw2]].
        destruct (IHl w2) as [w3 [Hrun3 Hw3]].
        exists w3. rewrite update_each_cons. unfold bind.
        rewrite Hrun2. cbn [obind fst snd]. split; [exact Hrun3 |].
        cbn [flat_map]. eapply walked_trans; eassumption. }
    destruct (Hkids w1) as [w' [Hrun' Hw']].
    exists w'. split; [exact Hrun' |].
    eapply walked_trans; eassumption.
Qed.

(** C5: [window_add_widget] returns, and the focus chain is then the chain
    as it was followed by the nodes of the subtree that can receive focus,
    in pre-order (the widget, then the subtree of each child in turn);
    nothing else changes in the private state, the two subscriptions are
    installed on each appended widget, and the chain grows by the number
    of focusable nodes: by exactly 3 for a subtree of 3 focusable and 2
    non-focusable widgets. *)
Theorem C5_attach_appends_focusable_preorder (t : Widget) (w : World) :
  exists w',
    window_add_widget t w = Done (tt, w') /\
    focus_chain (priv w') =
      focus_chain (priv w) ++
      map widget_addr (filter sng_widget_can_focus (preorder t)) /\
    priv w' = set_focus_chain (focus_chain (priv w')) (priv w) /\
    map call (trace w') =
      map call (trace w) ++
      flat_map subscriptions
        (map widget_addr (filter sng_widget_can_focus (preorder t))) ++
      [container_class_add (widget_addr t)] /\
    length (focus_chain (priv w')) =
      length (focus_chain (priv w)) +
      length (filter sng_widget_can_focus (preorder t)) /\
    (length (filter sng_widget_can_focus (preorder t)) = 3 ->
     length (filter (fun n => negb (sng_widget_can_focus n)) (preorder t)) = 2 ->
     length (focus_chain (priv w')) = length (focus_chain (priv w)) + 3).
Proof.
  destruct (window_update_focus_chain_walks t w) as [w1 [Hrun [Hp Ht]]].
  fold (focusable t).
  exists (mkWorld (priv w1)
                  (trace w1 ++
                   [mkObserved (container_class_add (widget_addr t)) (priv w1)])).
  assert (Hchain : focus_chain (priv w1) = focus_chain (priv w) ++ focusable t)
    by (rewrite Hp; reflexivity).
  assert (Hlen : length (focus_chain (priv w1)) =
                 length (focus_chain (priv w)) +
                 length (filter sng_widget_can_focus (preorder t))).
  { rewrite Hchain, length_app. unfold focusable. rewrite length_map.
    reflexivity. }
  cbn [priv trace].
  split; [| split; [exact Hchain | split; [| split; [| split]]]].
  - unfold window_add_widget, bind. rewrite Hrun. reflexivity.
  - rewrite Hchain. exact Hp.
  - rewrite map_app, Ht, <- app_assoc. reflexivity.
  - exact Hlen.
  - intros H3 _. rewrite Hlen, H3. reflexivity.
Qed.

Lemma C5_attach_appends_focusable_preorder_witness :
  exists w',
    window_add_widget scenario_subtree scenario_window = Done (tt, w') /\
    focus_chain (priv w') = [1; 2; 3; 11; 13; 14]%Z /\
    length (focus_chain (priv w')) = 3 + 3.
Proof.
  destruct (C5_attach_appends_focusable_preorder
              scenario_subtree scenario_window)
    as [w' [Hrun [Hchain [_ [_ [_ Hthree]]]]]].
  exists w'. split; [exact Hrun |]. split; [exact Hchain |].
  apply Hthree; reflexivity.
Defined.

(** ** The footer of key bindings *)

Lemma strlen_nonneg (s : string) : (0 <= strlen s)%Z.
Proof. unfold strlen. lia. Qed.

Lemma footer_extent_length (pairs : list (string * string)) :
  (4 * Z.of_nat (length pairs) <= footer_extent pairs)%Z.
Proof.
  induction pairs as [| [label descr] rest IH]; cbn [footer_extent length].
  - lia.
  - pose proof (strlen_nonneg label). pose proof (strlen_nonneg descr). lia.
Qed.

Lemma flatten_pairs_app (a b : list (string * string)) :
  flatten_pairs (a ++ b) = flatten_pairs a ++ flatten_pairs b.
Proof.
  induction a as [| [label descr] a IH]; [reflexivity |].
  cbn [app flatten_pairs]. rewrite IH. reflexivity.
Qed.

Lemma flatten_pairs_length (a : list (string * string)) :
  length (flatten_pairs a) = 2 * length a.
Proof.
  induction a as [| [label descr] a IH]; [reflexivity |].
  cbn [flatten_pairs length]. rewrite IH. lia.
Qed.

(** The two strings of the pair that follows [seen] in the flat array. *)
Lemma array_get_pair (seen rest : list (string * string))
                     (label descr : string) :
  (2 * Z.of_nat (length seen) + 2 <= G_MAXINT)%Z ->
  array_get (flatten_pairs (seen ++ (label, descr) :: rest))
            (2 * Z.of_nat (length seen)) = Done label /\
  array_get (flatten_pairs (seen ++ (label, descr) :: rest))
            (gint_add (2 * Z.of_nat (length seen)) 1) = Done descr.
Proof.
  intros Hb. unfold gint_add.
  rewrite wrap_gint_id
    by gint_lia.
  unfold array_get.
  destruct (Z.ltb_spec (2 * Z.of_nat (length seen)) 0) as [Hn | _]; [lia |].
  destruct (Z.ltb_spec (2 * Z.of_nat (length seen) + 1) 0) as [Hn | _];
    [lia |].
  replace (Z.to_nat (2 * Z.of_nat (length seen)))
    with (length (flatten_pairs seen) + 0)
    by (rewrite flatten_pairs_length; lia).
  replace (Z.to_nat (2 * Z.of_nat (length seen) + 1))
    with (length (flatten_pairs seen) + 1)
    by (rewrite flatten_pairs_length; lia).
  rewrite flatten_pairs_app, !nth_error_app2 by lia.
  replace (length (flatten_pairs seen) + 0 - length (flatten_pairs seen))
    with 0 by lia.
  replace (length (flatten_pairs seen) + 1 - length (flatten_pairs seen))
    with 1 by lia.
  split; reflexivity.
Qed.

(** The loop, entered after the pairs [seen] with [rest] still to draw,
    returns and prints the cells of [rest] from the current column. *)
Lemma draw_bindings_loop_cells (row : Z) (rest : list (string * string)) :
  forall (seen : list (string * string)) (fuel : nat) (xpos : Z),
  length rest < fuel ->
  (0 <= xpos)%Z ->
  (xpos + footer_extent rest <= G_MAXINT)%Z ->
  (2 * Z.of_nat (length (seen ++ rest)) <= G_MAXINT)%Z ->
  exists calls,
    draw_bindings_loop fuel (flatten_pairs (seen ++ rest))
                       (2 * Z.of_nat (length (seen ++ rest))) row
                       (2 * Z.of_nat (length seen)) xpos = Done calls /\
    cells_of calls = footer_cells rest xpos.
Proof.
  induction rest as [| [label descr] rest IH];
    intros seen fuel xpos Hfuel Hx Hext Hcount;
    (destruct fuel as [| fuel]; [simpl in Hfuel; lia |]);
    cbn [draw_bindings_loop].
  - rewrite app_nil_r. rewrite Z.ltb_irrefl. exists []. split; reflexivity.
  - rewrite length_app in Hcount. cbn [length] in Hcount.
    destruct (Z.ltb_spec (2 * Z.of_nat (length seen))
                (2 * Z.of_nat (length (seen ++ (label, descr) :: rest))))
      as [_ | Hge]; [| rewrite length_app in Hge; cbn [length] in Hge; lia].
    destruct (array_get_pair seen rest label descr ltac:(lia)) as [Hl Hd].
    rewrite Hl. cbn [obind]. rewrite Hd. cbn [obind].
    cbn [footer_extent] in Hext.
    pose proof (strlen_nonneg label) as Hsl.
    pose proof (strlen_nonneg descr) as Hsd.
    pose proof (footer_extent_length rest) as Hrest.
    assert (Hw : forall z, (0 <= z <= G_MAXINT)%Z -> wrap_gint z = z)
      by (intros z Hz; apply wrap_gint_id; gint_lia).
    rewrite (Hw (strlen label + 1)%Z) by lia.
    rewrite (Hw (strlen descr + 1)%Z) by lia.
    rewrite (Hw (xpos + (strlen label + 1))%Z) by lia.
    rewrite (Hw (xpos + (strlen label + 1) + (strlen descr + 3))%Z) by lia.
    unfold gint_add. rewrite (Hw (2 * Z.of_nat (length seen) + 2)%Z) by lia.
    destruct (IH (seen ++ [(label, descr)]) fuel
                (xpos + (strlen label + 1) + (strlen descr + 3))%Z)
      as [calls [Hrun Hcells]].
    + simpl in Hfuel. lia.
    + lia.
    + lia.
    + rewrite !length_app. cbn [length]. lia.
    + rewrite <- app_assoc in Hrun. cbn [app] in Hrun.
      replace (2 * Z.of_nat (length (seen ++ [(label, descr)])))%Z
        with (2 * Z.of_nat (length seen) + 2)%Z in Hrun
        by (rewrite length_app; cbn [length]; lia).
      rewrite Hrun. cbn [obind]. eexists. split; [reflexivity |].
      unfold cells_of in *. rewrite !flat_map_app, Hcells. reflexivity.
Qed.

(** The cells of the whole drawing are those of the loop: the footer, from
    column 0. *)
Lemma window_draw_bindings_cells (has_colors : bool) (height width : Z)
        (fuel : nat) (pairs : list (string * string)) :
  length pairs < fuel ->
  (footer_extent pairs <= G_MAXINT)%Z ->
  exists calls,
    window_draw_bindings has_colors height width fuel (flatten_pairs pairs)
                         (2 * Z.of_nat (length pairs)) = Done calls /\
    cells_of calls = footer_cells pairs 0.
Proof.
  intros Hfuel Hext.
  pose proof (footer_extent_length pairs) as Hlen.
  destruct (draw_bindings_loop_cells (gint_sub height 1) pairs [] fuel 0%Z)
    as [calls [Hrun Hcells]]; try (cbn [app length]; lia).
  cbn [app length] in Hrun. change (2 * Z.of_nat 0)%Z with 0%Z in Hrun.
  unfold window_draw_bindings. rewrite Hrun. cbn [obind].
  eexists. split; [reflexivity |].
  unfold cells_of in *. rewrite !flat_map_app, Hcells.
  destruct has_colors; cbn; apply app_nil_r.
Qed.

Lemma footer_cells_text (pairs : list (string * string)) :
  forall x, map cell_text (footer_cells pairs x) = flatten_pairs pairs.
Proof.
  induction pairs as [| [label descr] rest IH]; intros x; [reflexivity |].
  cbn [footer_cells map cell_text flatten_pairs]. rewrite IH. reflexivity.
Qed.

Lemma footer_cells_width (pairs : list (string * string)) :
  forall x c, In c (footer_cells pairs x) ->
              cell_width c = (strlen (cell_text c) + 1)%Z.
Proof.
  induction pairs as [| [label descr] rest IH]; intros x c Hin.
  - destruct Hin.
  - cbn [footer_cells] in Hin. destruct Hin as [<- | [<- | Hin]].
    + reflexivity.
    + reflexivity.
    + eapply IH. exact Hin.
Qed.

Lemma footer_cells_head (pairs : list (string * string)) (x : Z) (c : Cell) :
  nth_error (footer_cells pairs x) 0 = Some c -> cell_col c = x.
Proof.
  destruct pairs as [| [label descr] rest]; cbn [footer_cells nth_error].
  - discriminate.
  - intros H. injection H as <-. reflexivity.
Qed.

(** Where a cell starts, from the cell before it: right after its field
    when that cell is a key-label, two columns further when it is a
    description. *)
Lemma footer_cells_next (pairs : list (string * string)) :
  forall x j c c',
  nth_error (footer_cells pairs x) j = Some c ->
  nth_error (footer_cells pairs x) (S j) = Some c' ->
  cell_col c' =
  (cell_col c + cell_width c + (if Nat.even j then 0 else 2))%Z.
Proof.
  induction pairs as [| [label descr] rest IH]; intros x j c c' Hc Hc'.
  - destruct j; discriminate.
  - cbn [footer_cells] in Hc, Hc'.
    destruct j as [| [| j]]; cbn [nth_error] in Hc, Hc'.
    + injection Hc as <-. injection Hc' as <-. cbn. lia.
    + injection Hc as <-. apply footer_cells_head in Hc'.
      rewrite Hc'. cbn. lia.
    + change (Nat.even (S (S j))) with (Nat.even j).
      eapply IH; eassumption.
Qed.

(** C9 (amended): for a flat array of (key-label, description) pairs whose
    footer fits in a [gint], [window_draw_bindings] returns; it prints the
    strings of the array in their order, key-label and description in
    turn, each in a field of its length plus one column; the first cell
    starts at column 0, a description starts where the field of its
    key-label ends, and a key-label starts two columns after the end of
    the field of the description before it. *)
Theorem C9_footer_layout (has_colors : bool) (height width : Z) (fuel : nat)
                         (pairs : list (string * string)) :
  length pairs < fuel ->
  (footer_extent pairs <= G_MAXINT)%Z ->
  exists calls,
    window_draw_bindings has_colors height width fuel (flatten_pairs pairs)
                         (2 * Z.of_nat (length pairs)) = Done calls /\
    map cell_text (cells_of calls) = flatten_pairs pairs /\
    (forall c, In c (cells_of calls) ->
               cell_width c = (strlen (cell_text c) + 1)%Z) /\
    (forall c, nth_error (cells_of calls) 0 = Some c -> cell_col c = 0%Z) /\
    (forall j c c',
       nth_error (cells_of calls) j = Some c ->
       nth_error (cells_of calls) (S j) = Some c' ->
       cell_col c' =
       (cell_col c + cell_width c + (if Nat.even j then 0 else 2))%Z).
Proof.
  intros Hfuel Hext.
  destruct (window_draw_bindings_cells has_colors height width fuel pairs
              Hfuel Hext) as [calls [Hrun Hcells]].
  exists calls. rewrite Hcells. split; [exact Hrun |].
  split; [apply footer_cells_text |].
  split; [apply footer_cells_width |].
  split; [intros c; apply footer_cells_head | apply footer_cells_next].
Qed.

Lemma C9_footer_layout_witness :
  exists calls,
    window_draw_bindings true 24 80 3
      (flatten_pairs [("F1", "Help"); ("Esc", "Quit")]%string)
      (2 * Z.of_nat 2) = Done calls /\
    map cell_text (cells_of calls) = ["F1"; "Help"; "Esc"; "Quit"]%string /\
    (forall c, In c (cells_of calls) ->
               cell_width c = (strlen (cell_text c) + 1)%Z) /\
    (forall c, nth_error (cells_of calls) 0 = Some c -> cell_col c = 0%Z) /\
    (forall j c c',
       nth_error (cells_of calls) j = Some c ->
       nth_error (cells_of calls) (S j) = Some c' ->
       cell_col c' =
       (cell_col c + cell_width c + (if Nat.even j then 0 else 2))%Z).
Proof.
  apply (C9_footer_layout true 24 80 3
           [("F1", "Help"); ("Esc", "Quit")]%string).
  - simpl. lia.
  - vm_compute. discriminate.
Defined.

(** C9, as first stated, fails: in the footer of F1 Help, Esc Quit the
    cell of Esc starts at column 10, two columns after the field of Help
    ends at column 8. *)
Lemma C9_counterexample_gap_after_description :
  exists calls,
    window_draw_bindings true 24 80 3
      ["F1"; "Help"; "Esc"; "Quit"]%string 4 = Done calls /\
    cells_of calls =
      [ mkCell 0 3 "F1"; mkCell 3 5 "Help";
        mkCell 10 4 "Esc"; mkCell 14 5 "Quit" ] /\
    contiguous (cells_of calls) = false.
Proof.
  eexists. split; [vm_compute; reflexivity |].
  split; vm_compute; reflexivity.
Qed.

(** * Further properties *)

(** ** The walk stops on the nearest visible widget *)

Section RingNearest.

Variable is_visible : SngWidget -> bool.
Variable chain : GList.
Variable step : nat -> nat.
Variable loop : nat -> GListNode -> outcome GListNode.

Hypothesis step_lt : forall i, i < length chain -> step i < length chain.
Hypothesis step_reach :
  forall i j, i < length chain -> j < length chain ->
    exists k, 1 <= k <= length chain /\ Nat.iter k step i = j.
Hypothesis loop_step :
  forall fuel i, i < length chain ->
    loop (S fuel) (Some i) =
    if visible_at is_visible chain (step i)
    then Done (Some (step i))
    else loop fuel (Some (step i)).

(** A scan that can stop does so on the nearest visible position, within
    one turn. *)
Lemma scan_nearest (fuel i : nat) :
  i < length chain ->
  (exists d, In d chain /\ is_visible d = true) ->
  length chain <= fuel ->
  exists k, nearest_visible is_visible chain step i k /\
            loop fuel (Some i) = Done (Some (Nat.iter k step i)).
Proof.
  intros Hi [d [Hd Hvis]] Hfuel.
  destruct (In_nth_error _ _ Hd) as [j Hj].
  assert (Hjlt : j < length chain)
    by (apply nth_error_Some; rewrite Hj; discriminate).
  destruct (step_reach i j Hi Hjlt) as [K [HK Hreach]].
  assert (HvK : visible_at is_visible chain (Nat.iter K step i) = true)
    by (rewrite Hreach; unfold visible_at; rewrite Hj; exact Hvis).
  destruct (scan_reaches is_visible chain step loop step_lt loop_step fuel i Hi)
    as [k [Hk [Hrun [Hv Hskip]]]].
  { exists K. split; [lia | exact HvK]. }
  exists k. split; [| exact Hrun].
  split; [| split; assumption].
  destruct (Nat.le_gt_cases k K) as [Hle | Hgt]; [lia |].
  rewrite (Hskip K) in HvK by lia. discriminate.
Qed.

(** The scan stops on a position known to be the nearest visible one. *)
Lemma scan_stops (fuel i k : nat) :
  i < length chain ->
  nearest_visible is_visible chain step i k ->
  k <= fuel ->
  loop fuel (Some i) = Done (Some (Nat.iter k step i)).
Proof.
  intros Hi [Hk [Hv Hskip]] Hfuel.
  destruct (scan_reaches is_visible chain step loop step_lt loop_step fuel i Hi)
    as [k0 [Hk0 [Hrun [Hv0 Hskip0]]]].
  { exists k. split; [lia | exact Hv]. }
  destruct (Nat.lt_trichotomy k0 k) as [Hlt | [Heq | Hgt]].
  - rewrite (Hskip k0) in Hv0 by lia. discriminate.
  - subst k0. exact Hrun.
  - rewrite (Hskip0 k) in Hv by lia. discriminate.
Qed.

End RingNearest.

Lemma pred_succ_pos (n x : nat) : x < n -> pred_pos n (succ_pos n x) = x.
Proof.
  intros H. unfold succ_pos, pred_pos.
  destruct (Nat.ltb_spec (S x) n); [reflexivity | lia].
Qed.

Lemma succ_pred_pos (n x : nat) : x < n -> succ_pos n (pred_pos n x) = x.
Proof.
  intros H. unfold succ_pos, pred_pos. destruct x as [| x].
  - destruct (Nat.ltb_spec (S (n - 1)) n); lia.
  - destruct (Nat.ltb_spec (S x) n); lia.
Qed.

(** Steps backward undo as many steps forward, and conversely. *)
Lemma iter_pred_of_iter_succ (n i k : nat) :
  i < n ->
  forall k', k' <= k ->
    Nat.iter k' (pred_pos n) (Nat.iter k (succ_pos n) i) =
    Nat.iter (k - k') (succ_pos n) i.
Proof.
  intros Hi k'. induction k' as [| k' IH]; intros Hle.
  - rewrite Nat.sub_0_r. reflexivity.
  - rewrite Nat.iter_succ, IH by lia.
    replace (k - k') with (S (k - S k')) by lia. rewrite Nat.iter_succ.
    apply pred_succ_pos, iter_succ_pos_lt, Hi.
Qed.

Lemma iter_succ_of_iter_pred (n i k : nat) :
  i < n ->
  forall k', k' <= k ->
    Nat.iter k' (succ_pos n) (Nat.iter k (pred_pos n) i) =
    Nat.iter (k - k') (pred_pos n) i.
Proof.
  intros Hi k'. induction k' as [| k' IH]; intros Hle.
  - rewrite Nat.sub_0_r. reflexivity.
  - rewrite Nat.iter_succ, IH by lia.
    replace (k - k') with (S (k - S k')) by lia. rewrite Nat.iter_succ.
    apply succ_pred_pos, iter_pred_pos_lt, Hi.
Qed.

(** From the node [g_list_find] returns, with a visible member in the
    chain and fuel for one turn, [window_focus_next] is the transfer of the
    focus to the nearest visible widget forward. *)
Lemma window_focus_next_nearest (is_visible : SngWidget -> bool) (fuel : nat)
                                (w : World) (i : nat) :
  g_list_find (focus_chain (priv w)) (focus (priv w)) = Some i ->
  i < length (focus_chain (priv w)) ->
  (exists d, In d (focus_chain (priv w)) /\ is_visible d = true) ->
  length (focus_chain (priv w)) <= fuel ->
  exists k w',
    nearest_visible is_visible (focus_chain (priv w))
                    (succ_pos (length (focus_chain (priv w)))) i k /\
    window_focus_next is_visible fuel w = Done (tt, w') /\
    same_but_focus (priv w) (priv w') /\
    nth_error (focus_chain (priv w))
              (Nat.iter k (succ_pos (length (focus_chain (priv w)))) i)
    = Some (focus (priv w')).
Proof.
  intros Hf Hi Hex Hfuel.
  destruct (scan_nearest is_visible (focus_chain (priv w))
              (succ_pos (length (focus_chain (priv w))))
              (fun f c => focus_next_loop is_visible f (focus_chain (priv w)) c)
              (fun j Hj => succ_pos_lt _ j Hj)
              (fun a b Ha Hb => iter_succ_pos_reach _ a b Ha Hb)
              (fun f j Hj => focus_next_loop_step is_visible _ f j Hj)
              fuel i Hi Hex Hfuel) as [k [Hnear Hrun]].
  cbv beta in Hrun.
  destruct (visible_at_true _ _ _ (proj1 (proj2 Hnear))) as [d [Hd _]].
  destruct (set_focused_total w d) as [w' [Hset [Hframe [Hfocus _]]]].
  exists k, w'. split; [exact Hnear |].
  rewrite (window_focus_next_run _ _ _ _ _ _ Hf Hrun Hd).
  split; [exact Hset |]. split; [exact Hframe |].
  rewrite Hfocus. exact Hd.
Qed.

Lemma window_focus_prev_nearest (is_visible : SngWidget -> bool) (fuel : nat)
                                (w : World) (i : nat) :
  g_list_find (focus_chain (priv w)) (focus (priv w)) = Some i ->
  i < length (focus_chain (priv w)) ->
  (exists d, In d (focus_chain (priv w)) /\ is_visible d = true) ->
  length (focus_chain (priv w)) <= fuel ->
  exists k w',
    nearest_visible is_visible (focus_chain (priv w))
                    (pred_pos (length (focus_chain (priv w)))) i k /\
    window_focus_prev is_visible fuel w = Done (tt, w') /\
    same_but_focus (priv w) (priv w') /\
    nth_error (focus_chain (priv w))
              (Nat.iter k (pred_pos (length (focus_chain (priv w)))) i)
    = Some (focus (priv w')).
Proof.
  intros Hf Hi Hex Hfuel.
  destruct (scan_nearest is_visible (focus_chain (priv w))
              (pred_pos (length (focus_chain (priv w))))
              (fun f c => focus_prev_loop is_visible f (focus_chain (priv w)) c)
              (fun j Hj => pred_pos_lt _ j Hj)
              (fun a b Ha Hb => iter_pred_pos_reach _ a b Ha Hb)
              (fun f j Hj => focus_prev_loop_step is_visible _ f j Hj)
              fuel i Hi Hex Hfuel) as [k [Hnear Hrun]].
  cbv beta in Hrun.
  destruct (visible_at_true _ _ _ (proj1 (proj2 Hnear))) as [d [Hd _]].
  destruct (set_focused_total w d) as [w' [Hset [Hframe [Hfocus _]]]].
  exists k, w'. split; [exact Hnear |].
  rewrite (window_focus_prev_run _ _ _ _ _ _ Hf Hrun Hd).
  split; [exact Hset |]. split; [exact Hframe |].
  rewrite Hfocus. exact Hd.
Qed.

(** X1: from a focused widget that [g_list_find] finds at position [i] of a
    chain with a visible member, and with fuel for one turn,
    [window_focus_next] ([window_focus_prev]) returns with the focus on the
    nearest visible widget after (before) position [i] on the ring: every
    widget passed on the way is hidden, and at most one turn is made. *)
Theorem X1_navigation_stops_on_nearest_visible
        (is_visible : SngWidget -> bool) (fuel : nat) (w : World) (i : nat) :
  g_list_find (focus_chain (priv w)) (focus (priv w)) = Some i ->
  (exists d, In d (focus_chain (priv w)) /\ is_visible d = true) ->
  length (focus_chain (priv w)) <= fuel ->
  (exists k w',
     nearest_visible is_visible (focus_chain (priv w))
                     (succ_pos (length (focus_chain (priv w)))) i k /\
     window_focus_next is_visible fuel w = Done (tt, w') /\
     nth_error (focus_chain (priv w))
               (Nat.iter k (succ_pos (length (focus_chain (priv w)))) i)
     = Some (focus (priv w'))) /\
  (exists k w',
     nearest_visible is_visible (focus_chain (priv w))
                     (pred_pos (length (focus_chain (priv w)))) i k /\
     window_focus_prev is_visible fuel w = Done (tt, w') /\
     nth_error (focus_chain (priv w))
               (Nat.iter k (pred_pos (length (focus_chain (priv w)))) i)
     = Some (focus (priv w'))).
Proof.
  intros Hf Hex Hfuel.
  assert (Hi : i < length (focus_chain (priv w))).
  { apply find_from_sound in Hf. destruct Hf as [_ Hn].
    rewrite Nat.sub_0_r in Hn. apply nth_error_Some. rewrite Hn.
    discriminate. }
  split.
  - destruct (window_focus_next_nearest is_visible fuel w i Hf Hi Hex Hfuel)
      as [k [w' [Hnear [Hrun [_ Hpos]]]]].
    exists k, w'. repeat split; try apply Hnear; assumption.
  - destruct (window_focus_prev_nearest is_visible fuel w i Hf Hi Hex Hfuel)
      as [k [w' [Hnear [Hrun [_ Hpos]]]]].
    exists k, w'. repeat split; try apply Hnear; assumption.
Qed.

Lemma X1_navigation_stops_on_nearest_visible_witness :
  (exists w', window_focus_next scenario_visible 3 scenario_window =
                Done (tt, w') /\ focus (priv w') = 3%Z) /\
  (exists w', window_focus_prev scenario_visible 3 scenario_window =
                Done (tt, w') /\ focus (priv w') = 3%Z).
Proof.
  destruct (X1_navigation_stops_on_nearest_visible
              scenario_visible 3 scenario_window 0) as [Hn Hp].
  - reflexivity.
  - exists 3%Z. split; [simpl; right; right; left; reflexivity | reflexivity].
  - simpl. lia.
  - destruct Hn as [k [w' [[Hk [Hv Hskip]] [Hrun Hpos]]]].
    destruct Hp as [k2 [w2 [[Hk2 [Hv2 Hskip2]] [Hrun2 Hpos2]]]].
    split.
    + exists w'. split; [exact Hrun |].
      vm_compute in Hrun. injection Hrun as <-. reflexivity.
    + exists w2. split; [exact Hrun2 |].
      vm_compute in Hrun2. injection Hrun2 as <-. reflexivity.
Defined.

(** ** Navigation with nowhere else to go *)

(** X2: when the focused widget is a visible member of the chain and no
    other widget of the chain is visible, [window_focus_next] and
    [window_focus_prev] go round the chain once and return the world as
    they found it: the focus stays and no notification is sent. *)
Theorem X2_sole_visible_member_keeps_focus
        (is_visible : SngWidget -> bool) (fuel : nat) (w : World) :
  In (focus (priv w)) (focus_chain (priv w)) ->
  is_visible (focus (priv w)) = true ->
  (forall d, In d (focus_chain (priv w)) -> is_visible d = true ->
             d = focus (priv w)) ->
  length (focus_chain (priv w)) <= fuel ->
  window_focus_next is_visible fuel w = Done (tt, w) /\
  window_focus_prev is_visible fuel w = Done (tt, w).
Proof.
  intros Hin Hvis Hsole Hfuel.
  assert (Hex : exists v, In v (focus_chain (priv w)) /\ is_visible v = true)
    by (exists (focus (priv w)); split; assumption).
  split.
  - destruct (window_focus_next_visible is_visible fuel w Hin Hex Hfuel)
      as [w' [Hrun [_ [Hv' Hin']]]].
    destruct (window_focus_next_inv _ _ _ _ Hrun) as [d Hd].
    destruct (set_focused_total w d) as [w1 [Hset [_ [Hfocus _]]]].
    rewrite Hset in Hd. injection Hd as <-.
    rewrite Hfocus in Hv', Hin'.
    rewrite (set_focused_same w d (eq_sym (Hsole d Hin' Hv'))) in Hset.
    rewrite Hrun. symmetry. exact Hset.
  - destruct (window_focus_prev_visible is_visible fuel w Hin Hex Hfuel)
      as [w' [Hrun [_ [Hv' Hin']]]].
    destruct (window_focus_prev_inv _ _ _ _ Hrun) as [d Hd].
    destruct (set_focused_total w d) as [w1 [Hset [_ [Hfocus _]]]].
    rewrite Hset in Hd. injection Hd as <-.
    rewrite Hfocus in Hv', Hin'.
    rewrite (set_focused_same w d (eq_sym (Hsole d Hin' Hv'))) in Hset.
    rewrite Hrun. symmetry. exact Hset.
Qed.

Lemma X2_sole_visible_member_keeps_focus_witness :
  window_focus_next (fun d => Z.eqb d 1) 3 scenario_window =
    Done (tt, scenario_window) /\
  window_focus_prev (fun d => Z.eqb d 1) 3 scenario_window =
    Done (tt, scenario_window).
Proof.
  apply (X2_sole_visible_member_keeps_focus
           (fun d => Z.eqb d 1) 3 scenario_window).
  - simpl. left. reflexivity.
  - reflexivity.
  - intros d _ Hd. apply Z.eqb_eq in Hd. exact Hd.
  - simpl. lia.
Defined.

(** ** Forward and backward undo each other *)

Lemma same_but_focus_trans (p p1 p2 : WindowPrivate) :
  same_but_focus p p1 -> same_but_focus p1 p2 -> same_but_focus p p2.
Proof.
  unfold same_but_focus. intros [? [? [? [? ?]]]] [? [? [? [? ?]]]].
  repeat split; congruence.
Qed.

(** X3: when no widget is in the chain twice and the focused widget is a
    visible member, [window_focus_prev] after [window_focus_next] (and
    [window_focus_next] after [window_focus_prev]) returns the private
    state of the window to what it was, whatever widgets are hidden. *)
Theorem X3_next_and_prev_are_inverse
        (is_visible : SngWidget -> bool) (fuel : nat) (w : World) :
  NoDup (focus_chain (priv w)) ->
  In (focus (priv w)) (focus_chain (priv w)) ->
  is_visible (focus (priv w)) = true ->
  length (focus_chain (priv w)) <= fuel ->
  (exists w1 w2,
     window_focus_next is_visible fuel w = Done (tt, w1) /\
     window_focus_prev is_visible fuel w1 = Done (tt, w2) /\
     priv w2 = priv w) /\
  (exists w1 w2,
     window_focus_prev is_visible fuel w = Done (tt, w1) /\
     window_focus_next is_visible fuel w1 = Done (tt, w2) /\
     priv w2 = priv w).
Proof.
  intros Hnd Hin Hvis Hfuel.
  destruct (In_nth_error _ _ Hin) as [i Hi].
  assert (Hlt : i < length (focus_chain (priv w)))
    by (apply nth_error_Some; rewrite Hi; discriminate).
  pose proof (g_list_find_nodup _ _ i Hnd Hi) as Hf.
  assert (Hex : exists d, In d (focus_chain (priv w)) /\ is_visible d = true)
    by (exists (focus (priv w)); split; assumption).
  assert (Hvi : visible_at is_visible (focus_chain (priv w)) i = true)
    by (unfold visible_at; rewrite Hi; exact Hvis).
  split.
  - destruct (window_focus_next_nearest is_visible fuel w i Hf Hlt Hex Hfuel)
      as [k [w1 [[Hk [Hv Hskip]] [Hrun [Hframe Hpos]]]]].
    pose proof Hframe as [_ [_ [_ [Hch _]]]].
    set (n := length (focus_chain (priv w))) in *.
    set (j := Nat.iter k (succ_pos n) i) in *.
    assert (Hj : j < n) by (apply iter_succ_pos_lt; exact Hlt).
    assert (Hback : focus_prev_loop is_visible fuel (focus_chain (priv w))
                      (Some j) = Done (Some i)).
    { rewrite (scan_stops is_visible (focus_chain (priv w)) (pred_pos n)
                 (fun f c => focus_prev_loop is_visible f
                               (focus_chain (priv w)) c)
                 (fun x Hx => pred_pos_lt _ x Hx)
                 (fun f x Hx => focus_prev_loop_step is_visible _ f x Hx)
                 fuel j k Hj).
      - unfold j. rewrite (iter_pred_of_iter_succ n i k Hlt k (le_n k)).
        rewrite Nat.sub_diag. reflexivity.
      - split; [exact Hk |]. unfold j. split.
        + rewrite (iter_pred_of_iter_succ n i k Hlt k (le_n k)).
          rewrite Nat.sub_diag. exact Hvi.
        + intros k' Hk'.
          rewrite (iter_pred_of_iter_succ n i k Hlt k') by lia.
          apply Hskip. lia.
      - fold n in Hfuel. lia. }
    destruct (set_focused_total w1 (focus (priv w)))
      as [w2 [Hset [Hframe2 [Hfocus2 _]]]].
    exists w1, w2. split; [exact Hrun |]. split.
    + rewrite <- Hset.
      apply (window_focus_prev_run is_visible fuel w1 j i).
      * rewrite Hch. apply g_list_find_nodup; assumption.
      * rewrite Hch. exact Hback.
      * rewrite Hch. exact Hi.
    + apply priv_eq; [| exact Hfocus2].
      eapply same_but_focus_trans; eassumption.
  - destruct (window_focus_prev_nearest is_visible fuel w i Hf Hlt Hex Hfuel)
      as [k [w1 [[Hk [Hv Hskip]] [Hrun [Hframe Hpos]]]]].
    pose proof Hframe as [_ [_ [_ [Hch _]]]].
    set (n := length (focus_chain (priv w))) in *.
    set (j := Nat.iter k (pred_pos n) i) in *.
    assert (Hj : j < n) by (apply iter_pred_pos_lt; exact Hlt).
    assert (Hback : focus_next_loop is_visible fuel (focus_chain (priv w))
                      (Some j) = Done (Some i)).
    { rewrite (scan_stops is_visible (focus_chain (priv w)) (succ_pos n)
                 (fun f c => focus_next_loop is_visible f
                               (focus_chain (priv w)) c)
                 (fun x Hx => succ_pos_lt _ x Hx)
                 (fun f x Hx => focus_next_loop_step is_visible _ f x Hx)
                 fuel j k Hj).
      - unfold j. rewrite (iter_succ_of_iter_pred n i k Hlt k (le_n k)).
        rewrite Nat.sub_diag. reflexivity.
      - split; [exact Hk |]. unfold j. split.
        + rewrite (iter_succ_of_iter_pred n i k Hlt k (le_n k)).
          rewrite Nat.sub_diag. exact Hvi.
        + intros k' Hk'.
          rewrite (iter_succ_of_iter_pred n i k Hlt k') by lia.
          apply Hskip. lia.
      - fold n in Hfuel. lia. }
    destruct (set_focused_total w1 (focus (priv w)))
      as [w2 [Hset [Hframe2 [Hfocus2 _]]]].
    exists w1, w2. split; [exact Hrun |]. split.
    + rewrite <- Hset.
      apply (window_focus_next_run is_visible fuel w1 j i).
      * rewrite Hch. apply g_list_find_nodup; assumption.
      * rewrite Hch. exact Hback.
      * rewrite Hch. exact Hi.
    + apply priv_eq; [| exact Hfocus2].
      eapply same_but_focus_trans; eassumption.
Qed.

Lemma X3_next_and_prev_are_inverse_witness :
  (exists w1 w2,
     window_focus_next scenario_visible 3 scenario_window = Done (tt, w1) /\
     window_focus_prev scenario_visible 3 w1 = Done (tt, w2) /\
     priv w2 = priv scenario_window) /\
  (exists w1 w2,
     window_focus_prev scenario_visible 3 scenario_window = Done (tt, w1) /\
     window_focus_next scenario_visible 3 w1 = Done (tt, w2) /\
     priv w2 = priv scenario_window).
Proof.
  apply (X3_next_and_prev_are_inverse scenario_visible 3 scenario_window).
  - simpl. repeat constructor; simpl; intuition lia.
  - simpl. left. reflexivity.
  - reflexivity.
  - simpl. lia.
Defined.

(** ** Backward navigation is circular too *)

Lemma iter_pred_pos_cycle (n i : nat) :
  i < n -> Nat.iter n (pred_pos n) i = i.
Proof.
  intros H.
  assert (E : Nat.iter ((n - 1 - i) + S i) (pred_pos n) i = i).
  { rewrite Nat.iter_add, iter_pred_pos_wrap.
    rewrite iter_pred_pos_sub by lia. lia. }
  replace ((n - 1 - i) + S i) with n in E by lia. exact E.
Qed.

Lemma times_focus_prev (is_visible : SngWidget -> bool) (fuel k : nat) :
  forall (w : World) (i : nat),
  (forall d, In d (focus_chain (priv w)) -> is_visible d = true) ->
  NoDup (focus_chain (priv w)) ->
  nth_error (focus_chain (priv w)) i = Some (focus (priv w)) ->
  1 <= fuel ->
  exists w', times k (window_focus_prev is_visible fuel) w = Done (tt, w') /\
             same_but_focus (priv w) (priv w') /\
             nth_error (focus_chain (priv w))
               (Nat.iter k (pred_pos (length (focus_chain (priv w)))) i)
             = Some (focus (priv w')).
Proof.
  induction k as [| k IH]; intros w i Hall Hnd Hi Hfuel.
  - exists w. repeat split. exact Hi.
  - assert (Hlt : i < length (focus_chain (priv w)))
      by (apply nth_error_Some; rewrite Hi; discriminate).
    destruct fuel as [| fuel]; [lia |].
    pose proof (scan_all_visible is_visible (focus_chain (priv w))
                  (pred_pos (length (focus_chain (priv w))))
                  (fun f c => focus_prev_loop is_visible f (focus_chain (priv w)) c)
                  (fun j Hj => pred_pos_lt _ j Hj)
                  (fun f j Hj => focus_prev_loop_step is_visible _ f j Hj)
                  fuel i Hall Hlt) as Hrun.
    cbv beta in Hrun.
    pose proof (pred_pos_lt _ i Hlt) as Hs.
    destruct (nth_error (focus_chain (priv w))
                (pred_pos (length (focus_chain (priv w))) i)) as [d |] eqn:Hd;
      [| apply nth_error_None in Hd; lia].
    destruct (set_focused_total w d) as [w1 [Hset [Hframe [Hfocus _]]]].
    rewrite <- (window_focus_prev_run is_visible (S fuel) w i _ d
                  (g_list_find_nodup _ _ i Hnd Hi) Hrun Hd) in Hset.
    rewrite (times_succ k _ w w1 Hset).
    pose proof Hframe as [_ [_ [_ [Hch _]]]].
    destruct (IH w1 (pred_pos (length (focus_chain (priv w))) i))
      as [w' [Hrun' [Hframe' Hpos]]].
    + rewrite Hch. exact Hall.
    + rewrite Hch. exact Hnd.
    + rewrite Hch, Hfocus. exact Hd.
    + lia.
    + exists w'. split; [exact Hrun' |].
      rewrite Hch in Hpos. rewrite Nat.iter_succ_r. split; [| exact Hpos].
      eapply same_but_focus_trans; eassumption.
Qed.

(** X4: when every member of the chain is visible, no widget is in the
    chain twice and the focused widget is a member, as many calls of
    [window_focus_prev] as the chain has members return the private state
    of the window to what it was. *)
Theorem X4_focus_prev_full_turn (is_visible : SngWidget -> bool) (fuel : nat)
                                (w : World) :
  (forall d, In d (focus_chain (priv w)) -> is_visible d = true) ->
  In (focus (priv w)) (focus_chain (priv w)) ->
  NoDup (focus_chain (priv w)) ->
  1 <= fuel ->
  exists w',
    times (length (focus_chain (priv w))) (window_focus_prev is_visible fuel) w
    = Done (tt, w') /\
    priv w' = priv w.
Proof.
  intros Hall Hin Hnd Hfuel.
  destruct (In_nth_error _ _ Hin) as [i Hi].
  assert (Hlt : i < length (focus_chain (priv w)))
    by (apply nth_error_Some; rewrite Hi; discriminate).
  destruct (times_focus_prev is_visible fuel (length (focus_chain (priv w)))
              w i Hall Hnd Hi Hfuel) as [w' [Hrun [Hframe Hpos]]].
  rewrite (iter_pred_pos_cycle _ i Hlt), Hi in Hpos.
  injection Hpos as Hfocus.
  exists w'. split; [exact Hrun |].
  apply priv_eq; [exact Hframe | symmetry; exact Hfocus].
Qed.

Lemma X4_focus_prev_full_turn_witness :
  exists w',
    times 3 (window_focus_prev (fun _ => true) 1) scenario_window
    = Done (tt, w') /\
    priv w' = priv scenario_window.
Proof.
  apply (X4_focus_prev_full_turn (fun _ => true) 1 scenario_window).
  - intros d _. reflexivity.
  - simpl. left. reflexivity.
  - simpl. repeat constructor; simpl; intuition lia.
  - lia.
Defined.

(** ** Sequences of keys *)

Lemma set_changed_true_id (p : WindowPrivate) :
  changed p = true -> set_changed true p = p.
Proof. destruct p. simpl. intros ->. reflexivity. Qed.

Section KeySequences.

Variable sng_widget_is_visible : SngWidget -> bool.
Variable container_find_by_position : Z -> Z -> SngWidget.
Variable clicked_result : SngWidget -> MEVENT -> Z.
Variable key_pressed_result : SngWidget -> Z -> Z.
Variable key_find_action : Z -> KeybindingAction -> KeybindingAction.
Variable KEY_HANDLED : Z.

(** A key handler that returns has written [changed] and at most
    [focus]. *)
Lemma window_handle_key_frame (fuel : nat) (key v : Z) (w w' : World) :
  window_handle_key sng_widget_is_visible key_pressed_result key_find_action
                    KEY_HANDLED fuel key w = Done (v, w') ->
  same_but_focus (priv (mark_changed w)) (priv w').
Proof.
  intros H.
  destruct (key_find_action key ACTION_UNKNOWN) eqn:Ha.
  - rewrite window_handle_key_other in H by congruence.
    injection H as _ <-. repeat split.
  - rewrite (window_handle_key_next _ _ _ _ fuel key w Ha) in H.
    destruct (window_focus_next sng_widget_is_visible fuel (mark_changed w))
      as [[[] w1] | f |] eqn:Hrun; cbn [obind snd] in H; try discriminate.
    injection H as _ <-.
    destruct (window_focus_next_inv _ _ _ _ Hrun) as [d Hd].
    destruct (set_focused_total (mark_changed w) d) as [w2 [Hset [Hframe _]]].
    rewrite Hset in Hd. injection Hd as <-. exact Hframe.
  - rewrite (window_handle_key_prev _ _ _ _ fuel key w Ha) in H.
    destruct (window_focus_prev sng_widget_is_visible fuel (mark_changed w))
      as [[[] w1] | f |] eqn:Hrun; cbn [obind snd] in H; try discriminate.
    injection H as _ <-.
    destruct (window_focus_prev_inv _ _ _ _ Hrun) as [d Hd].
    destruct (set_focused_total (mark_changed w) d) as [w2 [Hset [Hframe _]]].
    rewrite Hset in Hd. injection Hd as <-. exact Hframe.
  - rewrite window_handle_key_other in H by congruence.
    injection H as _ <-. repeat split.
Qed.

(** With the focus on a member of a chain that has a visible member, a key
    is handled: a navigation key with the verdict [KEY_HANDLED], any other
    key by the key handler of the focused widget; the focus is again on a
    member of the chain. *)
Lemma window_handle_key_ready (fuel : nat) (key : Z) (w : World) :
  In (focus (priv w)) (focus_chain (priv w)) ->
  (exists d, In d (focus_chain (priv w)) /\
             sng_widget_is_visible d = true) ->
  length (focus_chain (priv w)) <= fuel ->
  exists v w',
    window_handle_key sng_widget_is_visible key_pressed_result key_find_action
                      KEY_HANDLED fuel key w = Done (v, w') /\
    In (focus (priv w')) (focus_chain (priv w)) /\
    (is_navigation (key_find_action key ACTION_UNKNOWN) = true ->
     v = KEY_HANDLED) /\
    (is_navigation (key_find_action key ACTION_UNKNOWN) = false ->
     v = key_pressed_result (focus (priv w)) key /\
     focus (priv w') = focus (priv w)).
Proof.
  intros Hin Hex Hfuel.
  destruct (key_find_action key ACTION_UNKNOWN) eqn:Ha; cbn [is_navigation].
  - rewrite window_handle_key_other by congruence.
    eexists. eexists. split; [reflexivity |]. cbn [priv focus set_changed].
    split; [exact Hin |]. split; [discriminate |]. intros _. split; reflexivity.
  - rewrite (window_handle_key_next _ _ _ _ fuel key w Ha).
    destruct (window_focus_next_visible sng_widget_is_visible fuel
                (mark_changed w) Hin Hex Hfuel) as [w' [Hrun [_ [_ Hin']]]].
    rewrite Hrun. cbn [obind snd]. exists KEY_HANDLED, w'.
    split; [reflexivity |]. split; [exact Hin' |].
    split; [reflexivity | discriminate].
  - rewrite (window_handle_key_prev _ _ _ _ fuel key w Ha).
    destruct (window_focus_prev_visible sng_widget_is_visible fuel
                (mark_changed w) Hin Hex Hfuel) as [w' [Hrun [_ [_ Hin']]]].
    rewrite Hrun. cbn [obind snd]. exists KEY_HANDLED, w'.
    split; [reflexivity |]. split; [exact Hin' |].
    split; [reflexivity | discriminate].
  - rewrite window_handle_key_other by congruence.
    eexists. eexists. split; [reflexivity |]. cbn [priv focus set_changed].
    split; [exact Hin |]. split; [discriminate |]. intros _. split; reflexivity.
Qed.

End KeySequences.

(** ** A click, then a key *)

Section ClickThenKey.

Variable sng_widget_is_visible : SngWidget -> bool.
Variable container_find_by_position : Z -> Z -> SngWidget.
Variable clicked_result : SngWidget -> MEVENT -> Z.
Variable key_pressed_result : SngWidget -> Z -> Z.
Variable key_find_action : Z -> KeybindingAction -> KeybindingAction.
Variable KEY_HANDLED : Z.

(** A click that finds a widget: the focus goes to it, then it is told of
    the click. *)
Lemma window_handle_mouse_hit (mevent : MEVENT) (w : World) :
  container_find_by_position (mev_x mevent) (mev_y mevent) <> NULL ->
  exists w1,
    window_set_focused_widget
      (container_find_by_position (mev_x mevent) (mev_y mevent))
      (mark_changed w) = Done (tt, w1) /\
    same_but_focus (priv (mark_changed w)) (priv w1) /\
    focus (priv w1) =
      container_find_by_position (mev_x mevent) (mev_y mevent) /\
    window_handle_mouse container_find_by_position clicked_result KEY_HANDLED
                        mevent w
    = Done (clicked_result
              (container_find_by_position (mev_x mevent) (mev_y mevent))
              mevent,
            mkWorld (priv w1)
                    (trace w1 ++
                     [ mkObserved
                         (sng_widget_clicked
                            (container_find_by_position (mev_x mevent)
                                                        (mev_y mevent))
                            mevent)
                         (priv w1) ])).
Proof.
  intros Hhit.
  destruct (set_focused_total (mark_changed w)
              (container_find_by_position (mev_x mevent) (mev_y mevent)))
    as [w1 [Hset [Hframe [Hfocus _]]]].
  exists w1. split; [exact Hset |]. split; [exact Hframe |].
  split; [exact Hfocus |].
  unfold window_handle_mouse, bind, modify_priv. cbn [obind fst snd].
  apply Z.eqb_neq in Hhit. rewrite Hhit. cbn [negb].
  fold (mark_changed w). rewrite Hset. reflexivity.
Qed.

(** The mouse handler always returns, with the window marked as
    changed. *)
Lemma window_handle_mouse_changed (mevent : MEVENT) (w : World) :
  exists v w',
    window_handle_mouse container_find_by_position clicked_result KEY_HANDLED
                        mevent w = Done (v, w') /\
    changed (priv w') = true.
Proof.
  destruct (Z.eq_dec (container_find_by_position (mev_x mevent) (mev_y mevent))
                     NULL) as [Hnull | Hhit].
  - exists KEY_HANDLED, (mark_changed w).
    unfold window_handle_mouse, bind, modify_priv. cbn [obind fst snd].
    rewrite Hnull. split; reflexivity.
  - destruct (window_handle_mouse_hit mevent w Hhit)
      as [w1 [_ [[_ [_ [Hc _]]] [_ Hrun]]]].
    eexists. eexists. split; [exact Hrun | exact Hc].
Qed.

(** X6: a click finds whatever widget lies under the pointer and gives it
    the focus, in the chain or not.  When the widget found is not in the
    focus chain, the next key bound to a navigation action makes
    [window_handle_key] read a field of NULL: the two handlers in sequence
    end in that fault. *)
Theorem X6_click_outside_chain_then_navigation_faults
        (fuel : nat) (mevent : MEVENT) (key : Z) (w : World) :
  container_find_by_position (mev_x mevent) (mev_y mevent) <> NULL ->
  ~ In (container_find_by_position (mev_x mevent) (mev_y mevent))
       (focus_chain (priv w)) ->
  is_navigation (key_find_action key ACTION_UNKNOWN) = true ->
  0 < fuel ->
  (window_handle_mouse container_find_by_position clicked_result KEY_HANDLED
                       mevent ;;
   window_handle_key sng_widget_is_visible key_pressed_result key_find_action
                     KEY_HANDLED fuel key) w
  = Crash NullDeref.
Proof.
  intros Hhit Hout Hnav Hfuel.
  destruct (window_handle_mouse_hit mevent w Hhit)
    as [w1 [_ [[_ [_ [_ [Hch _]]]] [Hfocus Hrun]]]].
  cbn [mark_changed priv set_changed focus_chain] in Hch.
  unfold bind at 1. rewrite Hrun. cbn [obind fst snd].
  match goal with
  | |- window_handle_key _ _ _ _ _ _ ?w2 = _ =>
      assert (Hnot : ~ In (focus (priv w2)) (focus_chain (priv w2)))
        by (cbn [priv]; rewrite Hfocus, Hch; exact Hout);
      destruct (window_focus_absent sng_widget_is_visible fuel
                  (mark_changed w2) Hnot Hfuel) as [Hn Hp]
  end.
  destruct (key_find_action key ACTION_UNKNOWN) eqn:Ha;
    cbn [is_navigation] in Hnav; try discriminate.
  - rewrite (window_handle_key_next _ _ _ _ fuel key _ Ha), Hn. reflexivity.
  - rewrite (window_handle_key_prev _ _ _ _ fuel key _ Ha), Hp. reflexivity.
Qed.

End ClickThenKey.

Lemma X6_click_outside_chain_then_navigation_faults_witness :
  (window_handle_mouse (fun _ _ => 12%Z) (fun _ _ => (-1)%Z) 0%Z
                       (mkMEVENT 0 4 2 0 0) ;;
   window_handle_key scenario_visible (fun _ _ => (-1)%Z) scenario_action
                     0%Z 3 9%Z) scenario_window
  = Crash NullDeref.
Proof.
  apply (X6_click_outside_chain_then_navigation_faults
           scenario_visible (fun _ _ => 12%Z) (fun _ _ => (-1)%Z)
           (fun _ _ => (-1)%Z) scenario_action 0%Z 3 (mkMEVENT 0 4 2 0 0)
           9%Z scenario_window).
  - unfold NULL. lia.
  - simpl. intuition lia.
  - reflexivity.
  - lia.
Defined.

(** ** Input and redraw *)

(** On a window marked as changed, [window_redraw] answers TRUE and clears
    the mark, whatever the redraw function of the class. *)
Lemma window_redraw_changed (klass_redraw : option (M bool)) (w : World) :
  changed (priv w) = true ->
  window_redraw true klass_redraw w =
  Done (true, mkWorld (set_changed false (priv w)) (trace w)).
Proof.
  intros Hc. unfold window_redraw, bind, get_priv, modify_priv.
  cbn [negb obind fst snd]. rewrite Hc. reflexivity.
Qed.

(** On a window not marked as changed, the answer is that of the redraw
    function of the class, and TRUE when there is none. *)
Lemma window_redraw_unchanged (klass_redraw : option (M bool)) (w : World) :
  changed (priv w) = false ->
  window_redraw true klass_redraw w =
  match klass_redraw with
  | Some redraw => redraw w
  | None => Done (true, w)
  end.
Proof.
  intros Hc. unfold window_redraw, bind, get_priv.
  cbn [negb obind fst snd]. rewrite Hc. destruct klass_redraw; reflexivity.
Qed.

Section InputAndRedraw.

Variable sng_widget_is_visible : SngWidget -> bool.
Variable container_find_by_position : Z -> Z -> SngWidget.
Variable clicked_result : SngWidget -> MEVENT -> Z.
Variable key_pressed_result : SngWidget -> Z -> Z.
Variable key_find_action : Z -> KeybindingAction -> KeybindingAction.
Variable KEY_HANDLED : Z.

(** X8: after [window_handle_mouse] or [window_handle_key] has returned,
    whatever the event and its verdict, the next [window_redraw] answers
    TRUE without calling the redraw function of the class and clears the
    changed flag; the [window_redraw] after that one is answered by the
    redraw function of the class, or is TRUE when the class has none. *)
Theorem X8_input_forces_one_redraw
        (fuel : nat) (mevent : MEVENT) (key v : Z) (w w1 : World)
        (klass_redraw : option (M bool)) :
  window_handle_mouse container_find_by_position clicked_result KEY_HANDLED
                      mevent w = Done (v, w1) \/
  window_handle_key sng_widget_is_visible key_pressed_result key_find_action
                    KEY_HANDLED fuel key w = Done (v, w1) ->
  window_redraw true klass_redraw w1 =
    Done (true, mkWorld (set_changed false (priv w1)) (trace w1)) /\
  window_redraw true klass_redraw
                (mkWorld (set_changed false (priv w1)) (trace w1)) =
    match klass_redraw with
    | Some redraw => redraw (mkWorld (set_changed false (priv w1)) (trace w1))
    | None => Done (true, mkWorld (set_changed false (priv w1)) (trace w1))
    end.
Proof.
  intros H.
  assert (Hc : changed (priv w1) = true).
  { destruct H as [H | H].
    - destruct (window_handle_mouse_changed container_find_by_position
                  clicked_result KEY_HANDLED mevent w) as [v' [w' [Hrun Hc]]].
      rewrite Hrun in H. injection H as _ <-. exact Hc.
    - apply window_handle_key_frame in H. destruct H as [_ [_ [Hc _]]].
      exact Hc. }
  split.
  - apply window_redraw_changed, Hc.
  - apply window_redraw_unchanged. reflexivity.
Qed.

End InputAndRedraw.

Lemma X8_input_forces_one_redraw_witness :
  window_redraw true (Some (ret false))
    (mkWorld (set_changed true (priv scenario_window)) []) =
  Done (true, scenario_window) /\
  window_redraw true (Some (ret false)) scenario_window =
  Done (false, scenario_window).
Proof.
  apply (X8_input_forces_one_redraw scenario_visible (fun _ _ => NULL)
           (fun _ _ => (-1)%Z) (fun _ _ => (-1)%Z) scenario_action 0%Z
           3 (mkMEVENT 0 4 2 0 0) 9%Z 0%Z scenario_window
           (mkWorld (set_changed true (priv scenario_window)) [])
           (Some (ret false))).
  left. reflexivity.
Defined.

(** ** Drawing the window *)

Lemma postorder_container (addr : SngWidget) (can_focus : bool)
                          (children : list Widget) :
  postorder (WidgetNode addr can_focus (Some children)) =
  flat_map postorder children ++ [WidgetNode addr can_focus (Some children)].
Proof. reflexivity. Qed.

Lemma window_map_floating_child_container
        (sng_widget_is_floating : SngWidget -> bool) (addr : SngWidget)
        (can_focus : bool) (children : list Widget) :
  window_map_floating_child sng_widget_is_floating
                            (WidgetNode addr can_focus (Some children)) =
  flat_map (window_map_floating_child sng_widget_is_floating) children ++
  (if sng_widget_is_floating addr then [sng_widget_map addr] else []).
Proof. reflexivity. Qed.

(** The floating pass over a subtree maps the floating nodes of the
    subtree, in post-order. *)
Lemma window_map_floating_child_postorder
        (sng_widget_is_floating : SngWidget -> bool) (t : Widget) :
  window_map_floating_child sng_widget_is_floating t =
  map sng_widget_map
      (filter sng_widget_is_floating (map widget_addr (postorder t))).
Proof.
  induction t as [addr can_focus | addr can_focus children IH]
    using Widget_ind.
  - cbn. destruct (sng_widget_is_floating addr); reflexivity.
  - rewrite window_map_floating_child_container, postorder_container.
    rewrite map_app, filter_app, map_app. f_equal.
    + induction IH as [| child l Hchild _ IHl]; [reflexivity |].
      cbn [flat_map]. rewrite map_app, filter_app, map_app, Hchild, IHl.
      reflexivity.
    + cbn. destruct (sng_widget_is_floating addr); reflexivity.
Qed.

Lemma window_map_floating_postorder
        (sng_widget_is_floating : SngWidget -> bool)
        (children : list Widget) :
  window_map_floating sng_widget_is_floating children =
  map sng_widget_map
      (filter sng_widget_is_floating
              (map widget_addr (flat_map postorder children))).
Proof.
  unfold window_map_floating.
  induction children as [| child l IH]; [reflexivity |].
  cbn [flat_map].
  rewrite map_app, filter_app, map_app, IH,
          window_map_floating_child_postorder.
  reflexivity.
Qed.

(** X10: [window_draw] draws the window, maps it, and then maps the
    floating widgets found below the window, in post-order: those inside a
    container before the container itself, the children in their order.  A
    widget is mapped by this last pass exactly when it is floating and
    lies below the window; the window itself is not mapped again.  The
    value returned is 0. *)
Theorem X10_draw_maps_floating_in_postorder
        (sng_widget_is_floating : SngWidget -> bool) (self : SngWidget)
        (children : list Widget) :
  window_draw sng_widget_is_floating self children =
  ( [sng_widget_draw self; sng_widget_map self] ++
    map sng_widget_map
        (filter sng_widget_is_floating
                (map widget_addr (flat_map postorder children))),
    0%Z ) /\
  (forall widget,
     In (sng_widget_map widget)
        (window_map_floating sng_widget_is_floating children) <->
     sng_widget_is_floating widget = true /\
     In widget (map widget_addr (flat_map postorder children))).
Proof.
  split.
  - unfold window_draw. rewrite window_map_floating_postorder. reflexivity.
  - intros widget. rewrite window_map_floating_postorder. split.
    + intros H. apply in_map_iff in H. destruct H as [a [Ha Hin]].
      injection Ha as ->. apply filter_In in Hin. tauto.
    + intros [Hf Hin]. apply in_map. apply filter_In. tauto.
Qed.

(** ** The title *)

(** X11: for a window of [width] columns and a title, both within the
    range of an [int], [window_set_title] prints the title once, at the
    column that is half of [width - strlen(title)], rounded down.  A title
    that fits is centred: it lies within the window and the margin on its
    right is the margin on its left or one column more.  A title longer
    than the window is printed at a negative column. *)
Theorem X11_title_column
        (has_colors : bool) (CP_DEF_ON_BLUE : ColorPair) (width : Z)
        (title : string) :
  (0 <= width <= G_MAXINT)%Z ->
  (strlen title <= G_MAXINT)%Z ->
  title_columns (window_set_title has_colors CP_DEF_ON_BLUE width title) =
    [((width - strlen title) / 2)%Z] /\
  ((strlen title <= width)%Z ->
   (0 <= (width - strlen title) / 2)%Z /\
   ((width - strlen title) / 2 + strlen title <= width)%Z /\
   (0 <= (width - strlen title - (width - strlen title) / 2)
         - (width - strlen title) / 2 <= 1)%Z) /\
  ((width < strlen title)%Z -> ((width - strlen title) / 2 < 0)%Z).
Proof.
  intros Hw Hl. pose proof (strlen_nonneg title) as Hs.
  unfold G_MAXINT in *.
  split; [| split].
  - assert (Hcol : wrap_gint (wrap_size_t (wrap_size_t width - strlen title) / 2)
                   = ((width - strlen title) / 2)%Z).
    { unfold wrap_size_t. rewrite (Z.mod_small width) by lia.
      destruct (Z_le_gt_dec (strlen title) width) as [Hfit | Hlong].
      - rewrite (Z.mod_small (width - strlen title)) by lia.
        apply wrap_gint_id. unfold is_gint, G_MININT, G_MAXINT.
        Z.to_euclidean_division_equations. lia.
      - replace ((width - strlen title) mod 2 ^ 64)%Z
          with (width - strlen title + 2 ^ 64)%Z.
        + unfold wrap_gint. Z.to_euclidean_division_equations. lia.
        + apply Z.mod_unique with (q := (-1)%Z); lia. }
    unfold window_set_title, title_columns.
    rewrite !flat_map_app. cbn [flat_map app map window_clear_line].
    rewrite Hcol. destruct has_colors; reflexivity.
  - intros Hfit. Z.to_euclidean_division_equations. lia.
  - intros Hlong. Z.to_euclidean_division_equations. lia.
Qed.

Lemma X11_title_column_witness :
  title_columns (window_set_title true CP_DEF_ON_CYAN 80 "sngrep") = [37%Z] /\
  title_columns (window_set_title true CP_DEF_ON_CYAN 4 "sngrep") = [(-1)%Z].
Proof.
  split.
  - apply (X11_title_column true CP_DEF_ON_CYAN 80 "sngrep").
    + split; vm_compute; discriminate.
    + vm_compute. discriminate.
  - apply (X11_title_column true CP_DEF_ON_CYAN 4 "sngrep").
    + split; vm_compute; discriminate.
    + vm_compute. discriminate.
Defined.

(** ** Where a window is placed *)

(** The calls of [window_realize] on a widget not yet realized, for
    dimensions whose differences are [gint] values. *)
Lemma window_realize_places (maxy maxx height width : Z) (win : WINDOW)
                            (pan : PANEL) (w : World) :
  is_gint (maxy - height) -> is_gint (maxx - width) ->
  window_realize false maxy maxx height width win pan w =
  Done (tt,
        mkWorld (set_panel pan (priv w))
          (trace w ++
           [ mkObserved (sng_widget_set_position (centred maxy height)
                                                 (centred maxx width)) (priv w);
             mkObserved (newwin height width (centred maxy height)
                                             (centred maxx width)) (priv w);
             mkObserved (sng_widget_set_ncurses_window win) (priv w);
             mkObserved (wtimeout win 0) (priv w);
             mkObserved (keypad win true) (priv w);
             mkObserved (new_panel win) (priv w);
             mkObserved widget_class_realize (set_panel pan (priv w)) ])).
Proof.
  intros Hy Hx. unfold window_realize. cbn [negb].
  rewrite (offset_centred maxy height Hy), (offset_centred maxx width Hx).
  unfold bind, extern, modify_priv. cbn [obind fst snd priv trace].
  repeat rewrite <- app_assoc. reflexivity.
Qed.

(** A dimension that fits is centred; one that does not is moved by half
    of what is too much. *)
Lemma centred_geometry (s d : Z) :
  (0 <= s)%Z -> (0 <= d)%Z ->
  ((d <= s)%Z ->
   (0 <= centred s d)%Z /\ (centred s d + d <= s)%Z /\
   (0 <= (s - d - centred s d) - centred s d <= 1)%Z) /\
  ((s < d)%Z ->
   (2 * centred s d <= d - s <= 2 * centred s d + 1)%Z /\
   (s < centred s d + d)%Z).
Proof.
  intros Hs Hd. unfold centred.
  destruct (Z.eqb_spec s d) as [-> | Hne]; [lia |].
  split; intros H.
  - rewrite Z.abs_eq by (apply Z.quot_pos; lia).
    Z.to_euclidean_division_equations. lia.
  - rewrite Z.abs_neq by (Z.to_euclidean_division_equations; lia).
    Z.to_euclidean_division_equations. lia.
Qed.

(** X12: on a widget not yet realized, with screen and window dimensions
    that are non-negative [int] values, [window_realize] creates the curses
    window at a row and a column such that, on each axis: a window no
    larger than the screen lies within the screen, with the margin after
    it equal to the margin before it or one more; a window larger than the
    screen is not placed at 0 but moved by half of the excess (rounded
    down), so that it ends beyond the screen by the excess and that
    half. *)
Theorem X12_realize_placement (maxy maxx height width : Z) (win : WINDOW)
                              (pan : PANEL) (w : World) :
  (0 <= maxy <= G_MAXINT)%Z -> (0 <= maxx <= G_MAXINT)%Z ->
  (0 <= height <= G_MAXINT)%Z -> (0 <= width <= G_MAXINT)%Z ->
  exists row col,
    window_realize false maxy maxx height width win pan w =
    Done (tt,
          mkWorld (set_panel pan (priv w))
            (trace w ++
             [ mkObserved (sng_widget_set_position row col) (priv w);
               mkObserved (newwin height width row col) (priv w);
               mkObserved (sng_widget_set_ncurses_window win) (priv w);
               mkObserved (wtimeout win 0) (priv w);
               mkObserved (keypad win true) (priv w);
               mkObserved (new_panel win) (priv w);
               mkObserved widget_class_realize (set_panel pan (priv w)) ])) /\
    ((height <= maxy)%Z ->
     (0 <= row)%Z /\ (row + height <= maxy)%Z /\
     (0 <= (maxy - height - row) - row <= 1)%Z) /\
    ((maxy < height)%Z ->
     (2 * row <= height - maxy <= 2 * row + 1)%Z /\ (maxy < row + height)%Z) /\
    ((width <= maxx)%Z ->
     (0 <= col)%Z /\ (col + width <= maxx)%Z /\
     (0 <= (maxx - width - col) - col <= 1)%Z) /\
    ((maxx < width)%Z ->
     (2 * col <= width - maxx <= 2 * col + 1)%Z /\ (maxx < col + width)%Z).
Proof.
  intros Hy Hx Hh Hw.
  exists (centred maxy height), (centred maxx width).
  split.
  - apply window_realize_places; apply dimensions_differ_by_gint; assumption.
  - pose proof (centred_geometry maxy height ltac:(lia) ltac:(lia))
      as [Hfit Hbig].
    pose proof (centred_geometry maxx width ltac:(lia) ltac:(lia))
      as [Hfit' Hbig'].
    split; [exact Hfit |]. split; [exact Hbig |].
    split; [exact Hfit' | exact Hbig'].
Qed.

Lemma X12_realize_placement_witness :
  exists row col,
    window_realize false 24 80 10 100 5%Z 6%Z (mkWorld (window_init 7%Z) []) =
    Done (tt,
          mkWorld (set_panel 6%Z (window_init 7%Z))
            [ mkObserved (sng_widget_set_position row col) (window_init 7%Z);
              mkObserved (newwin 10 100 row col) (window_init 7%Z);
              mkObserved (sng_widget_set_ncurses_window 5%Z) (window_init 7%Z);
              mkObserved (wtimeout 5%Z 0) (window_init 7%Z);
              mkObserved (keypad 5%Z true) (window_init 7%Z);
              mkObserved (new_panel 5%Z) (window_init 7%Z);
              mkObserved widget_class_realize
                         (set_panel 6%Z (window_init 7%Z)) ]) /\
    (row + 10 <= 24)%Z /\ (80 < col + 100)%Z.
Proof.
  destruct (X12_realize_placement 24 80 10 100 5%Z 6%Z
              (mkWorld (window_init 7%Z) []))
    as [row [col [Hrun [Hfit [_ [_ Hbig]]]]]]; try gint_lia.
  exists row, col. split; [exact Hrun |].
  split; [apply Hfit; lia | apply Hbig; lia].
Defined.

(** ** The footer: odd counts and geometry *)

Lemma array_get_in_range (keybindings : list string) (key : Z) :
  (0 <= key < Z.of_nat (length keybindings))%Z ->
  exists s, array_get keybindings key = Done s.
Proof.
  intros H. unfold array_get.
  destruct (Z.ltb_spec key 0) as [Hn | _]; [lia |].
  destruct (nth_error keybindings (Z.to_nat key)) as [s |] eqn:E.
  - exists s. reflexivity.
  - apply nth_error_None in E. lia.
Qed.

(** With an odd number of strings the loop ends by reading the string
    after the last one, whatever the column it has reached. *)
Lemma draw_bindings_loop_odd (keybindings : list string) (row : Z)
                             (half : nat) :
  length keybindings = 2 * half + 1 ->
  (Z.of_nat (length keybindings) < G_MAXINT)%Z ->
  forall (m j fuel : nat) (xpos : Z),
  j + m = half -> m < fuel ->
  draw_bindings_loop fuel keybindings (Z.of_nat (length keybindings)) row
                     (2 * Z.of_nat j) xpos = Crash OutOfBounds.
Proof.
  intros Hlen Hmax m.
  assert (Hw : forall z, (0 <= z <= G_MAXINT)%Z -> wrap_gint z = z)
    by (intros z Hz; apply wrap_gint_id; gint_lia).
  induction m as [| m IH]; intros j fuel xpos Hj Hfuel;
    (destruct fuel as [| fuel]; [lia |]); cbn [draw_bindings_loop];
    (destruct (Z.ltb_spec (2 * Z.of_nat j) (Z.of_nat (length keybindings)))
      as [_ | Hge]; [| lia]);
    (destruct (array_get_in_range keybindings (2 * Z.of_nat j)) as [s Hs];
      [lia |]); rewrite Hs; cbn [obind]; unfold gint_add;
    rewrite (Hw (2 * Z.of_nat j + 1)%Z) by (unfold G_MAXINT in *; lia).
  - unfold array_get.
    destruct (Z.ltb_spec (2 * Z.of_nat j + 1) 0) as [Hn | _]; [lia |].
    destruct (nth_error keybindings (Z.to_nat (2 * Z.of_nat j + 1)))
      as [s' |] eqn:E; [| reflexivity].
    assert (Hlt : Z.to_nat (2 * Z.of_nat j + 1) < length keybindings)
      by (apply nth_error_Some; rewrite E; discriminate).
    lia.
  - destruct (array_get_in_range keybindings (2 * Z.of_nat j + 1))
      as [s' Hs']; [lia |].
    rewrite Hs'. cbn [obind].
    rewrite (Hw (2 * Z.of_nat j + 2)%Z) by (unfold G_MAXINT in *; lia).
    replace (2 * Z.of_nat j + 2)%Z with (2 * Z.of_nat (S j))%Z by lia.
    rewrite IH by lia. reflexivity.
Qed.

(** X13: [window_draw_bindings] reads the strings two at a time.  Given an
    array of an odd number of strings and that number as [count], it reads
    the string after the last one of the array, whatever the strings
    are. *)
Theorem X13_odd_count_reads_past_the_array
        (has_colors : bool) (height width : Z) (fuel : nat)
        (keybindings : list string) :
  Nat.odd (length keybindings) = true ->
  (Z.of_nat (length keybindings) < G_MAXINT)%Z ->
  length keybindings < 2 * fuel ->
  window_draw_bindings has_colors height width fuel keybindings
                       (Z.of_nat (length keybindings))
  = Crash OutOfBounds.
Proof.
  intros Hodd Hmax Hfuel.
  apply Nat.odd_spec in Hodd. destruct Hodd as [half Hhalf].
  unfold window_draw_bindings.
  change 0%Z with (2 * Z.of_nat 0)%Z at 1.
  rewrite (draw_bindings_loop_odd keybindings (gint_sub height 1) half
             Hhalf Hmax half 0 fuel) by lia.
  reflexivity.
Qed.

Lemma X13_odd_count_reads_past_the_array_witness :
  window_draw_bindings true 24 80 2 ["F1"; "Help"; "Esc"]%string 3
  = Crash OutOfBounds.
Proof.
  apply (X13_odd_count_reads_past_the_array true 24 80 2
           ["F1"; "Help"; "Esc"]%string).
  - reflexivity.
  - vm_compute. reflexivity.
  - simpl. lia.
Defined.

Lemma footer_extent_nonneg (pairs : list (string * string)) :
  (0 <= footer_extent pairs)%Z.
Proof. pose proof (footer_extent_length pairs). lia. Qed.

(** The cells of a footer lie between its first column and the end of its
    last field. *)
Lemma footer_cells_within (pairs : list (string * string)) :
  forall x c, In c (footer_cells pairs x) ->
    (x <= cell_col c)%Z /\
    (cell_col c + cell_width c <= x + footer_extent pairs - 2)%Z.
Proof.
  induction pairs as [| [label descr] rest IH]; intros x c Hin.
  - destruct Hin.
  - pose proof (strlen_nonneg label). pose proof (strlen_nonneg descr).
    pose proof (footer_extent_nonneg rest).
    cbn [footer_cells footer_extent] in *.
    destruct Hin as [<- | [<- | Hin]]; cbn [cell_col cell_width]; try lia.
    apply IH in Hin. lia.
Qed.

(** A cell ends before any later cell starts. *)
Lemma footer_cells_ordered (pairs : list (string * string)) (x : Z) :
  forall j' j c c', j < j' ->
    nth_error (footer_cells pairs x) j = Some c ->
    nth_error (footer_cells pairs x) j' = Some c' ->
    (cell_col c + cell_width c <= cell_col c')%Z.
Proof.
  induction j' as [| j'' IH]; intros j c c' Hlt Hc Hc'; [lia |].
  destruct (nth_error (footer_cells pairs x) j'') as [c'' |] eqn:Hc''.
  - pose proof (footer_cells_next pairs x j'' c'' c' Hc'' Hc') as Hnext.
    assert (Hgap : (0 <= (if Nat.even j'' then 0 else 2))%Z)
      by (destruct (Nat.even j''); lia).
    destruct (Nat.eq_dec j j'') as [-> | Hne].
    + rewrite Hc'' in Hc. injection Hc as <-. lia.
    + pose proof (IH j c c'' ltac:(lia) Hc eq_refl) as Hbefore.
      pose proof (footer_cells_width pairs x c''
                    (nth_error_In _ _ Hc'')) as Hwidth.
      pose proof (strlen_nonneg (cell_text c'')). lia.
  - apply nth_error_None in Hc''.
    assert (S j'' < length (footer_cells pairs x))
      by (apply nth_error_Some; rewrite Hc'; discriminate).
    lia.
Qed.

(** X14: for a flat array of pairs whose footer fits in an [int], the
    cells [window_draw_bindings] prints do not depend on the height or the
    width of the window nor on colour support: nothing is clipped to the
    window.  The cells lie between column 0 and the extent of the footer
    less its last two columns, and no cell starts before an earlier cell
    of the array has ended. *)
Theorem X14_footer_cells_geometry
        (has_colors : bool) (height width : Z) (fuel : nat)
        (pairs : list (string * string)) :
  length pairs < fuel ->
  (footer_extent pairs <= G_MAXINT)%Z ->
  exists calls,
    window_draw_bindings has_colors height width fuel (flatten_pairs pairs)
                         (2 * Z.of_nat (length pairs)) = Done calls /\
    (forall has_colors' height' width',
       exists calls',
         window_draw_bindings has_colors' height' width' fuel
                              (flatten_pairs pairs)
                              (2 * Z.of_nat (length pairs)) = Done calls' /\
         cells_of calls' = cells_of calls) /\
    (forall c, In c (cells_of calls) ->
       (0 <= cell_col c)%Z /\
       (cell_col c + cell_width c <= footer_extent pairs - 2)%Z) /\
    (forall j j' c c', j < j' ->
       nth_error (cells_of calls) j = Some c ->
       nth_error (cells_of calls) j' = Some c' ->
       (cell_col c + cell_width c <= cell_col c')%Z).
Proof.
  intros Hfuel Hext.
  destruct (window_draw_bindings_cells has_colors height width fuel pairs
              Hfuel Hext) as [calls [Hrun Hcells]].
  exists calls. split; [exact Hrun |]. rewrite Hcells. split; [| split].
  - intros hc' h' w'.
    destruct (window_draw_bindings_cells hc' h' w' fuel pairs Hfuel Hext)
      as [calls' [Hrun' Hcells']].
    exists calls'. split; assumption.
  - intros c Hin. apply footer_cells_within in Hin. lia.
  - intros j j' c c'. apply footer_cells_ordered.
Qed.

Lemma X14_footer_cells_geometry_witness :
  exists calls,
    window_draw_bindings true 24 10 3
      (flatten_pairs [("F1", "Help"); ("Esc", "Quit")]%string)
      (2 * Z.of_nat 2) = Done calls /\
    (forall c, In c (cells_of calls) ->
       (0 <= cell_col c)%Z /\ (cell_col c + cell_width c <= 19)%Z).
Proof.
  destruct (X14_footer_cells_geometry true 24 10 3
              [("F1", "Help"); ("Esc", "Quit")]%string)
    as [calls [Hrun [_ [Hwithin _]]]].
  - simpl. lia.
  - vm_compute. discriminate.
  - exists calls. split; [exact Hrun | exact Hwithin].
Defined.

(** ** Attaching and duplicates *)

Lemma window_add_widget_chain (t : Widget) (w : World) :
  exists w',
    window_add_widget t w = Done (tt, w') /\
    priv w' = set_focus_chain (focus_chain (priv w) ++ focusable t) (priv w).
Proof.
  destruct (window_update_focus_chain_walks t w) as [w1 [Hrun [Hp _]]].
  eexists. unfold window_add_widget, bind. rewrite Hrun.
  split; [reflexivity | exact Hp].
Qed.

(** X15: attaching a subtree whose focusable widgets are distinct and not
    yet in the chain leaves the chain without a repeated member; but the
    chain is not checked for members already there, and attaching twice a
    subtree that has a focusable widget leaves that widget in the chain
    twice. *)
Theorem X15_attach_and_repeated_members (t : Widget) (w : World) :
  (NoDup (focus_chain (priv w)) ->
   NoDup (map widget_addr (filter sng_widget_can_focus (preorder t))) ->
   (forall a,
      In a (map widget_addr (filter sng_widget_can_focus (preorder t))) ->
      ~ In a (focus_chain (priv w))) ->
   exists w',
     window_add_widget t w = Done (tt, w') /\
     NoDup (focus_chain (priv w'))) /\
  (filter sng_widget_can_focus (preorder t) <> [] ->
   exists w2,
     (window_add_widget t ;; window_add_widget t) w = Done (tt, w2) /\
     ~ NoDup (focus_chain (priv w2))).
Proof.
  fold (focusable t). split.
  - intros Hnd Hnew Hfresh.
    destruct (window_add_widget_chain t w) as [w' [Hrun Hp]].
    exists w'. split; [exact Hrun |]. rewrite Hp. cbn [set_focus_chain focus_chain].
    apply NoDup_app; try assumption.
    intros a Hin Hin'. exact (Hfresh a Hin' Hin).
  - intros Hsome.
    destruct (window_add_widget_chain t w) as [w1 [Hrun1 Hp1]].
    destruct (window_add_widget_chain t w1) as [w2 [Hrun2 Hp2]].
    exists w2. split.
    + unfold bind. rewrite Hrun1. exact Hrun2.
    + rewrite Hp2, Hp1. cbn [set_focus_chain focus_chain].
      rewrite <- app_assoc. intros Hnd. apply NoDup_app_remove_l in Hnd.
      unfold focusable in Hnd.
      destruct (filter sng_widget_can_focus (preorder t)) as [| n l];
        [congruence |].
      cbn [map app] in Hnd. inversion Hnd as [| ? ? Hnotin _]; subst.
      apply Hnotin. apply in_elt.
Qed.

Lemma X15_attach_and_repeated_members_witness :
  (exists w',
     window_add_widget scenario_subtree scenario_window = Done (tt, w') /\
     NoDup (focus_chain (priv w'))) /\
  (exists w2,
     (window_add_widget scenario_subtree ;;
      window_add_widget scenario_subtree) scenario_window = Done (tt, w2) /\
     ~ NoDup (focus_chain (priv w2))).
Proof.
  split.
  - apply (proj1 (X15_attach_and_repeated_members
                    scenario_subtree scenario_window)).
    + simpl. repeat constructor; simpl; intuition lia.
    + simpl. repeat constructor; simpl; intuition lia.
    + simpl. intuition lia.
  - apply (proj2 (X15_attach_and_repeated_members
                    scenario_subtree scenario_window)).
    simpl. discriminate.
Defined.

(** ** The focus is handed over *)

Lemma focus_notifications_app (a b : list Observed) :
  focus_notifications (a ++ b) =
  focus_notifications a ++ focus_notifications b.
Proof. unfold focus_notifications. rewrite map_app, filter_app. reflexivity. Qed.

(** A focus transfer adds to the log a proper hand-over from the widget
    that had the focus to the widget that has it afterwards. *)
Lemma transfer_hands_over (w : World) (d : SngWidget) (r : unit * World) :
  window_set_focused_widget d w = Done r ->
  exists new,
    focus_notifications (trace (snd r)) = focus_notifications (trace w) ++ new /\
    forall tail,
      hand_over (focus (priv w)) (new ++ tail) =
      hand_over (focus (priv (snd r))) tail.
Proof.
  intros H. destruct (Z.eq_dec (focus (priv w)) d) as [E | E].
  - rewrite (set_focused_same w d E) in H. injection H as <-.
    exists []. rewrite app_nil_r. split; reflexivity.
  - rewrite (set_focused_other w d E) in H. injection H as <-.
    exists [sng_widget_focus_lost (focus (priv w)); sng_widget_focus_gain d].
    cbn [snd trace priv]. rewrite focus_notifications_app.
    split; [reflexivity |]. intros tail. cbn [app hand_over focus set_focus].
    rewrite Z.eqb_refl. apply not_eq_sym in E. apply Z.eqb_neq in E.
    rewrite E. reflexivity.
Qed.

Section HandOver.

Variable sng_widget_is_visible : SngWidget -> bool.
Variable container_find_by_position : Z -> Z -> SngWidget.
Variable clicked_result : SngWidget -> MEVENT -> Z.
Variable key_pressed_result : SngWidget -> Z -> Z.
Variable key_find_action : Z -> KeybindingAction -> KeybindingAction.
Variable KEY_HANDLED : Z.

Lemma handle_event_hands_over (fuel : nat) (e : InputEvent) (v : Z)
                              (w w' : World) :
  handle_event sng_widget_is_visible container_find_by_position
               clicked_result key_pressed_result key_find_action KEY_HANDLED
               fuel e w = Done (v, w') ->
  exists new,
    focus_notifications (trace w') = focus_notifications (trace w) ++ new /\
    forall tail,
      hand_over (focus (priv w)) (new ++ tail) =
      hand_over (focus (priv w')) tail.
Proof.
  destruct e as [key | mevent]; cbn [handle_event]; intros H.
  - assert (Hnav : forall d,
              window_set_focused_widget d (mark_changed w)
              = Done (tt, w') ->
              exists new,
                focus_notifications (trace w') =
                focus_notifications (trace w) ++ new /\
                forall tail, hand_over (focus (priv w)) (new ++ tail) =
                             hand_over (focus (priv w')) tail).
    { intros d Hd. apply transfer_hands_over in Hd. exact Hd. }
    destruct (key_find_action key ACTION_UNKNOWN) eqn:Ha.
    + rewrite window_handle_key_other in H by congruence.
      injection H as _ <-. exists []. cbn [trace priv focus set_changed].
      rewrite focus_notifications_app, !app_nil_r. split; reflexivity.
    + rewrite (window_handle_key_next _ _ _ _ fuel key w Ha) in H.
      destruct (window_focus_next sng_widget_is_visible fuel (mark_changed w))
        as [[[] w1] | f |] eqn:Hrun; cbn [obind snd] in H; try discriminate.
      injection H as _ <-.
      destruct (window_focus_next_inv _ _ _ _ Hrun) as [d Hd].
      apply (Hnav d). exact Hd.
    + rewrite (window_handle_key_prev _ _ _ _ fuel key w Ha) in H.
      destruct (window_focus_prev sng_widget_is_visible fuel (mark_changed w))
        as [[[] w1] | f |] eqn:Hrun; cbn [obind snd] in H; try discriminate.
      injection H as _ <-.
      destruct (window_focus_prev_inv _ _ _ _ Hrun) as [d Hd].
      apply (Hnav d). exact Hd.
    + rewrite window_handle_key_other in H by congruence.
      injection H as _ <-. exists []. cbn [trace priv focus set_changed].
      rewrite focus_notifications_app, !app_nil_r. split; reflexivity.
  - destruct (Z.eq_dec
                (container_find_by_position (mev_x mevent) (mev_y mevent))
                NULL) as [Hnull | Hhit].
    + unfold window_handle_mouse, bind, modify_priv in H.
      cbn [obind fst snd] in H. rewrite Hnull in H.
      injection H as _ <-. exists []. rewrite app_nil_r.
      split; reflexivity.
    + destruct (window_handle_mouse_hit container_find_by_position
                  clicked_result KEY_HANDLED mevent w Hhit)
        as [w1 [Hset [_ [_ Hrun]]]].
      rewrite Hrun in H. injection H as _ <-.
      apply transfer_hands_over in Hset. destruct Hset as [new [Hlog Hover]].
      exists new. cbn [snd trace priv] in *.
      rewrite focus_notifications_app, Hlog, app_nil_r.
      split; [reflexivity | exact Hover].
Qed.

(** X16: over any sequence of keys and clicks that the handlers return
    from, the focus notifications added to the log hand the focus over
    properly: they come in pairs, [sng_widget_focus_lost] on the widget
    that holds the focus and then [sng_widget_focus_gain] on a different
    widget, which holds it from then on; the holder after the last pair is
    the focused widget of the window. *)
Theorem X16_focus_is_handed_over
        (fuel : nat) (events : list InputEvent) :
  forall (vs : list Z) (w w' : World),
  handle_events sng_widget_is_visible container_find_by_position
                clicked_result key_pressed_result key_find_action KEY_HANDLED
                fuel events w = Done (vs, w') ->
  exists new,
    focus_notifications (trace w') = focus_notifications (trace w) ++ new /\
    hand_over (focus (priv w)) new = Some (focus (priv w')).
Proof.
  assert (Hgen : forall (vs : list Z) (w w' : World),
            handle_events sng_widget_is_visible container_find_by_position
              clicked_result key_pressed_result key_find_action KEY_HANDLED
              fuel events w = Done (vs, w') ->
            exists new,
              focus_notifications (trace w') =
              focus_notifications (trace w) ++ new /\
              forall tail, hand_over (focus (priv w)) (new ++ tail) =
                           hand_over (focus (priv w')) tail).
  { induction events as [| e rest IH]; intros vs w w' H.
    - injection H as <- <-. exists []. rewrite app_nil_r.
      split; reflexivity.
    - cbn [handle_events] in H. unfold bind at 1 in H.
      destruct (handle_event sng_widget_is_visible container_find_by_position
                  clicked_result key_pressed_result key_find_action
                  KEY_HANDLED fuel e w)
        as [[v w1] | f |] eqn:He; cbn [obind fst snd] in H;
        try discriminate.
      unfold bind at 1 in H.
      destruct (handle_events sng_widget_is_visible
                  container_find_by_position clicked_result
                  key_pressed_result key_find_action KEY_HANDLED fuel rest w1)
        as [[vs1 w2] | f |] eqn:Hrest; cbn [obind fst snd] in H;
        try discriminate.
      injection H as <- <-.
      destruct (handle_event_hands_over fuel e v w w1 He)
        as [new1 [Hlog1 Hover1]].
      destruct (IH vs1 w1 w2 Hrest) as [new2 [Hlog2 Hover2]].
      exists (new1 ++ new2). split.
      + rewrite Hlog2, Hlog1, app_assoc. reflexivity.
      + intros tail. rewrite <- app_assoc, Hover1, Hover2. reflexivity. }
  intros vs w w' H. destruct (Hgen vs w w' H) as [new [Hlog Hover]].
  exists new. split; [exact Hlog |].
  specialize (Hover []). rewrite app_nil_r in Hover. exact Hover.
Qed.

End HandOver.

Lemma X16_focus_is_handed_over_witness :
  exists new,
    focus_notifications
      (trace (mkWorld (set_focus 1%Z (set_changed true (priv scenario_window)))
                [ mkObserved (sng_widget_focus_lost 1%Z)
                    (set_changed true (priv scenario_window));
                  mkObserved (sng_widget_focus_gain 3%Z)
                    (set_focus 3%Z (set_changed true (priv scenario_window)));
                  mkObserved (sng_widget_focus_lost 3%Z)
                    (set_focus 3%Z (set_changed true (priv scenario_window)));
                  mkObserved (sng_widget_focus_gain 1%Z)
                    (set_focus 1%Z (set_changed true (priv scenario_window)));
                  mkObserved (sng_widget_clicked 1%Z (mkMEVENT 0 4 2 0 0))
                    (set_focus 1%Z (set_changed true (priv scenario_window)))
                ])) =
    focus_notifications (trace scenario_window) ++ new /\
    hand_over 1%Z new = Some 1%Z.
Proof.
  apply (X16_focus_is_handed_over scenario_visible (fun _ _ => 1%Z)
           (fun _ _ => (-1)%Z) (fun _ _ => (-1)%Z) scenario_action 0%Z 3
           [key_event 9; mouse_event (mkMEVENT 0 4 2 0 0)]
           [0%Z; (-1)%Z] scenario_window).
  vm_compute. reflexivity.
Defined.

(** ** Sequences of keys amid other code *)

Section KeySteps.

Variable key_pressed_result : SngWidget -> Z -> Z.
Variable key_find_action : Z -> KeybindingAction -> KeybindingAction.
Variable KEY_HANDLED : Z.

(** X5: let keys arrive one after the other while other code runs between
    them (the handlers of the widgets, the rest of the program) and
    widgets are hidden or shown.  If that other code leaves the chain as
    it is and the focus on a member of the chain whenever it finds them
    so, and some member of the chain is visible whenever a key arrives,
    then every key is handled without fault, with fuel for one turn of
    the chain per key: there is a verdict for each key, [KEY_HANDLED] for
    each navigation key, and the focus ends on a member of the chain. *)
Theorem X5_key_sequences_are_handled (fuel : nat) (steps : list KeyStep) :
  forall w : World,
  In (focus (priv w)) (focus_chain (priv w)) ->
  length (focus_chain (priv w)) <= fuel ->
  Forall (fun s =>
            (forall w0,
               focus_chain (priv w0) = focus_chain (priv w) ->
               In (focus (priv w0)) (focus_chain (priv w)) ->
               focus_chain (priv (step_before s w0)) = focus_chain (priv w) /\
               In (focus (priv (step_before s w0))) (focus_chain (priv w))) /\
            (exists d, In d (focus_chain (priv w)) /\ step_visible s d = true))
         steps ->
  exists vs w',
    handle_key_steps key_pressed_result key_find_action KEY_HANDLED fuel
                     steps w = Done (vs, w') /\
    Forall2 (fun s v =>
               is_navigation (key_find_action (step_key s) ACTION_UNKNOWN)
               = true -> v = KEY_HANDLED) steps vs /\
    focus_chain (priv w') = focus_chain (priv w) /\
    In (focus (priv w')) (focus_chain (priv w)).
Proof.
  intros w Hin Hfuel Hsteps.
  remember (focus_chain (priv w)) as chain eqn:Hchain.
  assert (Hc : focus_chain (priv w) = chain) by congruence.
  clear Hchain. revert w Hin Hc.
  induction Hsteps as [| s rest [Hbefore Hvis] _ IH]; intros w Hin Hc.
  - exists [], w. repeat split; [constructor | exact Hc | exact Hin].
  - destruct (Hbefore w Hc Hin) as [Hc0 Hin0].
    destruct (window_handle_key_ready (step_visible s) key_pressed_result
                key_find_action KEY_HANDLED fuel (step_key s)
                (step_before s w))
      as [v [w1 [Hrun [Hin1 [Hnav _]]]]].
    + rewrite Hc0. exact Hin0.
    + rewrite Hc0. exact Hvis.
    + rewrite Hc0. exact Hfuel.
    + pose proof (window_handle_key_frame (step_visible s) key_pressed_result
                    key_find_action KEY_HANDLED fuel (step_key s) v
                    (step_before s w) w1 Hrun) as [_ [_ [_ [Hch _]]]].
      cbn [mark_changed priv set_changed focus_chain] in Hch.
      rewrite Hc0 in Hch, Hin1.
      destruct (IH w1 Hin1 Hch) as [vs [w' [Hrest [Hall [Hch' Hin']]]]].
      exists (v :: vs), w'. cbn [handle_key_steps]. unfold bind at 1.
      rewrite Hrun. cbn [obind fst snd]. unfold bind at 1.
      rewrite Hrest. cbn [obind fst snd].
      split; [reflexivity |]. split; [constructor; assumption |].
      split; assumption.
Qed.

End KeySteps.

Lemma X5_key_sequences_are_handled_witness :
  exists vs w',
    handle_key_steps (fun _ _ => (-1)%Z) scenario_action 0%Z 3
      [ mkKeyStep (fun w => w) scenario_visible 9%Z;
        mkKeyStep (fun w => w) (fun d => Z.eqb d 2) 9%Z;
        mkKeyStep (fun w => mkWorld (set_focus 1%Z (priv w)) (trace w))
                  (fun _ => true) 65%Z ]
      scenario_window = Done (vs, w') /\
    vs = [0%Z; 0%Z; (-1)%Z] /\
    focus (priv w') = 1%Z.
Proof.
  destruct (X5_key_sequences_are_handled (fun _ _ => (-1)%Z) scenario_action
              0%Z 3
              [ mkKeyStep (fun w => w) scenario_visible 9%Z;
                mkKeyStep (fun w => w) (fun d => Z.eqb d 2) 9%Z;
                mkKeyStep (fun w => mkWorld (set_focus 1%Z (priv w)) (trace w))
                          (fun _ => true) 65%Z ]
              scenario_window)
    as [vs [w' [Hrun _]]].
  - simpl. left. reflexivity.
  - simpl. lia.
  - apply Forall_cons; [| apply Forall_cons; [| apply Forall_cons;
                                                  [| apply Forall_nil]]];
      cbn [step_before step_visible]; split.
    + intros w0 H1 H2. split; assumption.
    + exists 1%Z. split; [simpl; left; reflexivity | reflexivity].
    + intros w0 H1 H2. split; assumption.
    + exists 2%Z. split; [simpl; right; left; reflexivity | reflexivity].
    + intros w0 H1 H2. split; [exact H1 | simpl; left; reflexivity].
    + exists 1%Z. split; [simpl; left; reflexivity | reflexivity].
  - exists vs, w'. split; [exact Hrun |].
    vm_compute in Hrun. injection Hrun as <- <-. split; reflexivity.
Defined.

(** ** The default focus widget *)








